(** * Vafrum bridge: telemetry merge, reconnect policy, command translation
      and camera frame extraction of [main.js], as a shallow embedding.

    The development follows the layout of [main.js]:

    - [Js]        the fragment of JavaScript values and operators the code
                  uses ([??], [||], [===], property reads and writes, object
                  spread, [&], [>>], exceptions);
    - [Telemetry] the MQTT ['message'] handler of [connectPrinter]
                  (lines 341-739), statement by statement, over the
                  [printers] map, and the rebuild of AMS units and trays
                  with the nozzle latch (lines 437-513);
    - [Session]   [connectPrinter], the ['connect'] and ['close'] handlers,
                  [scheduleReconnect], [resetReconnectCounter], the
                  [printer:remove] handler and [executeCommand], over the
                  module-level maps, the pending timers and the published
                  payloads;
    - [StreamManager] [getStreamGroup], [getStreamConfig] and [isA1P1Model];
    - [Camera]    [processJpegBuffer] and [processRtspFrameBuffer] over byte
                  buffers, a clock and the frames they emit, the ['data']
                  handlers that feed them, the auth packet of the Direct
                  socket and the retry policy of both camera connections;
    - [DirectSession] [startJpegStream], [connectJpegStream] and
                  [stopJpegStream] over session objects, sockets and timers
                  with their identities, as the handlers close over them.

    Numbers are IEEE doubles in the source.  Integer-valued numbers are
    modelled as [Z], with the 32-bit wrap-around of the bit operators written
    out; the one place where the code multiplies by a constant that is not
    an integer (the fan scaling by [2.55]) is computed in binary64 with the
    Standard Library's [SpecFloat].  The text of log lines ([sendLog]) and
    the status events sent upstream after a merge are not part of the model;
    what a log line does to the rest is: the conversions of its arguments
    that can throw ([Js.convertible]), the read of a [const] before its
    declaration at line 518 and the readings of the clock in the camera
    paths.

    Values are the values of [JSON.parse]: an object is a list of own
    properties and holds no function, so the conversion of a value to a
    string or a number throws exactly when the value is an object with an
    own property [toString], or an array with such an item. *)

From Stdlib Require Import ZArith Lia Bool List Ascii String DecimalString.
From Stdlib Require DecimalNat DecimalFacts.
From Stdlib Require Import Strings.Byte.
From Stdlib Require Import Floats.SpecFloat.
From Stdlib Require Import QArith Qminmax Qpower.
From Stdlib Require Import Sorting.Sorted.
From stdpp Require Import base option list strings gmap.

Set Warnings "-register-all".

Open Scope Z_scope.
Open Scope string_scope.

(* ===================================================================== *)
(** * JavaScript values and operators                                     *)
(* ===================================================================== *)

Module Js.

(** A JSON-shaped JavaScript value.  Objects keep their properties in
    insertion order, the later of two equal keys wins on lookup as it does
    for an object literal and for [JSON.parse]. *)
Inductive JsVal : Type :=
| JUndef
| JNull
| JBool (b : bool)
| JNum (n : Z)
| JStr (s : string)
| JArr (items : list JsVal)
| JObj (props : list (string * JsVal)).

(** Exceptions the modelled code can raise. *)
Inductive JsError : Type :=
| TypeError (what : string)
| ReferenceError (what : string).

(** Evaluation that either completes with a value or throws. *)
Inductive Exc (A : Type) : Type :=
| Ok (a : A)
| Throw (e : JsError).
Arguments Ok {A} a.
Arguments Throw {A} e.

#[global] Instance exc_ret : MRet Exc := fun _ a => Ok a.
#[global] Instance exc_bind : MBind Exc := fun _ _ k m =>
  match m with
  | Ok a => k a
  | Throw e => Throw e
  end.

(** [try { body } catch (e) {}] around a state transformer: a throw leaves
    the given fallback state. *)
Definition tryCatch {A} (fallback : A) (body : Exc A) : A :=
  match body with
  | Ok a => a
  | Throw _ => fallback
  end.

Fixpoint lookupOpt (k : string) (props : list (string * JsVal)) : option JsVal :=
  match props with
  | [] => None
  | (k', v) :: rest =>
      match lookupOpt k rest with
      | Some later => Some later
      | None => if String.eqb k k' then Some v else None
      end
  end.

Definition lookupProp (k : string) (props : list (string * JsVal)) : JsVal :=
  match lookupOpt k props with
  | Some v => v
  | None => JUndef
  end.

(** [o?.k]: the own property of an object, [undefined] for anything without
    it.  None of the keys the modelled code reads is a property that objects,
    arrays or strings inherit. *)
Definition getProp (o : JsVal) (k : string) : JsVal :=
  match o with
  | JObj props => lookupProp k props
  | _ => JUndef
  end.

(** [o.k]: as [o?.k] but a [TypeError] on [null] and [undefined]. *)
Definition getPropStrict (o : JsVal) (k : string) : Exc JsVal :=
  match o with
  | JUndef | JNull => Throw (TypeError ("Cannot read properties: " ++ k))
  | _ => Ok (getProp o k)
  end.

(** [o.k = v] on an object: the property keeps its place when the object
    has it and is appended otherwise. *)
Definition setPropList (k : string) (v : JsVal) (props : list (string * JsVal))
  : list (string * JsVal) :=
  match lookupOpt k props with
  | Some _ => map (fun kv => if String.eqb k kv.1 then (k, v) else kv) props
  | None => props ++ [(k, v)]
  end.

Definition setProp (o : JsVal) (k : string) (v : JsVal) : JsVal :=
  match o with
  | JObj props => JObj (setPropList k v props)
  | _ => o
  end.

Definition isObject (v : JsVal) : bool :=
  match v with
  | JObj _ => true
  | _ => false
  end.

Definition objectProps (v : JsVal) : list (string * JsVal) :=
  match v with
  | JObj props => props
  | _ => []
  end.

(** [{...a, ...b}]: the own properties of [a], then those of [b] assigned
    over them; a value that is not an object contributes nothing. *)
Definition spread (a b : JsVal) : JsVal :=
  JObj (fold_left (fun acc kv => setPropList kv.1 kv.2 acc) (objectProps b) (objectProps a)).

Definition isNullish (v : JsVal) : bool :=
  match v with
  | JUndef | JNull => true
  | _ => false
  end.

(** ToBoolean *)
Definition truthy (v : JsVal) : bool :=
  match v with
  | JUndef | JNull => false
  | JBool b => b
  | JNum n => negb (n =? 0)%Z
  | JStr s => negb (String.eqb s "")
  | JArr _ | JObj _ => true
  end.

(** [a ?? b] *)
Definition nullish (a b : JsVal) : JsVal := if isNullish a then b else a.
(** [a || b] *)
Definition orElse (a b : JsVal) : JsVal := if truthy a then a else b.

Infix "??" := nullish (at level 45, left associativity).
Infix "|?" := orElse (at level 46, left associativity).

(** [v === 'literal'] *)
Definition strictEqStr (v : JsVal) (s : string) : bool :=
  match v with
  | JStr s' => String.eqb s' s
  | _ => false
  end.

(** [v === n] for an integer literal *)
Definition strictEqNum (v : JsVal) (n : Z) : bool :=
  match v with
  | JNum n' => (n' =? n)%Z
  | _ => false
  end.

Definition isArray (v : JsVal) : bool :=
  match v with
  | JArr _ => true
  | _ => false
  end.

Definition arrayItems (v : JsVal) : list JsVal :=
  match v with
  | JArr l => l
  | _ => []
  end.

(** [a[i]] for an array *)
Definition index (v : JsVal) (i : nat) : JsVal :=
  match v with
  | JArr l => nth i l JUndef
  | _ => JUndef
  end.

(** ToInt32 of an integer-valued number: wrap to the signed 32-bit range. *)
Definition wrapInt32 (n : Z) : Z := (n + 2^31) mod 2^32 - 2^31.

(** [String.prototype.toUpperCase] for a string of ASCII characters: the
    letters [a] to [z] are mapped, every other character is kept.  (The
    characters outside ASCII that JavaScript maps as well are outside the
    model.) *)
Definition upperAscii (c : ascii) : ascii :=
  let n := nat_of_ascii c in
  if ((97 <=? n)%nat && (n <=? 122)%nat)%bool then ascii_of_nat (n - 32) else c.

Fixpoint toUpperCase (s : string) : string :=
  match s with
  | EmptyString => EmptyString
  | String c rest => String (upperAscii c) (toUpperCase rest)
  end.

(** [hay.includes(needle)] *)
Fixpoint includes (hay needle : string) : bool :=
  if String.prefix needle hay then true
  else match hay with
       | EmptyString => false
       | String _ rest => includes rest needle
       end.

(** Whether ToPrimitive completes on a value, as the operators [&], [>>],
    [*], [+] on strings, template literals, [String(v)] and property keys
    apply it.  For a parsed JSON object the inherited [valueOf] returns the
    object itself and the conversion goes on to [toString]: it raises a
    [TypeError] exactly when the object has an own property [toString],
    which is never callable.  An array is joined, which converts every item
    other than [null] and [undefined]. *)
Fixpoint convertible (v : JsVal) : bool :=
  match v with
  | JObj props =>
      match lookupOpt "toString" props with
      | Some _ => false
      | None => true
      end
  | JArr items => forallb convertible items
  | _ => true
  end.

(** The [TypeError] of a conversion that does not complete. *)
Definition conversionError : JsError :=
  TypeError "Cannot convert object to primitive value".

(** A statement that first converts the values [vs] to primitives. *)
Definition converting {A} (vs : list JsVal) (k : Exc A) : Exc A :=
  if forallb convertible vs then k else Throw conversionError.

(** What the embedding takes from outside: conversions of the engine on
    values the model keeps opaque, and two pieces of the message handler
    that only assemble display data and that no statement below depends on.
    The conversions are asked for [convertible] values only. *)
Class Externals := {
  (** ToInt32(ToNumber(v)) for strings, arrays and objects *)
  hostToInt32 : JsVal -> Z;
  (** ToNumber(v) as a binary64 for strings, arrays and objects *)
  hostToDouble : JsVal -> spec_float;
  (** ToString(v) for arrays and objects *)
  hostToString : JsVal -> string;
  (** Number.prototype.toString for magnitudes above 2^53, where the
      shortest digits that round-trip are padded with zeros *)
  hostBigToString : Z -> string;
  (** [parseInt(v)] *)
  parseInt : JsVal -> JsVal;
  (** The rebuild of AMS units and trays of lines 437-513 from the array
      [p.ams.ams] and the latch [client._amsNozzleLock]: units, trays (or
      the exception) and the latch afterwards. *)
  amsUnits : list JsVal -> JsVal -> Exc (JsVal * JsVal) * JsVal;
  (** The diagnostic record [_h2debug] of lines 709-717 from [data]. *)
  h2debug : JsVal -> Exc JsVal
}.

(** [v & mask] and [v >> k] start from ToInt32 of the operand: its value
    where the conversion of the operand completes ([convertible]). *)
Definition toInt32 `{Externals} (v : JsVal) : Z :=
  match v with
  | JUndef | JNull => 0
  | JBool b => if b then 1 else 0
  | JNum n => wrapInt32 n
  | JStr _ | JArr _ | JObj _ => hostToInt32 v
  end.

End Js.

(* ===================================================================== *)
(** * Telemetry normalizer: the ['message'] handler of [connectPrinter]   *)
(* ===================================================================== *)

Module Telemetry.
Import Js.

(** What the handler of one MQTT client reads and writes: the global
    [printers] map (serial to snapshot object) and the fields it keeps on
    its [client] object. *)
Record HandlerState : Type := {
  printers : gmap string JsVal;
  amsNozzleLock : JsVal;
  debugAmsCmd : bool
}.

Definition withPrinters (st : HandlerState) (m : gmap string JsVal) : HandlerState :=
  {| printers := m; amsNozzleLock := amsNozzleLock st; debugAmsCmd := debugAmsCmd st |}.

Definition withLock (st : HandlerState) (l : JsVal) : HandlerState :=
  {| printers := printers st; amsNozzleLock := l; debugAmsCmd := debugAmsCmd st |}.

(** Statements of the handler: they run on the state and complete or throw;
    what was written before a throw stays written. *)
Definition M (A : Type) : Type := HandlerState -> Exc A * HandlerState.

#[global] Instance m_ret : MRet M := fun _ a st => (Ok a, st).
#[global] Instance m_bind : MBind M := fun _ _ k m st =>
  match m st with
  | (Ok a, st') => k a st'
  | (Throw e, st') => (Throw e, st')
  end.

Definition lift {A} (x : Exc A) : M A := fun st => (x, st).
Definition getState : M HandlerState := fun st => (Ok st, st).
Definition storePrinters (m : gmap string JsVal) : M unit :=
  fun st => (Ok tt, withPrinters st m).

(** A [const] of the enclosing block read by name: its value once the
    declaration has been evaluated, a [ReferenceError] while the binding is
    still uninitialised (the temporal dead zone of [let] and [const]). *)
Definition readConst (name : string) (binding : option JsVal) : Exc JsVal :=
  match binding with
  | Some v => Ok v
  | None => Throw (ReferenceError ("Cannot access '" ++ name ++ "' before initialization"))
  end.

(** [entry?.model?.toUpperCase()?.includes('H2')] (lines 393, 618, 658) *)
Definition modelIsH2 (entry : option JsVal) : Exc JsVal :=
  match entry with
  | None => Ok JUndef
  | Some e =>
      match getProp e "model" with
      | JUndef | JNull => Ok JUndef
      | JStr m => Ok (JBool (includes (toUpperCase m) "H2"))
      | _ => Throw (TypeError "model.toUpperCase is not a function")
      end
  end.

Record Temp : Type := { current : Z; target : Z }.

Definition isIdleState (v : JsVal) : bool :=
  strictEqStr v "IDLE" || strictEqStr v "FINISH".

Definition isPrintingState (v : JsVal) : bool :=
  strictEqStr v "RUNNING" || strictEqStr v "PAUSE" || strictEqStr v "PREPARE".

(** Line 582: [p.gcode_state ?? prevStatus.gcodeState]. *)
Definition currentStateOf (p prevStatus : JsVal) : JsVal :=
  getProp p "gcode_state" ?? getProp prevStatus "gcodeState".

(** Lines 583-596, the writes to [prevStatus] when the state is IDLE or
    FINISH. *)
Definition staleReset (currentState p prevStatus : JsVal) : JsVal :=
  if isIdleState currentState then
    let pe := getProp p "print_error" in
    let s1 :=
      if isNullish pe || strictEqNum pe 0
      then setProp (setProp prevStatus "printError" (JNum 0)) "printErrorCode" (JStr "")
      else prevStatus in
    let s2 := setProp s1 "printProgress" (JNum 0) in
    let s3 := setProp s2 "remainingTime" (JNum 0) in
    let s4 := setProp s3 "nozzleTargetTemp" (JNum 0) in
    let s5 := setProp s4 "nozzleTargetTemp2" (JNum 0) in
    let s6 := setProp s5 "bedTargetTemp" (JNum 0) in
    setProp s6 "hms" (JArr [])
  else prevStatus.

(** Lines 600-608, the writes to [prevStatus] on the way from printing to
    idle. *)
Definition transitionReset (currentState prevStatus : JsVal) : JsVal :=
  let prevState := getProp prevStatus "gcodeState" in
  let wasPrinting := isPrintingState prevState in
  let nowIdle := isIdleState currentState in
  if wasPrinting && nowIdle then
    let s1 := setProp prevStatus "nozzleTemp" (JNum 0) in
    let s2 := setProp s1 "nozzleTemp2" JUndef in
    let s3 := setProp s2 "bedTemp" (JNum 0) in
    setProp s3 "chamberTemp" (JNum 0)
  else prevStatus.

(** [prevStatus] after both resets. *)
Definition resetPrev (p prevStatus : JsVal) : JsVal :=
  let currentState := currentStateOf p prevStatus in
  transitionReset currentState (staleReset currentState p prevStatus).

Section Handler.
Context `{Externals}.

(** Lines 611-614. *)
Definition decodeTemp (encoded : JsVal) : Temp :=
  if isNullish encoded || strictEqNum encoded 0
  then {| current := 0; target := 0 |}
  else {| current := Z.land (toInt32 encoded) 0xFFFF;
          target := Z.land (Z.shiftr (toInt32 encoded) 16) 0xFFFF |}.

(** Lines 349-371: the log statements of the AMS debug window.  They write
    nothing; [Object.keys(data)] and [unit.tray] can throw. *)
Definition debugStage (data : JsVal) : M unit := fun st =>
  if debugAmsCmd st then
    match data with
    | JUndef | JNull => (Throw (TypeError "Object.keys"), st)
    | _ =>
        let pa := getProp (getProp data "print") "ams" in
        if truthy pa then
          match getProp pa "ams" with
          | JArr units =>
              if existsb isNullish units
              then (Throw (TypeError "unit.tray"), st) else (Ok tt, st)
          | _ => (Ok tt, st)
          end
        else (Ok tt, st)
    end
  else (Ok tt, st).

(** Lines 380-390: the chamber temperature of the CTC module is written into
    the stored snapshot at once; [ctcTemp & 0xFFFF] raises a [TypeError]
    for a value that does not convert to a number. *)
Definition ctcStage (serial : string) (data : JsVal) : M unit := fun st =>
  let ctcTemp :=
    getProp (getProp (getProp (getProp (getProp data "print") "device") "ctc") "info") "temp" in
  if isNullish ctcTemp then (Ok tt, st)
  else if convertible ctcTemp then
    let ctcValue := Z.land (toInt32 ctcTemp) 0xFFFF in
    let prev := default (JObj []) (printers st !! serial) in
    (Ok tt, withPrinters st (<[serial := setProp prev "chamberTemp" (JNum ctcValue)]> (printers st)))
  else (Throw conversionError, st).

(** Lines 413-420: [p.lights_report.map(l => l.node + '=' + l.mode)]. *)
Definition lightsLog (p : JsVal) : Exc unit :=
  let lr := getProp p "lights_report" in
  if truthy lr then
    match lr with
    | JArr items =>
        if existsb isNullish items then Throw (TypeError "l.node") else Ok tt
    | _ => Throw (TypeError "lights_report.map is not a function")
    end
  else Ok tt.

(** Lines 426-515: the local [ams]. *)
Definition amsStage (p prevStatus : JsVal) : M JsVal := fun st =>
  let pa := getProp p "ams" in
  if truthy pa then
    let prevAms := getProp prevStatus "ams" |? JObj [("units", JArr []); ("trays", JArr [])] in
    let humidity := getProp pa "ams_humidity" ?? getProp prevAms "humidity" in
    let trayNow := getProp pa "tray_now" ?? getProp prevAms "trayNow" in
    match getProp pa "ams" with
    | JArr units =>
        match amsUnits units (amsNozzleLock st) with
        | (Ok (us, ts), lock') =>
            (Ok (JObj [("humidity", humidity); ("trayNow", trayNow);
                       ("units", us); ("trays", ts)]), withLock st lock')
        | (Throw e, lock') => (Throw e, withLock st lock')
        end
    | _ =>
        (Ok (JObj [("humidity", humidity); ("trayNow", trayNow);
                   ("units", getProp prevAms "units" |? JArr []);
                   ("trays", getProp prevAms "trays" |? JArr [])]), st)
    end
  else (Ok JNull, st).

(** [vtType || (vtColor && vtColor !== '00000000')] *)
Definition hasFilament (vtType vtColor : JsVal) : bool :=
  truthy vtType || (truthy vtColor && negb (strictEqStr vtColor "00000000")).

(** The properties a spool record shares between [vir_slot] and [vt_tray]. *)
Definition spoolProps (slot vtType vtColor : JsVal) : list (string * JsVal) :=
  [ ("type", vtType); ("color", vtColor);
    ("name", getProp slot "tray_sub_brands" |? JStr "");
    ("remain", if isNullish (getProp slot "remain") then JNum (-1)
               else parseInt (getProp slot "remain"));
    ("k", getProp slot "k" |? JNum 0);
    ("nozzleTempMin", getProp slot "nozzle_temp_min" |? JNum 0);
    ("nozzleTempMax", getProp slot "nozzle_temp_max" |? JNum 0);
    ("trayInfoIdx", getProp slot "tray_info_idx" |? JStr "");
    ("tagUid", getProp slot "tag_uid" |? JStr "");
    ("trayWeight", if truthy (getProp slot "tray_weight")
                   then parseInt (getProp slot "tray_weight") else JNum 0) ].

(** The [for (const slot of p.vir_slot)] loop of lines 536-557. *)
Fixpoint virSlots (slots : list JsVal) (externalSpool : JsVal) (externalSpools : list JsVal)
  : Exc (JsVal * list JsVal) :=
  match slots with
  | [] => Ok (externalSpool, externalSpools)
  | slot :: rest =>
      ty ← getPropStrict slot "tray_type";
      let vtType := ty |? JStr "" in
      let vtColor := getProp slot "tray_color" |? JStr "" in
      if hasFilament vtType vtColor then
        let spoolData :=
          JObj (("id", if isNullish (getProp slot "id") then JNum 254
                       else parseInt (getProp slot "id"))
                :: spoolProps slot vtType vtColor) in
        virSlots rest (if truthy externalSpool then externalSpool else spoolData)
                 (externalSpools ++ [spoolData])
      else virSlots rest externalSpool externalSpools
  end.

(** Lines 532-577: the locals [externalSpool] and [externalSpools]. *)
Definition spoolStage (p : JsVal) : Exc (JsVal * list JsVal) :=
  match getProp p "vir_slot" with
  | JArr (s :: ss) => virSlots (s :: ss) JNull []
  | _ =>
      let vt := getProp p "vt_tray" in
      if truthy vt then
        let vtType := getProp vt "tray_type" |? JStr "" in
        let vtColor := getProp vt "tray_color" |? JStr "" in
        if hasFilament vtType vtColor then
          let externalSpool := JObj (spoolProps vt vtType vtColor) in
          Ok (externalSpool, [externalSpool])
        else Ok (JNull, [])
      else Ok (JNull, [])
  end.

(** Lines 623-654: the four nozzle temperatures, from the scalar keys (or,
    on an H2, from [prevStatus] alone) and overridden by the bit-packed
    extruder arrays. *)
Definition nozzleTemps (isH2Model : JsVal) (p prevStatus : JsVal)
  : JsVal * JsVal * JsVal * JsVal :=
  let nozzle1Temp :=
    if truthy isH2Model then getProp prevStatus "nozzleTemp" ?? JNum 0
    else getProp p "nozzle_temper" ?? getProp prevStatus "nozzleTemp" ?? JNum 0 in
  let nozzle1Target :=
    if truthy isH2Model then getProp prevStatus "nozzleTargetTemp" ?? JNum 0
    else getProp p "nozzle_target_temper" ?? getProp prevStatus "nozzleTargetTemp" ?? JNum 0 in
  let nozzle2Temp :=
    if truthy isH2Model then getProp prevStatus "nozzleTemp2"
    else getProp p "nozzle_temper_2" ?? getProp prevStatus "nozzleTemp2" in
  let nozzle2Target :=
    if truthy isH2Model then getProp prevStatus "nozzleTargetTemp2"
    else getProp p "nozzle_target_temper_2" ?? getProp prevStatus "nozzleTargetTemp2" in
  match getProp (getProp (getProp p "device") "extruder") "info" with
  | JArr (e0 :: more) =>
      let left := decodeTemp (getProp e0 "temp") in
      match more with
      | e1 :: _ =>
          let right := decodeTemp (getProp e1 "temp") in
          (JNum (current left), JNum (target left), JNum (current right), JNum (target right))
      | [] => (JNum (current left), JNum (target left), nozzle2Temp, nozzle2Target)
      end
  | _ =>
      match (if truthy (getProp p "extruder") then getProp (getProp p "extruder") "info"
             else JUndef) with
      | JArr (e0 :: e1 :: _) =>
          let left := decodeTemp (getProp e0 "temp") in
          let right := decodeTemp (getProp e1 "temp") in
          (JNum (current left), JNum (target left), JNum (current right), JNum (target right))
      | _ => (nozzle1Temp, nozzle1Target, nozzle2Temp, nozzle2Target)
      end
  end.

(** Line 658. *)
Definition chamberTempValue (isH2Model : JsVal) (p : JsVal) : JsVal :=
  getProp p "chamber_temper"
    ?? (if truthy isH2Model then getProp (getProp p "info") "temp" else JUndef).

(** [lights.find(l => l.node === node)] *)
Fixpoint findNode (items : list JsVal) (node : string) : JsVal :=
  match items with
  | [] => JUndef
  | l :: rest => if strictEqStr (getProp l "node") node then l else findNode rest node
  end.

(** [p.lights_report.find(l => l.node === node)?.mode === 'on'] *)
Definition lightOn (p : JsVal) (node : string) : bool :=
  strictEqStr (getProp (findNode (arrayItems (getProp p "lights_report")) node) "mode") "on".

(** Lines 660-718: the properties of [status] before [_h2debug]. *)
Definition statusProps (isH2Model : JsVal) (p prevStatus ams externalSpool : JsVal)
  (externalSpools : list JsVal) : list (string * JsVal) :=
  let nozzles := nozzleTemps isH2Model p prevStatus in
  let nozzle1Temp := nozzles.1.1.1 in
  let nozzle1Target := nozzles.1.1.2 in
  let nozzle2Temp := nozzles.1.2 in
  let nozzle2Target := nozzles.2 in
  [ ("online", JBool true);
    ("gcodeState", getProp p "gcode_state" ?? getProp prevStatus "gcodeState" ?? JStr "IDLE");
    ("printProgress", getProp p "mc_percent" ?? getProp prevStatus "printProgress" ?? JNum 0);
    ("remainingTime", getProp p "mc_remaining_time" ?? getProp prevStatus "remainingTime" ?? JNum 0);
    ("currentFile", getProp p "gcode_file" |? getProp p "subtask_name"
                      |? getProp prevStatus "currentFile" |? JStr "");
    ("layer", getProp p "layer_num" ?? getProp prevStatus "layer" ?? JNum 0);
    ("totalLayers", getProp p "total_layer_num" ?? getProp prevStatus "totalLayers" ?? JNum 0);
    ("nozzleTemp", nozzle1Temp);
    ("nozzleTargetTemp", nozzle1Target);
    ("nozzleTemp2", nozzle2Temp);
    ("nozzleTargetTemp2", nozzle2Target);
    ("bedTemp", getProp p "bed_temper" ?? getProp prevStatus "bedTemp" ?? JNum 0);
    ("bedTargetTemp", getProp p "bed_target_temper" ?? getProp prevStatus "bedTargetTemp" ?? JNum 0);
    ("chamberTemp", chamberTempValue isH2Model p ?? getProp prevStatus "chamberTemp" ?? JNum 0);
    ("partFan", getProp p "cooling_fan_speed" ?? getProp prevStatus "partFan");
    ("auxFan", getProp p "big_fan1_speed" ?? getProp prevStatus "auxFan");
    ("chamberFan", getProp p "big_fan2_speed" ?? getProp prevStatus "chamberFan");
    ("chamberLight",
       if truthy (getProp p "lights_report")
       then JBool (lightOn p "chamber_light" || lightOn p "chamber_light2")
       else getProp prevStatus "chamberLight");
    ("workLight",
       if truthy (getProp p "lights_report")
       then JBool (lightOn p "chamber_light" || lightOn p "chamber_light2"
                   || lightOn p "work_light")
       else getProp prevStatus "workLight");
    ("speedLevel", getProp p "spd_lvl" ?? getProp prevStatus "speedLevel");
    ("speedMagnitude", getProp p "spd_mag" ?? getProp prevStatus "speedMagnitude");
    ("ams", ams |? getProp prevStatus "ams");
    ("externalSpool", externalSpool |? getProp prevStatus "externalSpool");
    ("externalSpools",
       match externalSpools with
       | [] => getProp prevStatus "externalSpools"
       | _ :: _ => JArr externalSpools
       end);
    ("wifiSignal", getProp p "wifi_signal" ?? getProp prevStatus "wifiSignal");
    ("printType", getProp p "print_type" ?? getProp prevStatus "printType");
    ("printError", getProp p "print_error" ?? getProp prevStatus "printError" ?? JNum 0);
    ("printErrorCode", getProp p "mc_print_error_code" ?? getProp prevStatus "printErrorCode" ?? JStr "");
    ("printStage", getProp p "mc_print_stage" ?? getProp prevStatus "printStage");
    ("hms", if isArray (getProp p "hms") then getProp p "hms"
            else getProp prevStatus "hms" |? JArr []) ].

(** [prevStatus] is the object stored under the serial when there is one
    (line 423), so a write to it is a write to the store; it is a fresh
    object otherwise. *)
Definition writePrev (serial : string) (prevStatus : JsVal) : M unit := fun st =>
  match printers st !! serial with
  | Some _ => (Ok tt, withPrinters st (<[serial := prevStatus]> (printers st)))
  | None => (Ok tt, st)
  end.

(** Lines 531-719: external spools, the two resets of [prevStatus], the
    temperatures, the [status] literal and
    [printers.set(serial, {...printers.get(serial), ...status})].
    [isH2] is the constant of line 393, [prevStatus] the one of line 423 and
    [ams] the local of lines 426-515. *)
Definition statusMerge (serial : string) (data p isH2 prevStatus ams : JsVal) : M unit :=
  '(externalSpool, externalSpools) ← lift (spoolStage p);
  let prev2 := resetPrev p prevStatus in
  _ ← writePrev serial prev2;
  st ← getState;
  h2 ← lift (modelIsH2 (printers st !! serial));
  isH2Model ← lift (readConst "isH2Model" (Some h2));
  let props := statusProps isH2Model p prev2 ams externalSpool externalSpools in
  dbg ← (if truthy isH2 then lift (h2debug data) else mret JUndef);
  let status := JObj (props ++ [("_h2debug", dbg)]) in
  st' ← getState;
  storePrinters (<[serial := spread (default JUndef (printers st' !! serial)) status]> (printers st')).

(** Lines 409-737, the body of [if (data.print)], around the log statement
    of lines 517-529. *)
Definition printSectionWith (amsInfoLog : Exc JsVal) (serial : string)
  (data p isH2 : JsVal) : M unit :=
  _ ← lift (lightsLog p);
  st ← getState;
  let prevStatus := default (JObj []) (printers st !! serial) in
  ams ← amsStage p prevStatus;
  _ ← lift amsInfoLog;
  statusMerge serial data p isH2 prevStatus ams.

(** The body as it is written.  The condition of the log statement in line
    518 starts by reading the block-scoped constant [isH2Model], which is
    declared in line 618 of the same block and is uninitialised until
    then. *)
Definition printSection (serial : string) (data p isH2 : JsVal) : M unit :=
  printSectionWith (readConst "isH2Model" None) serial data p isH2.

(** The statements of the body around line 518, as they would run without
    the log statement of lines 517-529.  The handler as it is written is
    [printSection]: it never gets past line 518. *)
Definition mergeFrame (serial : string) (data p isH2 : JsVal) : M unit :=
  printSectionWith (Ok JUndef) serial data p isH2.

(** Lines 342-738 inside [try]: [data] is the parsed message.  (The log
    statement of line 375 concatenates the name of the roster entry, which
    the handler state does not hold; it runs for a message with a [system]
    section only.) *)
Definition handlerBody (serial : string) (data : JsVal) : M unit :=
  _ ← debugStage data;
  _ ← lift (getPropStrict data "system");
  _ ← ctcStage serial data;
  st ← getState;
  isH2 ← lift (modelIsH2 (printers st !! serial));
  let p := getProp data "print" in
  if truthy p then printSection serial data p isH2 else mret tt.

(** The handler: [try { ... } catch (e) {}]. *)
Definition onMessage (serial : string) (data : JsVal) (st : HandlerState) : HandlerState :=
  snd (handlerBody serial data st).

End Handler.

(** The snapshot fields that [status] fills from one or more keys of the
    frame, with those keys and with what the field falls back to from its
    previous value [v] when none of the keys carries a value. *)
Definition mergedFields : list (string * list string * (JsVal -> JsVal)) :=
  [ ("gcodeState", ["gcode_state"], fun v => v ?? JStr "IDLE");
    ("printProgress", ["mc_percent"], fun v => v ?? JNum 0);
    ("remainingTime", ["mc_remaining_time"], fun v => v ?? JNum 0);
    ("currentFile", ["gcode_file"; "subtask_name"], fun v => v |? JStr "");
    ("layer", ["layer_num"], fun v => v ?? JNum 0);
    ("totalLayers", ["total_layer_num"], fun v => v ?? JNum 0);
    ("nozzleTemp", ["nozzle_temper"; "device"; "extruder"], fun v => v ?? JNum 0);
    ("nozzleTargetTemp", ["nozzle_target_temper"; "device"; "extruder"], fun v => v ?? JNum 0);
    ("nozzleTemp2", ["nozzle_temper_2"; "device"; "extruder"], fun v => v);
    ("nozzleTargetTemp2", ["nozzle_target_temper_2"; "device"; "extruder"], fun v => v);
    ("bedTemp", ["bed_temper"], fun v => v ?? JNum 0);
    ("bedTargetTemp", ["bed_target_temper"], fun v => v ?? JNum 0);
    ("chamberTemp", ["chamber_temper"; "info"], fun v => v ?? JNum 0);
    ("partFan", ["cooling_fan_speed"], fun v => v);
    ("auxFan", ["big_fan1_speed"], fun v => v);
    ("chamberFan", ["big_fan2_speed"], fun v => v);
    ("chamberLight", ["lights_report"], fun v => v);
    ("workLight", ["lights_report"], fun v => v);
    ("speedLevel", ["spd_lvl"], fun v => v);
    ("speedMagnitude", ["spd_mag"], fun v => v);
    ("ams", ["ams"], fun v => v);
    ("externalSpool", ["vir_slot"; "vt_tray"], fun v => v);
    ("externalSpools", ["vir_slot"; "vt_tray"], fun v => v);
    ("wifiSignal", ["wifi_signal"], fun v => v);
    ("printType", ["print_type"], fun v => v);
    ("printError", ["print_error"], fun v => v ?? JNum 0);
    ("printErrorCode", ["mc_print_error_code"], fun v => v ?? JStr "");
    ("printStage", ["mc_print_stage"], fun v => v);
    ("hms", ["hms"], fun v => v |? JArr []) ].

(** The stored snapshot of a device, [{}] when there is none. *)
Definition snapshot (st : HandlerState) (serial : string) : JsVal :=
  default (JObj []) (printers st !! serial).

(** Every merged field whose keys are all absent or [null] in the frame [p]
    has in [after] the value it had in [before] (or its default when it had
    none). *)
Definition retainsAbsent (p before after : JsVal) : Prop :=
  forall field keys fallback,
    In (field, keys, fallback) mergedFields ->
    (forall key, In key keys -> isNullish (getProp p key) = true) ->
    getProp after field = fallback (getProp before field).

(** The fields of [prevStatus] that the two resets write for a frame [p]:
    those of lines 585-595 when the state is IDLE or FINISH (the error
    fields only when the frame reports no error), those of lines 604-607 on
    the way from printing to idle. *)
Definition resetFields (p prevStatus : JsVal) : list string :=
  let currentState := currentStateOf p prevStatus in
  let pe := getProp p "print_error" in
  (if isIdleState currentState
   then (if isNullish pe || strictEqNum pe 0 then ["printError"; "printErrorCode"] else [])
        ++ ["printProgress"; "remainingTime"; "nozzleTargetTemp"; "nozzleTargetTemp2";
            "bedTargetTemp"; "hms"]
   else [])
  ++ (if isPrintingState (getProp prevStatus "gcodeState") && isIdleState currentState
      then ["nozzleTemp"; "nozzleTemp2"; "bedTemp"; "chamberTemp"]
      else []).

(** As [retainsAbsent], for the fields outside [written]. *)
Definition retainsAbsentExcept (written : list string) (p before after : JsVal) : Prop :=
  forall field keys fallback,
    In (field, keys, fallback) mergedFields ->
    (forall key, In key keys -> isNullish (getProp p key) = true) ->
    ~ In field written ->
    getProp after field = fallback (getProp before field).

(** Progress, remaining time and the three target temperatures are zero and
    the alert list is empty. *)
Definition printDataCleared (snap : JsVal) : Prop :=
  getProp snap "printProgress" = JNum 0
  /\ getProp snap "remainingTime" = JNum 0
  /\ getProp snap "nozzleTargetTemp" = JNum 0
  /\ getProp snap "nozzleTargetTemp2" = JNum 0
  /\ getProp snap "bedTargetTemp" = JNum 0
  /\ getProp snap "hms" = JArr [].

(** Each of these fields is zero (empty) in [snap] unless the frame [p]
    itself reports it; the nozzle targets are also reported through the
    extruder records. *)
Definition clearedUnlessReported (p snap : JsVal) : Prop :=
  (isNullish (getProp p "mc_percent") = true -> getProp snap "printProgress" = JNum 0)
  /\ (isNullish (getProp p "mc_remaining_time") = true ->
      getProp snap "remainingTime" = JNum 0)
  /\ (isNullish (getProp p "nozzle_target_temper") = true ->
      isNullish (getProp p "device") = true -> isNullish (getProp p "extruder") = true ->
      getProp snap "nozzleTargetTemp" = JNum 0)
  /\ (isNullish (getProp p "nozzle_target_temper_2") = true ->
      isNullish (getProp p "device") = true -> isNullish (getProp p "extruder") = true ->
      getProp snap "nozzleTargetTemp2" = JNum 0)
  /\ (isNullish (getProp p "bed_target_temper") = true ->
      getProp snap "bedTargetTemp" = JNum 0)
  /\ (isArray (getProp p "hms") = false -> getProp snap "hms" = JArr []).

(** The keys of a print section that feed a snapshot field in the handler:
    those the [status] literal reads for it and, for [chamberTemp], also
    [device], which carries the CTC temperature of line 380. *)
Definition feedingKeys (field : string) (keys : list string) : list string :=
  if String.eqb field "chamberTemp" then "device" :: keys else keys.

(** A spool record that carries a material or a color other than
    ['00000000'], the test of lines 540 and 562 read back from the record. *)
Definition listedSpool (spool : JsVal) : bool :=
  hasFilament (getProp spool "type") (getProp spool "color").

(** ** The rebuild of AMS units and trays (lines 437-513)

    The loop over [p.ams.ams] that [amsUnits] stands for in [amsStage],
    statement by statement. *)
Section AmsRebuild.
Context `{Externals}.

(** Number results that can be [NaN], which [JsVal] does not hold:
    [parseFloat(v) || 0], [parseInt(v) || 0] and [parseInt(v) > 0]. *)
Variable parseFloatOrZero : JsVal -> JsVal.
Variable parseIntOrZero : JsVal -> JsVal.
Variable parseIntPositive : JsVal -> bool.

(** [`unit_${unitIdx}`] *)
Definition lockKey (unitIdx : nat) : string :=
  "unit_" ++ NilZero.string_of_uint (Nat.to_uint unitIdx).

(** [v !== undefined && v !== ''] *)
Definition reported (v : JsVal) : bool :=
  match v with
  | JUndef => false
  | _ => negb (strictEqStr v "")
  end.

(** Lines 458-459: [infoVal] and [(infoVal >> 8) & 0x1]. *)
Definition infoValue (info : JsVal) : JsVal :=
  match info with
  | JStr _ => parseInt info
  | _ => info
  end.

Definition nozzleBit (info : JsVal) : Z :=
  Z.land (Z.shiftr (toInt32 (infoValue info)) 8) 1.

(** Lines 460-464: the latch [client._amsNozzleLock] is created when it is
    missing, and the bit is stored under the key of the unit unless the
    latch has a value there. *)
Definition latchWrite (unitIdx : nat) (bit8 : Z) (lock : JsVal) : JsVal :=
  let lock1 := if truthy lock then lock else JObj [] in
  match getProp lock1 (lockKey unitIdx) with
  | JUndef => setProp lock1 (lockKey unitIdx) (JNum bit8)
  | _ => lock1
  end.

(** Lines 457-471: the nozzle of a unit; [logged] is
    [client._amsInfoLogged].  The result is the properties [nozzle] and
    [_infoRaw] with the latch afterwards, or the [TypeError] of
    [infoVal.toString(16)] for an [info] of [null], which is raised after
    the latch was written. *)
Definition nozzleLatch (logged : bool) (unitIdx : nat) (unit lock : JsVal)
  : Exc (list (string * JsVal)) * JsVal :=
  let info := getProp unit "info" in
  match info with
  | JUndef => (Ok [], lock)
  | _ =>
      let lock' := latchWrite unitIdx (nozzleBit info) lock in
      if (negb logged && isNullish info)%bool
      then (Throw (TypeError "infoVal.toString"), lock')
      else (Ok [("nozzle", getProp lock' (lockKey unitIdx)); ("_infoRaw", infoValue info)],
            lock')
  end.

(** The [nozzle] that a unit with the given [info] is to report when the
    latch holds [latched] under the key of the unit: none without [info],
    else the latched value, else bit 8 of [info]. *)
Definition latchedNozzle (info latched : JsVal) : JsVal :=
  match info with
  | JUndef => JUndef
  | _ => match latched with
         | JUndef => JNum (nozzleBit info)
         | _ => latched
         end
  end.

(** Lines 446-447 and 474-482: the humidity of a unit, from [humidity_raw]
    when it is reported, else from a positive [humidity] index. *)
Definition humidityProps (unit : JsVal) : list (string * JsVal) :=
  let raw := getProp unit "humidity_raw" in
  let idx := getProp unit "humidity" in
  if reported raw
  then [("humidity", parseInt raw); ("humidityIndex", parseIntOrZero idx)]
  else if (reported idx && parseIntPositive idx)%bool
       then [("humidity", parseInt idx); ("humidityIndex", parseInt idx)]
       else [].

(** Line 490: [tray && (tray.tray_type || (tray.tray_color &&
    tray.tray_color !== '00000000'))] *)
Definition trayHasData (tray : JsVal) : bool :=
  (truthy tray && hasFilament (getProp tray "tray_type") (getProp tray "tray_color"))%bool.

(** Lines 492-509. *)
Definition trayRecord (unitIdx trayIdx : nat) (tray : JsVal) : JsVal :=
  JObj [ ("id", JNum (Z.of_nat unitIdx * 4 + Z.of_nat trayIdx));
         ("unitId", JNum (Z.of_nat unitIdx));
         ("slot", JNum (Z.of_nat trayIdx));
         ("type", getProp tray "tray_type" |? JStr "");
         ("color", getProp tray "tray_color" |? JStr "");
         ("name", getProp tray "tray_sub_brands" |? getProp tray "tray_type" |? JStr "");
         ("remain", if isNullish (getProp tray "remain") then JNum (-1)
                    else parseInt (getProp tray "remain"));
         ("k", getProp tray "k" |? JNum 0);
         ("nozzleTempMin", getProp tray "nozzle_temp_min" |? JNum 0);
         ("nozzleTempMax", getProp tray "nozzle_temp_max" |? JNum 0);
         ("trayInfoIdx", getProp tray "tray_info_idx" |? JStr "");
         ("tagUid", getProp tray "tag_uid" |? JStr "");
         ("trayUuid", getProp tray "tray_uuid" |? JStr "");
         ("trayWeight", if truthy (getProp tray "tray_weight")
                        then parseInt (getProp tray "tray_weight") else JNum 0);
         ("dryingTemp", if truthy (getProp tray "drying_temp")
                        then parseInt (getProp tray "drying_temp") else JNum 0);
         ("dryingTime", if truthy (getProp tray "drying_time")
                        then parseInt (getProp tray "drying_time") else JNum 0) ].

(** Lines 487-511: [unit.tray.forEach((tray, trayIdx) => ...)] from index
    [trayIdx] on. *)
Fixpoint traysFrom (unitIdx trayIdx : nat) (trays : list JsVal) : list JsVal :=
  match trays with
  | [] => []
  | tray :: rest =>
      ((if trayHasData tray then [trayRecord unitIdx trayIdx tray] else [])
         ++ traysFrom unitIdx (S trayIdx) rest)%list
  end.

(** Lines 486-512: the tray records of one unit. *)
Definition unitTrays (unitIdx : nat) (unit : JsVal) : list JsVal :=
  match getProp unit "tray" with
  | JArr items => traysFrom unitIdx 0 items
  | _ => []
  end.

(** Lines 440-512, the callback of [p.ams.ams.forEach] for one unit: the
    unit record and the tray records it pushes, and the latch afterwards.
    Reading [unit.humidity_raw] raises on [null] and [undefined]. *)
Definition unitStep (logged : bool) (unitIdx : nat) (unit lock : JsVal)
  : Exc (JsVal * list JsVal) * JsVal :=
  if isNullish unit then (Throw (TypeError "unit.humidity_raw"), lock)
  else
    match nozzleLatch logged unitIdx unit lock with
    | (Throw e, lock') => (Throw e, lock')
    | (Ok nozzle, lock') =>
        let unitData :=
          JObj ([("id", JNum (Z.of_nat unitIdx));
                 ("temp", parseFloatOrZero (getProp unit "temp"))]
                  ++ nozzle ++ humidityProps unit)%list in
        (Ok (unitData, unitTrays unitIdx unit), lock')
    end.

(** Lines 439-513: the loop from unit [unitIdx] on, with the units and
    trays pushed so far. *)
Fixpoint rebuildFrom (logged : bool) (unitIdx : nat) (units : list JsVal) (lock : JsVal)
  (us ts : list JsVal) : Exc (JsVal * JsVal) * JsVal :=
  match units with
  | [] => (Ok (JArr us, JArr ts), lock)
  | unit :: rest =>
      match unitStep logged unitIdx unit lock with
      | (Throw e, lock') => (Throw e, lock')
      | (Ok (unitData, trays), lock') =>
          rebuildFrom logged (S unitIdx) rest lock' (us ++ [unitData])%list (ts ++ trays)%list
      end
  end.

(** Lines 437-513. *)
Definition amsRebuild (logged : bool) (units : list JsVal) (lock : JsVal)
  : Exc (JsVal * JsVal) * JsVal :=
  rebuildFrom logged 0 units lock [] [].

End AmsRebuild.

(** The [id] of the first record is a number below the [id] of the
    second. *)
Definition idBefore (t1 t2 : JsVal) : Prop :=
  exists n1 n2, getProp t1 "id" = JNum n1 /\ getProp t2 "id" = JNum n2 /\ n1 < n2.

End Telemetry.

(* ===================================================================== *)
(** * Device sessions: connect, close, reconnect, removal, commands       *)
(* ===================================================================== *)

Module Session.
Import Js.

(** A roster entry: the object sent by the API and its [serialNumber]. *)
Record Printer : Type := { serialNumber : string; record : JsVal }.

(** What a pending [setTimeout] will do. *)
Inductive Timer : Type :=
| ReconnectTimer (serial : string) (cached : Printer) (delay : Z)
| DebugOffTimer (client : nat) (delay : Z).

(** The module-level maps of [main.js] and the resources of the runtime:
    open MQTT client connections, pending timers, and what was published.
    [cameraSessions] stands for the four camera maps ([cameraUrls],
    [cameraStreams], [jpegStreams], [rtspFrameRelays]), which session code
    only fills and empties per serial. *)
Record State : Type := {
  mqttClients : gmap string nat;
  printers : gmap string JsVal;
  printerDataCache : gmap string Printer;
  printerReconnectTimers : gmap string nat;
  reconnectAttempts : gmap string Z;
  mqttErrorThrottle : gmap string Z;
  cameraSessions : gset string;
  sockets : gmap nat string;
  debugClients : gset nat;
  timers : gmap nat Timer;
  nextId : nat;
  published : list (nat * string * JsVal)
}.

Definition initial : State :=
  {| mqttClients := ∅; printers := ∅; printerDataCache := ∅;
     printerReconnectTimers := ∅; reconnectAttempts := ∅; mqttErrorThrottle := ∅;
     cameraSessions := ∅; sockets := ∅; debugClients := ∅; timers := ∅;
     nextId := 0; published := [] |}.

Definition setMqttClients (v : gmap string nat) (s : State) : State :=
  {| mqttClients := v; printers := printers s; printerDataCache := printerDataCache s;
     printerReconnectTimers := printerReconnectTimers s;
     reconnectAttempts := reconnectAttempts s; mqttErrorThrottle := mqttErrorThrottle s;
     cameraSessions := cameraSessions s; sockets := sockets s;
     debugClients := debugClients s; timers := timers s; nextId := nextId s;
     published := published s |}.

Definition setPrinters (v : gmap string JsVal) (s : State) : State :=
  {| mqttClients := mqttClients s; printers := v; printerDataCache := printerDataCache s;
     printerReconnectTimers := printerReconnectTimers s;
     reconnectAttempts := reconnectAttempts s; mqttErrorThrottle := mqttErrorThrottle s;
     cameraSessions := cameraSessions s; sockets := sockets s;
     debugClients := debugClients s; timers := timers s; nextId := nextId s;
     published := published s |}.

Definition setPrinterDataCache (v : gmap string Printer) (s : State) : State :=
  {| mqttClients := mqttClients s; printers := printers s; printerDataCache := v;
     printerReconnectTimers := printerReconnectTimers s;
     reconnectAttempts := reconnectAttempts s; mqttErrorThrottle := mqttErrorThrottle s;
     cameraSessions := cameraSessions s; sockets := sockets s;
     debugClients := debugClients s; timers := timers s; nextId := nextId s;
     published := published s |}.

Definition setPrinterReconnectTimers (v : gmap string nat) (s : State) : State :=
  {| mqttClients := mqttClients s; printers := printers s;
     printerDataCache := printerDataCache s; printerReconnectTimers := v;
     reconnectAttempts := reconnectAttempts s; mqttErrorThrottle := mqttErrorThrottle s;
     cameraSessions := cameraSessions s; sockets := sockets s;
     debugClients := debugClients s; timers := timers s; nextId := nextId s;
     published := published s |}.

Definition setReconnectAttempts (v : gmap string Z) (s : State) : State :=
  {| mqttClients := mqttClients s; printers := printers s;
     printerDataCache := printerDataCache s;
     printerReconnectTimers := printerReconnectTimers s;
     reconnectAttempts := v; mqttErrorThrottle := mqttErrorThrottle s;
     cameraSessions := cameraSessions s; sockets := sockets s;
     debugClients := debugClients s; timers := timers s; nextId := nextId s;
     published := published s |}.

Definition setMqttErrorThrottle (v : gmap string Z) (s : State) : State :=
  {| mqttClients := mqttClients s; printers := printers s;
     printerDataCache := printerDataCache s;
     printerReconnectTimers := printerReconnectTimers s;
     reconnectAttempts := reconnectAttempts s; mqttErrorThrottle := v;
     cameraSessions := cameraSessions s; sockets := sockets s;
     debugClients := debugClients s; timers := timers s; nextId := nextId s;
     published := published s |}.

Definition setCameraSessions (v : gset string) (s : State) : State :=
  {| mqttClients := mqttClients s; printers := printers s;
     printerDataCache := printerDataCache s;
     printerReconnectTimers := printerReconnectTimers s;
     reconnectAttempts := reconnectAttempts s; mqttErrorThrottle := mqttErrorThrottle s;
     cameraSessions := v; sockets := sockets s;
     debugClients := debugClients s; timers := timers s; nextId := nextId s;
     published := published s |}.

Definition setSockets (v : gmap nat string) (s : State) : State :=
  {| mqttClients := mqttClients s; printers := printers s;
     printerDataCache := printerDataCache s;
     printerReconnectTimers := printerReconnectTimers s;
     reconnectAttempts := reconnectAttempts s; mqttErrorThrottle := mqttErrorThrottle s;
     cameraSessions := cameraSessions s; sockets := v;
     debugClients := debugClients s; timers := timers s; nextId := nextId s;
     published := published s |}.

Definition setDebugClients (v : gset nat) (s : State) : State :=
  {| mqttClients := mqttClients s; printers := printers s;
     printerDataCache := printerDataCache s;
     printerReconnectTimers := printerReconnectTimers s;
     reconnectAttempts := reconnectAttempts s; mqttErrorThrottle := mqttErrorThrottle s;
     cameraSessions := cameraSessions s; sockets := sockets s;
     debugClients := v; timers := timers s; nextId := nextId s;
     published := published s |}.

Definition setTimers (v : gmap nat Timer) (s : State) : State :=
  {| mqttClients := mqttClients s; printers := printers s;
     printerDataCache := printerDataCache s;
     printerReconnectTimers := printerReconnectTimers s;
     reconnectAttempts := reconnectAttempts s; mqttErrorThrottle := mqttErrorThrottle s;
     cameraSessions := cameraSessions s; sockets := sockets s;
     debugClients := debugClients s; timers := v; nextId := nextId s;
     published := published s |}.

Definition setNextId (v : nat) (s : State) : State :=
  {| mqttClients := mqttClients s; printers := printers s;
     printerDataCache := printerDataCache s;
     printerReconnectTimers := printerReconnectTimers s;
     reconnectAttempts := reconnectAttempts s; mqttErrorThrottle := mqttErrorThrottle s;
     cameraSessions := cameraSessions s; sockets := sockets s;
     debugClients := debugClients s; timers := timers s; nextId := v;
     published := published s |}.

Definition setPublished (v : list (nat * string * JsVal)) (s : State) : State :=
  {| mqttClients := mqttClients s; printers := printers s;
     printerDataCache := printerDataCache s;
     printerReconnectTimers := printerReconnectTimers s;
     reconnectAttempts := reconnectAttempts s; mqttErrorThrottle := mqttErrorThrottle s;
     cameraSessions := cameraSessions s; sockets := sockets s;
     debugClients := debugClients s; timers := timers s; nextId := nextId s;
     published := v |}.

(** What [JSON.stringify] keeps of a value: properties whose value is
    [undefined] are left out, [undefined] array items become [null]. *)
Fixpoint jsonShape (v : JsVal) : JsVal :=
  match v with
  | JArr items =>
      JArr (map (fun x => match x with JUndef => JNull | _ => jsonShape x end) items)
  | JObj props =>
      JObj ((fix go (ps : list (string * JsVal)) : list (string * JsVal) :=
               match ps with
               | [] => []
               | (k, x) :: rest =>
                   match x with
                   | JUndef => go rest
                   | _ => (k, jsonShape x) :: go rest
                   end
               end) props)
  | _ => v
  end.

(** [client.publish(topic, JSON.stringify(payload))] *)
Definition publish (client : nat) (topic : string) (payload : JsVal) (s : State) : State :=
  setPublished (published s ++ [(client, topic, jsonShape payload)]) s.

(** [setTimeout(callback, delay)]: the handle is a fresh identifier. *)
Definition setTimeout (t : Timer) (s : State) : nat * State :=
  (nextId s, setNextId (S (nextId s)) (setTimers (<[nextId s := t]> (timers s)) s)).

Definition clearTimeout (tid : nat) (s : State) : State :=
  setTimers (delete tid (timers s)) s.

(** Lines 304-325 of [connectPrinter]: everything up to the registration of
    the handlers.  [mqtt.connect] opens a client connection. *)
Definition connectPrinter (printer : Printer) (s : State) : State :=
  let serial := serialNumber printer in
  match mqttClients s !! serial with
  | Some _ => s
  | None =>
      let s1 := setPrinterDataCache (<[serial := printer]> (printerDataCache s)) s in
      let s2 :=
        match printerReconnectTimers s1 !! serial with
        | Some tid =>
            setPrinterReconnectTimers (delete serial (printerReconnectTimers s1))
              (clearTimeout tid s1)
        | None => s1
        end in
      setNextId (S (nextId s2)) (setSockets (<[nextId s2 := serial]> (sockets s2)) s2)
  end.

(** Lines 813-816. *)
Definition resetReconnectCounter (serial : string) (s : State) : State :=
  setMqttErrorThrottle (delete serial (mqttErrorThrottle s))
    (setReconnectAttempts (delete serial (reconnectAttempts s)) s).

(** Lines 327-339, the ['connect'] handler of [client] for [printer]. *)
Definition onConnect (client : nat) (printer : Printer) (s : State) : State :=
  let serial := serialNumber printer in
  let s1 := setMqttClients (<[serial := client]> (mqttClients s)) s in
  let s2 := setPrinters
              (<[serial := spread (record printer) (JObj [("online", JBool true)])]>
                 (printers s1)) s1 in
  let s3 := resetReconnectCounter serial s2 in
  let reqTopic := "device/" ++ serial ++ "/request" in
  let s4 := publish client reqTopic
              (JObj [("info", JObj [("sequence_id", JStr "0"); ("command", JStr "get_version")])]) s3 in
  let s5 := publish client reqTopic
              (JObj [("pushing", JObj [("sequence_id", JStr "0"); ("command", JStr "pushall")])]) s4 in
  setCameraSessions ({[serial]} ∪ cameraSessions s5) s5.

(** [reconnectAttempts.get(serial) || 0] *)
Definition attemptsOf (s : State) (serial : string) : Z :=
  match reconnectAttempts s !! serial with
  | Some n => if (n =? 0)%Z then 0 else n
  | None => 0
  end.

(** [Math.min(5000 * Math.pow(2, attempts), 120000)], in milliseconds.  In
    binary64 the power is exact up to 2^1023 and [Infinity] beyond, and the
    minimum with 120000 is in both cases the one computed here. *)
Definition backoffDelay (attempts : Z) : Z := Z.min (5000 * 2 ^ attempts) 120000.

(** Lines 783-810. *)
Definition scheduleReconnect (serial : string) (s : State) : State :=
  match printerDataCache s !! serial with
  | None => s
  | Some cached =>
      match mqttClients s !! serial with
      | Some _ => s
      | None =>
          let attempts := attemptsOf s serial in
          let delay := backoffDelay attempts in
          let s1 := setReconnectAttempts (<[serial := attempts + 1]> (reconnectAttempts s)) s in
          let '(timer, s2) := setTimeout (ReconnectTimer serial cached delay) s1 in
          setPrinterReconnectTimers (<[serial := timer]> (printerReconnectTimers s2)) s2
      end
  end.

(** Lines 751-777, the ['close'] handler of [client] for [printer]; the
    connection of the client is gone when it runs. *)
Definition onClose (client : nat) (printer : Printer) (s : State) : State :=
  let serial := serialNumber printer in
  let s0 := setSockets (delete client (sockets s)) s in
  let s1 := setMqttClients (delete serial (mqttClients s0)) s0 in
  let s2 :=
    match printers s1 !! serial with
    | Some pr =>
        setPrinters (<[serial := spread pr (JObj [("online", JBool false)])]> (printers s1)) s1
    | None => s1
    end in
  scheduleReconnect serial s2.

(** A pending timer expires and its callback runs (lines 802-807 for a
    reconnect timer, line 1061 for the end of the AMS debug window). *)
Definition fireTimer (tid : nat) (s : State) : State :=
  match timers s !! tid with
  | None => s
  | Some t =>
      let s0 := setTimers (delete tid (timers s)) s in
      match t with
      | ReconnectTimer serial cached _ =>
          let s1 := setPrinterReconnectTimers (delete serial (printerReconnectTimers s0)) s0 in
          match mqttClients s1 !! serial with
          | Some _ => s1
          | None => connectPrinter cached s1
          end
      | DebugOffTimer client _ => setDebugClients (debugClients s0 ∖ {[client]}) s0
      end
  end.

(** Lines 216-229, the handler of [printer:remove]. [client.end()] closes
    the connection of the client. *)
Definition removePrinter (serial : string) (s : State) : State :=
  match mqttClients s !! serial with
  | Some client =>
      let s1 := setSockets (delete client (sockets s)) s in
      let s2 := setMqttClients (delete serial (mqttClients s1)) s1 in
      let s3 := setPrinters (delete serial (printers s2)) s2 in
      setCameraSessions (cameraSessions s3 ∖ {[serial]}) s3
  | None => s
  end.

(** The delay of the reconnect timer registered for a serial, if any. *)
Definition scheduledDelay (serial : string) (s : State) : option Z :=
  match printerReconnectTimers s !! serial with
  | Some tid =>
      match timers s !! tid with
      | Some (ReconnectTimer _ _ delay) => Some delay
      | _ => None
      end
  | None => None
  end.

(** One more failure: the pending reconnect timer of the device expires,
    [connectPrinter] opens a connection and that connection closes at once. *)
Definition retryFails (printer : Printer) (s : State) : State :=
  match printerReconnectTimers s !! serialNumber printer with
  | Some tid =>
      let s1 := fireTimer tid s in
      onClose (nextId s1 - 1) printer s1
  | None => s
  end.

(** The pending reconnect timer expires, [connectPrinter] opens a connection
    and this time the client connects. *)
Definition retrySucceeds (printer : Printer) (s : State) : State :=
  match printerReconnectTimers s !! serialNumber printer with
  | Some tid =>
      let s1 := fireTimer tid s in
      onConnect (nextId s1 - 1) printer s1
  | None => s
  end.

(** The device waits for its (n+1)-th reconnect: its record is cached, no
    client is registered, the counter stands at [n + 1] and the registered
    timer carries the n-th delay. *)
Definition awaiting (printer : Printer) (n : Z) (s : State) : Prop :=
  printerDataCache s !! serialNumber printer = Some printer
  /\ mqttClients s !! serialNumber printer = None
  /\ reconnectAttempts s !! serialNumber printer = Some (n + 1)
  /\ exists tid, printerReconnectTimers s !! serialNumber printer = Some tid
       /\ timers s !! tid = Some (ReconnectTimer (serialNumber printer) printer (backoffDelay n)).

(* --------------------------------------------------------------------- *)
(** ** Command translation: [executeCommand] (lines 818-1103)             *)
(* --------------------------------------------------------------------- *)

(** The [case] labels of the [switch (cmd.type)]. *)
Inductive CommandKind : Type :=
| CPause | CResume | CStop | CLight | CWorkLight
| CNozzleTemp | CNozzle2Temp | CBedTemp
| CPartFan | CAuxFan | CChamberFan | CSpeedLevel
| CAmsUnload | CAmsLoad | CGcode | CHome | CCalibration | CMove
| CXcamControl | CPrintOption | CAmsDrying | CAmsUserSetting | CAmsControl
| CAmsGetRfid | CIpcamRecord | CIpcamTimelapse | CSetAccessories
| CGetAccessories | CGetAccessCode | CSkipObjects | CBuzzerCtrl | CSetAirduct
| CHeatbedLight | CLedFlashing | CAmsFilamentSetting.

Definition commandTable : list (string * CommandKind) :=
  [ ("pause", CPause); ("resume", CResume); ("stop", CStop);
    ("chamberLight", CLight); ("light", CLight); ("workLight", CWorkLight);
    ("nozzleTemp", CNozzleTemp); ("nozzle2Temp", CNozzle2Temp); ("bedTemp", CBedTemp);
    ("partFan", CPartFan); ("auxFan", CAuxFan); ("chamberFan", CChamberFan);
    ("speedLevel", CSpeedLevel);
    ("amsUnload", CAmsUnload); ("unloadFilament", CAmsUnload);
    ("amsLoad", CAmsLoad); ("loadFilament", CAmsLoad);
    ("gcode", CGcode); ("home", CHome); ("calibration", CCalibration); ("move", CMove);
    ("xcamControl", CXcamControl); ("printOption", CPrintOption);
    ("amsDrying", CAmsDrying); ("amsUserSetting", CAmsUserSetting);
    ("amsControl", CAmsControl); ("amsGetRfid", CAmsGetRfid);
    ("ipcamRecord", CIpcamRecord); ("ipcamTimelapse", CIpcamTimelapse);
    ("setAccessories", CSetAccessories); ("getAccessories", CGetAccessories);
    ("getAccessCode", CGetAccessCode); ("skipObjects", CSkipObjects);
    ("buzzerCtrl", CBuzzerCtrl); ("setAirduct", CSetAirduct);
    ("heatbedLight", CHeatbedLight); ("ledFlashing", CLedFlashing);
    ("amsFilamentSetting", CAmsFilamentSetting) ].

Fixpoint assoc {A} (k : string) (table : list (string * A)) : option A :=
  match table with
  | [] => None
  | (k', a) :: rest => if String.eqb k k' then Some a else assoc k rest
  end.

(** The [case] that [switch (v)] selects, [None] for [default]. *)
Definition classify (v : JsVal) : option CommandKind :=
  match v with
  | JStr s => assoc s commandTable
  | _ => None
  end.


(** The double nearest to the literal [2.55]. *)
Definition lit_2_55 : spec_float := S754_finite false 5742089524897382 (-51).

(** The value of a number after [Math.round]. *)
Inductive Rounded : Type :=
| RInt (n : Z)
| RNaN
| RInfinity (negative : bool).

(** [Math.round(x)]: the integer nearest to [x], halves towards plus
    infinity. *)
Definition mathRound (x : spec_float) : Rounded :=
  match x with
  | S754_zero _ => RInt 0
  | S754_infinity s => RInfinity s
  | S754_nan => RNaN
  | S754_finite s m e =>
      let v := if s then Z.neg m else Z.pos m in
      if (0 <=? e)%Z then RInt (v * 2 ^ e)
      else RInt ((2 * v + 2 ^ (- e)) / (2 * 2 ^ (- e)))
  end.

(** The scaling as the specification words it: rounding the exact product [speed * 255 / 100] to the nearest integer,
    halves upwards. *)
Definition fanExact (speed : Z) : Z := (speed * 255 + 50) / 100.

Definition newline : string := String (ascii_of_nat 10) EmptyString.

Section Commands.
Context `{Externals}.

(** ToNumber as a binary64. *)
Definition toDouble (v : JsVal) : spec_float :=
  match v with
  | JUndef => S754_nan
  | JNull => S754_zero false
  | JBool b => if b then binary_normalize 53 1024 1 0 false else S754_zero false
  | JNum n => binary_normalize 53 1024 n 0 false
  | JStr _ | JArr _ | JObj _ => hostToDouble v
  end.

(** Number.prototype.toString of an integer-valued number: up to 2^53 in
    magnitude every digit is printed. *)
Definition numToString (n : Z) : string :=
  if (Z.abs n <=? 2 ^ 53)%Z then DecimalString.NilZero.string_of_int (Z.to_int n)
  else hostBigToString n.

(** ToString, as string concatenation applies it, where the conversion
    completes ([convertible]). *)
Definition toStr (v : JsVal) : string :=
  match v with
  | JUndef => "undefined"
  | JNull => "null"
  | JBool b => if b then "true" else "false"
  | JNum n => numToString n
  | JStr s => s
  | JArr _ | JObj _ => hostToString v
  end.

Definition roundedToString (r : Rounded) : string :=
  match r with
  | RInt n => numToString n
  | RNaN => "NaN"
  | RInfinity s => if s then "-Infinity" else "Infinity"
  end.

(** [Math.round((speed || 0) * 2.55)] of lines 895-897. *)
Definition fanNative (speed : JsVal) : Rounded :=
  mathRound (SFmul 53 1024 (toDouble (speed |? JNum 0)) lit_2_55).

(** [{ print: { command: 'gcode_line', sequence_id: '2006', param }, user_id }] *)
Definition gcodeLine (param : string) : JsVal :=
  JObj [("print", JObj [("command", JStr "gcode_line"); ("sequence_id", JStr "2006");
                        ("param", JStr param)]);
        ("user_id", JStr "1234567890")].

(** The body of a [ledctrl] request. *)
Definition ledctrl (node mode onTime offTime : JsVal) (loops : Z) : JsVal :=
  JObj [("sequence_id", JStr "0"); ("command", JStr "ledctrl"); ("led_node", node);
        ("led_mode", mode); ("led_on_time", onTime); ("led_off_time", offTime);
        ("loop_times", JNum loops); ("interval_time", JNum 0)].

Definition ledSwitch (node : string) (mode : string) (withUser : bool) : JsVal :=
  let sys := ("system", ledctrl (JStr node) (JStr mode) (JNum 500) (JNum 500) 0) in
  if withUser then JObj [sys; ("user_id", JStr "1234567890")] else JObj [sys].

(** [printers.get(serial)?.model?.toUpperCase() || ''] *)
Definition modelUpper (s : State) (serial : string) : Exc string :=
  match printers s !! serial with
  | None => Ok ""
  | Some pr =>
      match getProp pr "model" with
      | JUndef | JNull => Ok ""
      | JStr m => Ok (toUpperCase m)
      | _ => Throw (TypeError "model.toUpperCase is not a function")
      end
  end.

Definition isH2Family (m : string) : bool :=
  includes m "H2D" || includes m "H2S" || includes m "H2C".

Definition onOff (v : JsVal) : string := if truthy v then "on" else "off".

(** The generic filament codes, the own properties of the object literal
    of lines 1046-1052. *)
Definition filamentCodeMap : list (string * JsVal) :=
  [ ("PLA", JStr "GFL99"); ("PLA-S", JStr "GFL96"); ("PLA-CF", JStr "GFL98");
    ("PETG", JStr "GFG99"); ("PETG-CF", JStr "GFG98");
    ("ABS", JStr "GFB99"); ("ASA", JStr "GFB98");
    ("TPU", JStr "GFU99"); ("PA", JStr "GFN99"); ("PA-CF", JStr "GFN98");
    ("PC", JStr "GFC99"); ("PVA", JStr "GFS99"); ("HIPS", JStr "GFS98") ].

(** The functions that an object literal inherits from [Object.prototype]. *)
Definition inheritedFunctions : list string :=
  [ "constructor"; "__defineGetter__"; "__defineSetter__"; "hasOwnProperty";
    "__lookupGetter__"; "__lookupSetter__"; "isPrototypeOf"; "propertyIsEnumerable";
    "toString"; "valueOf"; "toLocaleString" ].

(** Line 1054, [cmd.trayInfoIdx || filamentCodeMap[key] || 'GFL99'], as the
    payload shows it.  The lookup also finds what the literal inherits: a
    function, which is truthy and which [JSON.stringify] leaves out like a
    missing property, and under [__proto__] the prototype itself, which has
    no property to print. *)
Definition filamentCodeOf (trayInfoIdx : JsVal) (key : string) : JsVal :=
  if truthy trayInfoIdx then trayInfoIdx
  else if existsb (String.eqb key) inheritedFunctions then JUndef
  else if String.eqb key "__proto__" then JObj []
  else lookupProp key filamentCodeMap |? JStr "GFL99".

(** [printers.get(serial)?.key] *)
Definition snapshotProp (s : State) (serial key : string) : JsVal :=
  match printers s !! serial with
  | Some pr => getProp pr key
  | None => JUndef
  end.

(** [if (cmd.k !== undefined) payload.print.key = cmd.k] *)
Definition optionProp (key : string) (v : JsVal) : list (string * JsVal) :=
  match v with
  | JUndef => []
  | _ => [(key, v)]
  end.

(** The payloads a case publishes on [topic], in order, and what else it
    does to the state; no payload where the case returns without
    publishing.  A case converts parameters to strings or numbers, for the
    payload or for its log line, before it publishes anything: it raises a
    [TypeError] when one of them does not convert. *)
Definition translate (kind : CommandKind) (client : nat) (serial : string) (cmd : JsVal)
  (s : State) : Exc (list JsVal * State) :=
  let simple (payload : JsVal) : Exc (list JsVal * State) := Ok ([payload], s) in
  let printCmd (props : list (string * JsVal)) := simple (JObj [("print", JObj props)]) in
  match kind with
  | CPause => printCmd [("command", JStr "pause"); ("sequence_id", JStr "0")]
  | CResume => printCmd [("command", JStr "resume"); ("sequence_id", JStr "0")]
  | CStop => printCmd [("command", JStr "stop"); ("sequence_id", JStr "0")]
  | CLight =>
      m ← modelUpper s serial;
      let ledMode := onOff (getProp cmd "on") in
      if isH2Family m
      then Ok ([ledSwitch "chamber_light" ledMode true;
                ledSwitch "chamber_light2" ledMode true], s)
      else simple (ledSwitch "chamber_light" ledMode true)
  | CWorkLight =>
      m ← modelUpper s serial;
      let ledMode := onOff (getProp cmd "on") in
      converting [snapshotProp s serial "name"]
        (if includes m "A1"
         then Ok ([ledSwitch "chamber_light" ledMode false;
                   ledSwitch "work_light" ledMode false], s)
         else if isH2Family m then simple (ledSwitch "chamber_light2" ledMode true)
         else simple (ledSwitch "work_light" ledMode false))
  | CNozzleTemp =>
      converting [getProp cmd "temp"]
        (simple (gcodeLine ("M104 S" ++ toStr (getProp cmd "temp") ++ newline)))
  | CNozzle2Temp =>
      converting [getProp cmd "temp"]
        (simple (gcodeLine ("M104 T1 S" ++ toStr (getProp cmd "temp") ++ newline)))
  | CBedTemp =>
      converting [getProp cmd "temp"]
        (simple (gcodeLine ("M140 S" ++ toStr (getProp cmd "temp") ++ newline)))
  | CPartFan =>
      converting [getProp cmd "speed"]
        (simple (gcodeLine ("M106 P1 S" ++ roundedToString (fanNative (getProp cmd "speed"))
                              ++ newline)))
  | CAuxFan =>
      converting [getProp cmd "speed"]
        (simple (gcodeLine ("M106 P2 S" ++ roundedToString (fanNative (getProp cmd "speed"))
                              ++ newline)))
  | CChamberFan =>
      converting [getProp cmd "speed"]
        (simple (gcodeLine ("M106 P3 S" ++ roundedToString (fanNative (getProp cmd "speed"))
                              ++ newline)))
  | CSpeedLevel =>
      converting [getProp cmd "level"]
        (printCmd [("command", JStr "print_speed"); ("sequence_id", JStr "0");
                   ("param", JStr (toStr (getProp cmd "level")))])
  | CAmsUnload =>
      printCmd [("command", JStr "ams_change_filament"); ("sequence_id", JStr "0");
                ("target", JNum 255); ("curr_temp", JNum 220); ("tar_temp", JNum 220)]
  | CAmsLoad =>
      printCmd [("command", JStr "ams_change_filament"); ("sequence_id", JStr "0");
                ("target", getProp cmd "slot" ?? getProp cmd "trayId" ?? JNum 0);
                ("curr_temp", JNum 220); ("tar_temp", JNum 220)]
  | CGcode =>
      converting [getProp cmd "gcode"]
        (simple (gcodeLine (toStr (getProp cmd "gcode") ++ newline)))
  | CHome => simple (gcodeLine ("G28" ++ newline))
  | CCalibration =>
      let ct := getProp cmd "calibrationType" in
      if strictEqStr ct "home" then simple (gcodeLine ("G28" ++ newline))
      else if strictEqStr ct "bed_level" then simple (gcodeLine ("G29" ++ newline))
      else Ok ([], s)
  | CMove =>
      let dist := getProp cmd "distance" |? JNum 10 in
      let axis := getProp cmd "axis" |? JStr "X" in
      converting [axis; dist]
        (Ok ([gcodeLine ("G91" ++ newline);
              gcodeLine ("G0 " ++ toStr axis ++ toStr dist ++ " F3000" ++ newline);
              gcodeLine ("G90" ++ newline)], s))
  | CXcamControl =>
      converting [getProp cmd "moduleName"; getProp cmd "control"]
        (simple (JObj [("xcam", JObj [("sequence_id", JStr "0");
                                      ("command", JStr "xcam_control_set");
                                      ("module_name", getProp cmd "moduleName");
                                      ("control", getProp cmd "control");
                                      ("print_halt", getProp cmd "printHalt" |? JBool false)])]))
  | CPrintOption =>
      printCmd ([("sequence_id", JStr "0"); ("command", JStr "print_option")]
                ++ optionProp "sound_enable" (getProp cmd "soundEnable")
                ++ optionProp "auto_recovery" (getProp cmd "autoRecovery")
                ++ optionProp "filament_tangle_detect" (getProp cmd "filamentTangleDetect")
                ++ optionProp "nozzle_blob_detect" (getProp cmd "nozzleBlobDetect")
                ++ optionProp "air_print_detect" (getProp cmd "airPrintDetect"))%list
  | CAmsDrying =>
      converting [getProp cmd "amsId"; getProp cmd "temp"; getProp cmd "duration";
                  getProp cmd "mode"]
        (printCmd [("sequence_id", JStr "0"); ("command", JStr "ams_filament_drying");
                   ("ams_id", getProp cmd "amsId"); ("temp", getProp cmd "temp");
                   ("cooling_temp", JNum 0); ("duration", getProp cmd "duration");
                   ("humidity", JNum 0); ("mode", getProp cmd "mode");
                   ("rotate_tray", JBool false)])
  | CAmsUserSetting =>
      converting [getProp cmd "amsId"; getProp cmd "startupReadOption";
                  getProp cmd "trayReadOption"]
        (printCmd [("sequence_id", JStr "0"); ("command", JStr "ams_user_setting");
                   ("ams_id", getProp cmd "amsId");
                   ("startup_read_option", getProp cmd "startupReadOption");
                   ("tray_read_option", getProp cmd "trayReadOption")])
  | CAmsControl =>
      converting [getProp cmd "param"]
        (printCmd [("sequence_id", JStr "0"); ("command", JStr "ams_control");
                   ("param", getProp cmd "param")])
  | CAmsGetRfid =>
      converting [getProp cmd "amsId"; getProp cmd "slotId"]
        (printCmd [("sequence_id", JStr "0"); ("command", JStr "ams_get_rfid");
                   ("ams_id", getProp cmd "amsId"); ("slot_id", getProp cmd "slotId")])
  | CIpcamRecord =>
      converting [getProp cmd "control"]
        (simple (JObj [("camera", JObj [("sequence_id", JStr "0");
                                        ("command", JStr "ipcam_record_set");
                                        ("control", getProp cmd "control")])]))
  | CIpcamTimelapse =>
      converting [getProp cmd "control"]
        (simple (JObj [("camera", JObj [("sequence_id", JStr "0");
                                        ("command", JStr "ipcam_timelapse");
                                        ("control", getProp cmd "control")])]))
  | CSetAccessories =>
      converting [getProp cmd "nozzleDiameter"; getProp cmd "nozzleType"]
        (simple (JObj [("system", JObj [("sequence_id", JStr "0");
                                        ("command", JStr "set_accessories");
                                        ("accessory_type", JStr "nozzle");
                                        ("nozzle_diameter", getProp cmd "nozzleDiameter");
                                        ("nozzle_type", getProp cmd "nozzleType")])]))
  | CGetAccessories =>
      simple (JObj [("system", JObj [("sequence_id", JStr "0"); ("command", JStr "get_accessories");
                                     ("accessory_type", JStr "none")])])
  | CGetAccessCode =>
      simple (JObj [("system", JObj [("sequence_id", JStr "0"); ("command", JStr "get_access_code")])])
  | CSkipObjects =>
      printCmd [("sequence_id", JStr "0"); ("command", JStr "skip_objects");
                ("obj_list", getProp cmd "objList")]
  | CBuzzerCtrl =>
      converting [getProp cmd "mode"]
        (printCmd [("sequence_id", JStr "0"); ("command", JStr "buzzer_ctrl");
                   ("mode", getProp cmd "mode"); ("reason", JStr "")])
  | CSetAirduct =>
      converting [getProp cmd "modeId"; getProp cmd "submode"]
        (printCmd [("sequence_id", JStr "0"); ("command", JStr "set_airduct");
                   ("modeId", getProp cmd "modeId"); ("submode", getProp cmd "submode")])
  | CHeatbedLight =>
      converting [getProp cmd "on"]
        (simple (ledSwitch "heatbed_light" (onOff (getProp cmd "on")) true))
  | CLedFlashing =>
      converting [getProp cmd "ledNode"; getProp cmd "onTime"; getProp cmd "offTime"]
        (simple (JObj [("system", ledctrl (getProp cmd "ledNode") (JStr "flashing")
                                    (getProp cmd "onTime") (getProp cmd "offTime") 1);
                       ("user_id", JStr "1234567890")]))
  | CAmsFilamentSetting =>
      converting [getProp cmd "trayType"; snapshotProp s serial "model"; getProp cmd "amsId";
                  getProp cmd "trayId"; getProp cmd "trayColor"; getProp cmd "trayInfoIdx"]
        (let filamentCode :=
           filamentCodeOf (getProp cmd "trayInfoIdx") (toStr (getProp cmd "trayType")) in
         let s1 := setDebugClients ({[client]} ∪ debugClients s) s in
         let '(_, s2) := setTimeout (DebugOffTimer client 10000) s1 in
         Ok ([JObj [("print", JObj [("sequence_id", JStr "0");
                                    ("command", JStr "ams_filament_setting");
                                    ("ams_id", getProp cmd "amsId");
                                    ("slot_id", getProp cmd "trayId");
                                    ("tray_id", getProp cmd "trayId");
                                    ("tray_info_idx", filamentCode);
                                    ("setting_id", JStr "");
                                    ("tray_color", getProp cmd "trayColor");
                                    ("nozzle_temp_min", getProp cmd "nozzleTempMin");
                                    ("nozzle_temp_max", getProp cmd "nozzleTempMax");
                                    ("tray_type", getProp cmd "trayType")])]], s2))
  end.

(** Lines 818-1103, for a serial number that is a string.  The result is
    the state afterwards, its [published] list extended by what the call
    published, or the exception thrown. *)
Definition executeCommand (serial : string) (command : JsVal) (s : State) : Exc State :=
  match mqttClients s !! serial with
  | None => Ok s
  | Some client =>
      let topic := "device/" ++ serial ++ "/request" in
      let cmd := match command with
                 | JStr name => JObj [("type", JStr name)]
                 | _ => command
                 end in
      ty ← getPropStrict cmd "type";
      match classify ty with
      | None => Ok s
      | Some kind =>
          '(payloads, s') ← translate kind client serial cmd s;
          Ok (fold_left (fun acc payload => publish client topic payload acc) payloads s')
      end
  end.

End Commands.

(** The parameters for which a case supplies a value when the command has
    none ([cmd.speed || 0], [cmd.slot ?? cmd.trayId ?? 0], [cmd.distance ||
    10], [cmd.axis || 'X'], [cmd.printHalt || false], [cmd.on ? 'on' :
    'off'], the generic filament code of line 1054), each with the value
    that stands for the missing one. *)
Definition parameterDefaults : list (string * string * JsVal) :=
  [ ("partFan", "speed", JNum 0); ("auxFan", "speed", JNum 0);
    ("chamberFan", "speed", JNum 0);
    ("amsLoad", "slot", JNum 0); ("loadFilament", "slot", JNum 0);
    ("amsLoad", "trayId", JNum 0); ("loadFilament", "trayId", JNum 0);
    ("move", "distance", JNum 10); ("move", "axis", JStr "X");
    ("xcamControl", "printHalt", JBool false);
    ("light", "on", JBool false); ("chamberLight", "on", JBool false);
    ("workLight", "on", JBool false); ("heatbedLight", "on", JBool false);
    ("amsFilamentSetting", "trayInfoIdx", JStr "GFL99") ].

(** What the fan, load and jog commands publish when they carry no
    parameter: speed 0, slot 0, ten millimetres along X. *)
Definition defaultPayloads : list (string * list JsVal) :=
  let load := JObj [("print", JObj [("command", JStr "ams_change_filament");
                                    ("sequence_id", JStr "0"); ("target", JNum 0);
                                    ("curr_temp", JNum 220); ("tar_temp", JNum 220)])] in
  [ ("partFan", [gcodeLine ("M106 P1 S0" ++ newline)]);
    ("auxFan", [gcodeLine ("M106 P2 S0" ++ newline)]);
    ("chamberFan", [gcodeLine ("M106 P3 S0" ++ newline)]);
    ("amsLoad", [load]); ("loadFilament", [load]);
    ("move", [gcodeLine ("G91" ++ newline); gcodeLine ("G0 X10 F3000" ++ newline);
              gcodeLine ("G90" ++ newline)]) ].

(* --------------------------------------------------------------------- *)
(** ** The end of the API session and connection errors                    *)
(* --------------------------------------------------------------------- *)

(** Lines 286-302, [disconnectApi]: [mqttClients.forEach(c => c.end())]
    closes the connection of every registered client, then [mqttClients]
    and [printers] are cleared.  The API sockets are not part of the
    session state. *)
Definition disconnectApi (s : State) : State :=
  let open := map_fold (fun _ client acc => delete client acc) (sockets s) (mqttClients s) in
  setPrinters ∅ (setMqttClients ∅ (setSockets open s)).

(** Lines 741-749, the ['error'] handler of the client of [printer] at
    time [now]: whether the error is logged, and the state afterwards.
    [mqttErrorThrottle.get(serial) || 0] is the stored time or 0. *)
Definition onError (printer : Printer) (now : Z) (s : State) : bool * State :=
  let serial := serialNumber printer in
  let lastLog := default 0 (mqttErrorThrottle s !! serial) in
  if (60000 <? now - lastLog)%Z
  then (true, setMqttErrorThrottle (<[serial := now]> (mqttErrorThrottle s)) s)
  else (false, s).

(** Two states hold the same connections: clients, snapshots, cached
    records, reconnect counters, registered reconnect timers and open
    sockets. *)
Definition sameConnections (s s' : State) : Prop :=
  mqttClients s' = mqttClients s
  /\ printers s' = printers s
  /\ printerDataCache s' = printerDataCache s
  /\ printerReconnectTimers s' = printerReconnectTimers s
  /\ reconnectAttempts s' = reconnectAttempts s
  /\ sockets s' = sockets s.

(** The stored [model] of a device is a string or missing, so that
    [model?.toUpperCase()] does not throw. *)
Definition modelUsable (s : State) (serial : string) : bool :=
  match printers s !! serial with
  | None => true
  | Some pr =>
      match getProp pr "model" with
      | JUndef | JNull | JStr _ => true
      | _ => false
      end
  end.

End Session.

(* ===================================================================== *)
(** * Stream manager: which capture path a model takes                    *)
(* ===================================================================== *)

Module StreamManager.
Import Js.

Definition STREAM_GROUP_1 : list string := ["A1"; "A1 MINI"; "P1P"; "P1S"].
Definition STREAM_GROUP_2 : list string :=
  ["H2D"; "H2"; "H2C"; "H2S"; "X1"; "X1C"; "X1E"; "P2S"].

(** Lines 35-42.  [model.toUpperCase()] is a [TypeError] on a truthy value
    that is not a string. *)
Definition getStreamGroup (model : JsVal) : Exc Z :=
  if truthy model then
    match model with
    | JStr name =>
        let m := toUpperCase name in
        Ok (if existsb (fun g2 => includes m g2) STREAM_GROUP_2 then 2 else 1)
    | _ => Throw (TypeError "model.toUpperCase is not a function")
    end
  else Ok 1.

(** The object [getStreamConfig] returns. *)
Record StreamConfig : Type := {
  group : Z;
  type : string;
  port : Z;
  urlFormat : string
}.

(** Lines 44-49. *)
Definition getStreamConfig (model : JsVal) : Exc StreamConfig :=
  g ← getStreamGroup model;
  if (g =? 2)%Z
  then Ok {| group := 2; type := "rtsps"; port := 322; urlFormat := "stream.html" |}
  else Ok {| group := 1; type := "mjpeg"; port := 6000; urlFormat := "stream" |}.

(** Lines 1422-1424. *)
Definition isA1P1Model (model : JsVal) : Exc bool :=
  g ← getStreamGroup model;
  Ok (g =? 1)%Z.

(** The characters of a string are ASCII: on such a string [toUpperCase]
    of the embedding is the one of the engine. *)
Definition isAscii (s : string) : bool :=
  forallb (fun c => (nat_of_ascii c <? 128)%nat) (list_ascii_of_string s).

End StreamManager.

(* ===================================================================== *)
(** * Camera acquisition: the two frame extractors                        *)
(* ===================================================================== *)

Module Camera.

(** [buf.indexOf(Buffer.from([a, b]))] *)
Fixpoint indexOf2 (a b : byte) (buf : list byte) : option nat :=
  match buf with
  | x :: rest =>
      match rest with
      | y :: _ =>
          if (Byte.eqb x a && Byte.eqb y b)%bool then Some 0%nat
          else option_map S (indexOf2 a b rest)
      | [] => None
      end
  | [] => None
  end.

(** [buf.indexOf(Buffer.from([a, b]), from)] *)
Definition indexOfFrom (a b : byte) (buf : list byte) (from : nat) : option nat :=
  option_map (fun i => (from + i)%nat) (indexOf2 a b (skipn from buf)).

Definition JPEG_START : list byte := [xff; xd8].
Definition JPEG_END : list byte := [xff; xd9].

Definition indexOfStart (buf : list byte) : option nat := indexOf2 xff xd8 buf.
Definition indexOfEnd (buf : list byte) (from : nat) : option nat := indexOfFrom xff xd9 buf from.

(** A stretch of bytes without a start marker and without an end marker. *)
Definition markerFree (bytes : list byte) : bool :=
  match indexOf2 xff xd8 bytes, indexOf2 xff xd9 bytes with
  | None, None => true
  | _, _ => false
  end.

(** The fields of a Direct session object ([jpegStreams] entry) that frame
    processing touches. *)
Record StreamData : Type := {
  buffer : list byte;
  lastFrame : option (list byte);
  lastFrameTime : Z;
  frameCount : Z;
  lastSendTime : Z;
  clients : list nat
}.

(** The fields of a Relay session object ([rtspFrameRelays] entry) that
    frame processing touches. *)
Record RelayData : Type := {
  rBuffer : list byte;
  rLastFrameTime : Z;
  rFrameCount : Z;
  rLastSendTime : Z
}.

(** What frame processing reads from and writes to its surroundings: the
    clock behind [Date.now()] (the value of the k-th reading), whether
    [apiSocket] is connected, the [bridge:frame] events emitted upstream and
    the frames written to local subscribers by [sendJpegFrame]. *)
Record Env : Type := {
  clock : nat -> Z;
  ticks : nat;
  apiConnected : bool;
  upstream : list (string * list byte * Z);
  delivered : list (nat * list byte)
}.

(** [Date.now()] *)
Definition dateNow (e : Env) : Z * Env :=
  (clock e (ticks e),
   {| clock := clock e; ticks := S (ticks e); apiConnected := apiConnected e;
      upstream := upstream e; delivered := delivered e |}).

(** [sendLog(msg)], lines 150-158: while [apiSocket] is connected the log
    event sent upstream is stamped with a reading of the clock.  (The log
    events themselves are not part of the model.) *)
Definition sendLog (e : Env) : Env := if apiConnected e then (dateNow e).2 else e.

(** [apiSocket.emit('bridge:frame', { serial, frame, ts })] *)
Definition emitFrame (serial : string) (frame : list byte) (ts : Z) (e : Env) : Env :=
  {| clock := clock e; ticks := ticks e; apiConnected := apiConnected e;
     upstream := upstream e ++ [(serial, frame, ts)]; delivered := delivered e |}.

(** [clients.forEach(client => sendJpegFrame(client, jpegData))] *)
Definition sendToClients (cs : list nat) (frame : list byte) (e : Env) : Env :=
  {| clock := clock e; ticks := ticks e; apiConnected := apiConnected e;
     upstream := upstream e; delivered := delivered e ++ map (fun c => (c, frame)) cs |}.

Definition withBuffer (sd : StreamData) (b : list byte) : StreamData :=
  {| buffer := b; lastFrame := lastFrame sd; lastFrameTime := lastFrameTime sd;
     frameCount := frameCount sd; lastSendTime := lastSendTime sd; clients := clients sd |}.

Definition withRBuffer (rd : RelayData) (b : list byte) : RelayData :=
  {| rBuffer := b; rLastFrameTime := rLastFrameTime rd; rFrameCount := rFrameCount rd;
     rLastSendTime := rLastSendTime rd |}.

(** Lines 1378-1399: what [processJpegBuffer] does with an extracted
    [jpegData].  The clock is read for [lastFrameTime], by the log line of
    every tenth frame (line 1385) and for [now]. *)
Definition acceptJpeg (serial : string) (jpegData : list byte) (sd : StreamData) (e : Env)
  : StreamData * Env :=
  if (100 <? Z.of_nat (length jpegData))%Z then
    let '(t, e1) := dateNow e in
    let count := frameCount sd + 1 in
    let e1' := if (Z.rem count 10 =? 1)%Z then sendLog e1 else e1 in
    let '(now, e2) := dateNow e1' in
    let send := (apiConnected e2 && (200 <=? now - lastSendTime sd)%Z)%bool in
    let sd' := {| buffer := buffer sd; lastFrame := Some jpegData; lastFrameTime := t;
                  frameCount := count;
                  lastSendTime := if send then now else lastSendTime sd;
                  clients := clients sd |} in
    let e3 := if send then emitFrame serial jpegData now e2 else e2 in
    (sd', sendToClients (clients sd) jpegData e3)
  else (sd, e).

(** The [while (true)] loop of [processJpegBuffer] (lines 1352-1400); every
    round that does not return removes at least four bytes from the buffer,
    [fuel] bounds the number of rounds. *)
Fixpoint jpegLoop (fuel : nat) (serial : string) (sd : StreamData) (e : Env)
  : option (StreamData * Env) :=
  match fuel with
  | O => None
  | S fuel' =>
      match indexOfStart (buffer sd) with
      | None => Some (withBuffer sd [], e)
      | Some startIdx =>
          let buf := if (0 <? startIdx)%nat then skipn startIdx (buffer sd) else buffer sd in
          match indexOfEnd buf 2 with
          | None => Some (withBuffer sd buf, e)
          | Some endIdx =>
              let jpegData := firstn (endIdx + 2) buf in
              let sd1 := withBuffer sd (skipn (endIdx + 2) buf) in
              let '(sd2, e2) := acceptJpeg serial jpegData sd1 e in
              jpegLoop fuel' serial sd2 e2
          end
      end
  end.

(** Lines 1344-1401. *)
Definition processJpegBuffer (serial : string) (sd : StreamData) (e : Env)
  : option (StreamData * Env) :=
  jpegLoop (S (length (buffer sd))) serial sd e.

(** The entry [processRtspFrameBuffer] creates in [jpegStreams] when the
    serial has none (line 1725). *)
Definition emptyStream : StreamData :=
  {| buffer := []; lastFrame := None; lastFrameTime := 0; frameCount := 0;
     lastSendTime := 0; clients := [] |}.

(** Lines 1714-1744: what [processRtspFrameBuffer] does with an extracted
    [jpegData]; [streams] is the global [jpegStreams].  The clock is read
    for [lastFrameTime], for [now] and, after a frame that was passed on,
    by the log line of lines 1741-1743. *)
Definition acceptRtsp (serial : string) (jpegData : list byte) (rd : RelayData)
  (streams : gmap string StreamData) (e : Env)
  : RelayData * gmap string StreamData * Env :=
  if (100 <? Z.of_nat (length jpegData))%Z then
    let '(t, e1) := dateNow e in
    let '(now, e2) := dateNow e1 in
    let rd1 := {| rBuffer := rBuffer rd; rLastFrameTime := t;
                  rFrameCount := rFrameCount rd + 1; rLastSendTime := rLastSendTime rd |} in
    if (now - rLastSendTime rd1 <? 200)%Z then (rd1, streams, e2)
    else
      let rd2 := {| rBuffer := rBuffer rd1; rLastFrameTime := rLastFrameTime rd1;
                    rFrameCount := rFrameCount rd1; rLastSendTime := now |} in
      let streamData := default emptyStream (streams !! serial) in
      let streamData' :=
        {| buffer := buffer streamData; lastFrame := Some jpegData; lastFrameTime := now;
           frameCount := frameCount streamData; lastSendTime := lastSendTime streamData;
           clients := clients streamData |} in
      let e3 := sendToClients (clients streamData) jpegData e2 in
      let e4 := if apiConnected e3 then emitFrame serial jpegData now e3 else e3 in
      let e5 := if (Z.rem (rFrameCount rd2) 30 =? 1)%Z then sendLog e4 else e4 in
      (rd2, <[serial := streamData']> streams, e5)
  else (rd, streams, e).

(** The [while (true)] loop of [processRtspFrameBuffer] (lines 1703-1745). *)
Fixpoint rtspLoop (fuel : nat) (serial : string) (rd : RelayData)
  (streams : gmap string StreamData) (e : Env)
  : option (RelayData * gmap string StreamData * Env) :=
  match fuel with
  | O => None
  | S fuel' =>
      match indexOfStart (rBuffer rd) with
      | None => Some (withRBuffer rd [], streams, e)
      | Some startIdx =>
          let buf := if (0 <? startIdx)%nat then skipn startIdx (rBuffer rd) else rBuffer rd in
          match indexOfEnd buf 2 with
          | None => Some (withRBuffer rd buf, streams, e)
          | Some endIdx =>
              let jpegData := firstn (endIdx + 2) buf in
              let rd1 := withRBuffer rd (skipn (endIdx + 2) buf) in
              let '(rd2, streams2, e2) := acceptRtsp serial jpegData rd1 streams e in
              rtspLoop fuel' serial rd2 streams2 e2
          end
      end
  end.

(** Lines 1699-1746. *)
Definition processRtspFrameBuffer (serial : string) (rd : RelayData)
  (streams : gmap string StreamData) (e : Env)
  : option (RelayData * gmap string StreamData * Env) :=
  rtspLoop (S (length (rBuffer rd))) serial rd streams e.

(** The frames the loop of either function cuts out of a buffer, in order,
    and the bytes it leaves in the buffer. *)
Fixpoint extractFrames (fuel : nat) (buf : list byte) : list (list byte) * list byte :=
  match fuel with
  | O => ([], buf)
  | S fuel' =>
      match indexOfStart buf with
      | None => ([], [])
      | Some startIdx =>
          let buf1 := skipn startIdx buf in
          match indexOfEnd buf1 2 with
          | None => ([], buf1)
          | Some endIdx =>
              let '(frames, rest) := extractFrames fuel' (skipn (endIdx + 2) buf1) in
              (firstn (endIdx + 2) buf1 :: frames, rest)
          end
      end
  end.

(** The size test of lines 1378 and 1714: [jpegData.length > 100]. *)
Definition validFrame (frame : list byte) : bool := (100 <? Z.of_nat (length frame))%Z.

(** Each of the frames written to each of the subscribers, frame by frame. *)
Definition deliveries (cs : list nat) (frames : list (list byte)) : list (nat * list byte) :=
  flat_map (fun frame => map (fun c => (c, frame)) cs) frames.





(* --------------------------------------------------------------------- *)
(** ** Arriving chunks, the auth packet and the retry policy               *)
(* --------------------------------------------------------------------- *)

(** Lines 1316-1317, the ['data'] handler of the Direct socket: the chunk is
    appended to the session buffer, then the buffer is processed.  (The
    flag [receivedData] that the handler also sets belongs to the
    connection, which frame processing does not read.) *)
Definition onJpegData (serial : string) (chunk : list byte) (sd : StreamData) (e : Env)
  : option (StreamData * Env) :=
  processJpegBuffer serial (withBuffer sd (buffer sd ++ chunk)) e.

(** Lines 1661-1664, the ['data'] handler of the Relay response. *)
Definition onRtspData (serial : string) (chunk : list byte) (rd : RelayData)
  (streams : gmap string StreamData) (e : Env)
  : option (RelayData * gmap string StreamData * Env) :=
  processRtspFrameBuffer serial (withRBuffer rd (rBuffer rd ++ chunk)) streams e.

(** Lines 1182-1193, the endpoint [/frame/:serial]: the stored frame, or
    [None] for the 404 answer. *)
Definition frameEndpoint (streams : gmap string StreamData) (serial : string)
  : option (list byte) :=
  match streams !! serial with
  | Some stream => lastFrame stream
  | None => None
  end.

(** A frame as the loops cut it out: a start marker, a body and an end
    marker, where no end marker begins earlier than that at an offset of at
    least 2. *)
Definition delimited (frame : list byte) : Prop :=
  exists body,
    frame = (JPEG_START ++ body ++ JPEG_END)%list
    /\ indexOfEnd frame 2 = Some (2 + length body)%nat.

(** A buffer that waits for more data: empty, or an incomplete frame from
    its start marker on. *)
Definition waiting (buf : list byte) : Prop :=
  buf = [] \/ (indexOfStart buf = Some 0%nat /\ indexOfEnd buf 2 = None).

(** The time stamps of successive [bridge:frame] events are at least 200 ms
    apart, the first one from [last]. *)
Fixpoint spaced (last : Z) (stamps : list Z) : Prop :=
  match stamps with
  | [] => True
  | t :: rest => 200 <= t - last /\ spaced t rest
  end.

(** The time stamp of a [bridge:frame] event. *)
Definition eventStamp (event : string * list byte * Z) : Z := event.2.

(** The last valid frame of a list, [previous] when there is none. *)
Definition lastValid (previous : option (list byte)) (frames : list (list byte))
  : option (list byte) :=
  fold_left (fun acc frame => if validFrame frame then Some frame else acc) frames previous.

(** [Buffer.alloc(n)] *)
Definition bufferAlloc (n : nat) : list byte := replicate n x00.

(** [src.copy(target, targetStart)]: as many bytes of [src] as fit are
    written over [target] from [targetStart] on. *)
Definition bufferCopy (src : list byte) (targetStart : nat) (target : list byte) : list byte :=
  let n := Nat.min (length src) (length target - targetStart) in
  (take targetStart target ++ take n src ++ drop (targetStart + n) target)%list.

(** The byte of the value [v mod 256]. *)
Definition byteOf (v : Z) : byte :=
  default x00 (Byte.of_N (Z.to_N (v mod 256))).

(** [buf.writeUInt32LE(v, offset)] for [0 <= v < 2^32] and an offset that
    leaves room for four bytes, as at lines 1297-1300. *)
Definition writeUInt32LE (v : Z) (offset : nat) (buf : list byte) : list byte :=
  bufferCopy [byteOf v; byteOf (Z.shiftr v 8); byteOf (Z.shiftr v 16); byteOf (Z.shiftr v 24)]
    offset buf.

(** [Buffer.from(s)] for a string given by its UTF-8 bytes. *)
Definition bufferFrom (s : string) : list byte := list_byte_of_string s.

(** Lines 1296-1304: the packet written to the Direct socket once TLS is
    up. *)
Definition authPacket (accessCode : string) : list byte :=
  let p0 := bufferAlloc 80 in
  let p1 := writeUInt32LE 0x40 0 p0 in
  let p2 := writeUInt32LE 0x3000 4 p1 in
  let p3 := writeUInt32LE 0 8 p2 in
  let p4 := writeUInt32LE 0 12 p3 in
  let p5 := bufferCopy (bufferFrom "bblp") 16 p4 in
  bufferCopy (bufferFrom accessCode) 48 p5.

(** [Math.min(5000 * Math.pow(1.5, exponent), 30000)], in milliseconds, for
    the exponents that occur (0 and above).  The powers of 1.5 up to the
    fourth and their products with 5000 are exact in binary64, and from the
    fifth power on the product is above 30000, so the minimum is the one
    computed here on rationals. *)
Definition cameraBackoff (exponent : Z) : Q :=
  (Qmin (5000 * Qpower (3 # 2) exponent) 30000)%Q.

(** What a handler of the Relay connection decides. *)
Inductive RelayAction : Type :=
| RetryAfter (delay : Q)
| RestartGo2rtc (delay : Z)
| NoAction.

(** Lines 1329-1338 of the ['close'] handler of the Direct socket, for a
    session that [jpegStreams] still has ([active]): the counter afterwards
    and the delay of the reconnect timer. *)
Definition onJpegClose (active : bool) (reconnectAttempts : Z) : Z * option Q :=
  if active then
    let attempts := reconnectAttempts + 1 in
    (attempts, Some (cameraBackoff (Z.min (attempts - 1) 6)))
  else (reconnectAttempts, None).

(** Lines 1642-1654 (status other than 200) and 1668-1679 (end of the
    stream) of [connectRtspRelay]: the counter afterwards and what is
    scheduled. *)
Definition onRelayLost (active : bool) (reconnectAttempts : Z) : Z * RelayAction :=
  if active then
    let attempts := reconnectAttempts + 1 in
    if (5 <=? attempts)%Z then (0, RestartGo2rtc 1000)
    else (attempts, RetryAfter (cameraBackoff attempts))
  else (reconnectAttempts, NoAction).

(** Lines 1687-1694, the ['error'] handler of the request: the delay is
    computed before the counter is incremented. *)
Definition onRelayError (active : bool) (reconnectAttempts : Z) : Z * RelayAction :=
  if active then (reconnectAttempts + 1, RetryAfter (cameraBackoff reconnectAttempts))
  else (reconnectAttempts, NoAction).

(** What [connectRtspRelay] reacts to: the response of go2rtc with its
    status code (the callback of [http.get], line 1638), the end of a
    stream (the ['end'] handler, which only a response with status 200
    registers, line 1666) and a failed request (the ['error'] handler of the
    request, line 1687). *)
Inductive RelayEvent : Type :=
| Response (statusCode : Z)
| StreamEnd
| RequestError.

(** Lines 1638-1694: the counter [relayData.reconnectAttempts] after an
    event and what the handler schedules.  A response with status 200 sets
    the counter to 0 (line 1658) before any handler of the stream is
    registered. *)
Definition onRelayEvent (active : bool) (event : RelayEvent) (reconnectAttempts : Z)
  : Z * RelayAction :=
  match event with
  | Response statusCode =>
      if (statusCode =? 200)%Z then (0, NoAction) else onRelayLost active reconnectAttempts
  | StreamEnd => onRelayLost active reconnectAttempts
  | RequestError => onRelayError active reconnectAttempts
  end.

(** The events of a session in the order in which they arrive: the counter
    afterwards and what was scheduled, event by event. *)
Fixpoint relayRun (active : bool) (events : list RelayEvent) (reconnectAttempts : Z)
  : Z * list RelayAction :=
  match events with
  | [] => (reconnectAttempts, [])
  | event :: rest =>
      let '(attempts, action) := onRelayEvent active event reconnectAttempts in
      let '(final, actions) := relayRun active rest attempts in
      (final, action :: actions)
  end.

End Camera.

(* ===================================================================== *)
(** * Direct sessions: start, watchdog, reconnect and stop                *)
(* ===================================================================== *)

Module DirectSession.
Import Camera.

(** A session object, the [streamData] that [startJpegStream] creates: the
    frame fields and the fields of the connection.  [connectTime] and
    [receivedData] are [undefined] ([None]) until [connectJpegStream] has
    run. *)
Record Session : Type := {
  frames : StreamData;
  socket : option nat;
  reconnectAttempts : Z;
  connectTime : option Z;
  receivedData : option bool;
  watchdogTimer : option nat
}.

(** A TLS socket whose ['close'] event has not been delivered yet: the
    serial and the session object that its handlers close over, and whether
    [destroy()] was called on it. *)
Record Socket : Type := {
  ofSerial : string;
  ofSession : nat;
  destroyed : bool
}.

(** The callbacks of [setTimeout] and [setInterval] with what they close
    over. *)
Inductive Callback : Type :=
| ReconnectCallback (serial : string) (session : nat) (delay : Q)
| WatchdogCallback (serial : string) (session : nat).

(** The map [jpegStreams] (serial to session object), the session objects
    by identity, the sockets, the pending timeouts and the running
    intervals.  Objects, sockets and timers draw their identifiers from one
    counter. *)
Record State : Type := {
  jpegStreams : gmap string nat;
  objects : gmap nat Session;
  sockets : gmap nat Socket;
  timeouts : gmap nat Callback;
  intervals : gmap nat Callback;
  nextId : nat
}.

Definition initial : State :=
  {| jpegStreams := ∅; objects := ∅; sockets := ∅; timeouts := ∅; intervals := ∅;
     nextId := 0 |}.

Definition withStreams (v : gmap string nat) (s : State) : State :=
  {| jpegStreams := v; objects := objects s; sockets := sockets s; timeouts := timeouts s;
     intervals := intervals s; nextId := nextId s |}.

Definition withObjects (v : gmap nat Session) (s : State) : State :=
  {| jpegStreams := jpegStreams s; objects := v; sockets := sockets s; timeouts := timeouts s;
     intervals := intervals s; nextId := nextId s |}.

Definition withSockets (v : gmap nat Socket) (s : State) : State :=
  {| jpegStreams := jpegStreams s; objects := objects s; sockets := v; timeouts := timeouts s;
     intervals := intervals s; nextId := nextId s |}.

Definition withTimeouts (v : gmap nat Callback) (s : State) : State :=
  {| jpegStreams := jpegStreams s; objects := objects s; sockets := sockets s; timeouts := v;
     intervals := intervals s; nextId := nextId s |}.

Definition withIntervals (v : gmap nat Callback) (s : State) : State :=
  {| jpegStreams := jpegStreams s; objects := objects s; sockets := sockets s;
     timeouts := timeouts s; intervals := v; nextId := nextId s |}.

Definition withNextId (v : nat) (s : State) : State :=
  {| jpegStreams := jpegStreams s; objects := objects s; sockets := sockets s;
     timeouts := timeouts s; intervals := intervals s; nextId := v |}.

(** [socket.destroy()]: the socket stops delivering data, its ['close']
    event is still to come. *)
Definition destroy (k : nat) (s : State) : State :=
  match sockets s !! k with
  | Some sock =>
      withSockets (<[k := {| ofSerial := ofSerial sock; ofSession := ofSession sock;
                             destroyed := true |}]> (sockets s)) s
  | None => s
  end.

(** Lines 1279-1342 of [connectJpegStream], what runs at once: the session
    object gets the time and [receivedData = false], a socket is opened
    whose handlers close over the serial and the object, and the object
    refers to the socket. *)
Definition connectJpegStream (serial : string) (session : nat) (now : Z) (s : State) : State :=
  match objects s !! session with
  | Some o =>
      let k := nextId s in
      let o' := {| frames := frames o; socket := Some k;
                   reconnectAttempts := reconnectAttempts o; connectTime := Some now;
                   receivedData := Some false; watchdogTimer := watchdogTimer o |} in
      withNextId (S k)
        (withSockets (<[k := {| ofSerial := serial; ofSession := session;
                                destroyed := false |}]> (sockets s))
           (withObjects (<[session := o']> (objects s)) s))
  | None => s
  end.

(** Lines 1218-1275. *)
Definition startJpegStream (serial : string) (now : Z) (s : State) : State :=
  match jpegStreams s !! serial with
  | Some _ => s
  | None =>
      let session := nextId s in
      let watchdog := S (nextId s) in
      let o := {| frames := emptyStream; socket := None; reconnectAttempts := 0;
                  connectTime := None; receivedData := None;
                  watchdogTimer := Some watchdog |} in
      connectJpegStream serial session now
        (withNextId (S (S (nextId s)))
           (withIntervals (<[watchdog := WatchdogCallback serial session]> (intervals s))
              (withStreams (<[serial := session]> (jpegStreams s))
                 (withObjects (<[session := o]> (objects s)) s))))
  end.

(** Lines 1249-1254 and 1260-1265: the reconnect of the watchdog; [now] is
    the time at which [connectJpegStream] reads the clock. *)
Definition watchdogReconnect (serial : string) (session : nat) (o : Session) (now : Z)
  (s : State) : State :=
  let s1 := match socket o with
            | Some k => destroy k s
            | None => s
            end in
  let o' := {| frames := withBuffer (frames o) []; socket := None; reconnectAttempts := 0;
               connectTime := connectTime o; receivedData := Some false;
               watchdogTimer := watchdogTimer o |} in
  connectJpegStream serial session now (withObjects (<[session := o']> (objects s1)) s1).

(** Lines 1240-1268, one run of the interval callback at time [now];
    [later] is the time at which a reconnect reads the clock again. *)
Definition watchdogTick (w : nat) (now later : Z) (s : State) : State :=
  match intervals s !! w with
  | Some (WatchdogCallback serial session) =>
      match objects s !! session with
      | Some o =>
          match jpegStreams s !! serial with
          | None =>
              match watchdogTimer o with
              | Some handle => withIntervals (delete handle (intervals s)) s
              | None => s
              end
          | Some _ =>
              let last := lastFrameTime (frames o) in
              let silent := now - last in
              if ((0 <? last)%Z && (60000 <? silent)%Z && bool_decide (is_Some (socket o)))%bool
              then watchdogReconnect serial session o later s
              else if ((last =? 0)%Z && bool_decide (is_Some (socket o))
                       && bool_decide (receivedData o = Some false))%bool
              then
                let since := match connectTime o with
                             | Some t => if (t =? 0)%Z then now else t
                             | None => now
                             end in
                if (30000 <? now - since)%Z then watchdogReconnect serial session o later s
                else s
              else s
          end
      | None => s
      end
  | _ => s
  end.

(** Lines 1290-1308, the callback of [tls.connect] for socket [k]: the
    counter is reset and the auth packet for the access code written. *)
Definition onTlsConnect (k : nat) (accessCode : string) (s : State) : State * list byte :=
  match sockets s !! k with
  | Some sock =>
      match objects s !! ofSession sock with
      | Some o =>
          (withObjects (<[ofSession sock :=
                            {| frames := frames o; socket := socket o; reconnectAttempts := 0;
                               connectTime := connectTime o; receivedData := receivedData o;
                               watchdogTimer := watchdogTimer o |}]> (objects s)) s,
           authPacket accessCode)
      | None => (s, [])
      end
  | None => (s, [])
  end.

(** Lines 1310-1318, the ['data'] handler of socket [k]. *)
Definition onSocketData (k : nat) (chunk : list byte) (e : Env) (s : State)
  : option (State * Env) :=
  match sockets s !! k with
  | Some sock =>
      match objects s !! ofSession sock with
      | Some o =>
          '(sd, e') ← onJpegData (ofSerial sock) chunk (frames o) e;
          Some (withObjects (<[ofSession sock :=
                                 {| frames := sd; socket := socket o;
                                    reconnectAttempts := reconnectAttempts o;
                                    connectTime := connectTime o; receivedData := Some true;
                                    watchdogTimer := watchdogTimer o |}]> (objects s)) s, e')
      | None => Some (s, e)
      end
  | None => Some (s, e)
  end.

(** Lines 1324-1339, the ['close'] handler of socket [k]: the object of the
    handler loses its socket reference, whichever socket it refers to, and
    while [jpegStreams] has the serial a reconnect is scheduled. *)
Definition onSocketClose (k : nat) (s : State) : State :=
  match sockets s !! k with
  | Some sock =>
      let s0 := withSockets (delete k (sockets s)) s in
      match objects s0 !! ofSession sock with
      | Some o =>
          let active := bool_decide (is_Some (jpegStreams s0 !! ofSerial sock)) in
          let '(attempts, delay) := onJpegClose active (reconnectAttempts o) in
          let o' := {| frames := frames o; socket := None; reconnectAttempts := attempts;
                       connectTime := connectTime o; receivedData := receivedData o;
                       watchdogTimer := watchdogTimer o |} in
          let s1 := withObjects (<[ofSession sock := o']> (objects s0)) s0 in
          match delay with
          | Some d =>
              withNextId (S (nextId s1))
                (withTimeouts (<[nextId s1 := ReconnectCallback (ofSerial sock) (ofSession sock) d]>
                                 (timeouts s1)) s1)
          | None => s1
          end
      | None => s0
      end
  | None => s
  end.

(** Lines 1333-1337, a pending timeout expires at time [now]. *)
Definition fireTimeout (t : nat) (now : Z) (s : State) : State :=
  match timeouts s !! t with
  | Some (ReconnectCallback serial session _) =>
      let s0 := withTimeouts (delete t (timeouts s)) s in
      match jpegStreams s0 !! serial with
      | Some _ => connectJpegStream serial session now s0
      | None => s0
      end
  | _ => s
  end.

(** Lines 1403-1419. ([client.end()] on the subscribers is outside the
    state.) *)
Definition stopJpegStream (serial : string) (s : State) : State :=
  match jpegStreams s !! serial with
  | Some session =>
      match objects s !! session with
      | Some o =>
          let s1 := match watchdogTimer o with
                    | Some handle => withIntervals (delete handle (intervals s)) s
                    | None => s
                    end in
          let o' := {| frames := frames o; socket := socket o;
                       reconnectAttempts := reconnectAttempts o; connectTime := connectTime o;
                       receivedData := receivedData o; watchdogTimer := None |} in
          let s2 := withObjects (<[session := o']> (objects s1)) s1 in
          let s3 := match socket o with
                    | Some k => destroy k s2
                    | None => s2
                    end in
          withStreams (delete serial (jpegStreams s3)) s3
      | None => withStreams (delete serial (jpegStreams s)) s
      end
  | None => s
  end.

(** The sockets that are open: not destroyed, their ['close'] event not
    delivered. *)
Definition openSocket (s : State) (k : nat) (serial : string) (session : nat) : Prop :=
  sockets s !! k = Some {| ofSerial := serial; ofSession := session; destroyed := false |}.

End DirectSession.

(* ===================================================================== *)
(** * A concrete instance of the external operations, to run examples    *)
(* ===================================================================== *)

Module Examples.
Import Js.

(** Stand-ins for the operations of [Externals]; every general statement
    below holds for all instances, this one only serves to evaluate the
    definitions on concrete inputs. *)
Definition exampleExternals : Externals :=
  {| hostToInt32 := fun _ => 0;
     hostToDouble := fun _ => S754_nan;
     hostToString := fun _ => "[object Object]";
     hostBigToString := fun _ => "1e+21";
     parseInt := fun v => v;
     amsUnits := fun _ lock => (Ok (JArr [], JArr []), lock);
     h2debug := fun _ => Ok (JObj []) |}.

(** A roster entry used in the worked scenarios. *)
Definition dev : Session.Printer :=
  {| Session.serialNumber := "01P00A000000001";
     Session.record :=
       JObj [("id", JNum 7); ("serialNumber", JStr "01P00A000000001");
             ("name", JStr "Werkstatt"); ("ipAddress", JStr "192.168.1.50");
             ("accessCode", JStr "12345678"); ("model", JStr "P1S")] |}.

(** A client state with one stored snapshot. *)
Definition stored (serial : string) (snap : JsVal) : Telemetry.HandlerState :=
  {| Telemetry.printers := {[serial := snap]}; Telemetry.amsNozzleLock := JUndef;
     Telemetry.debugAmsCmd := false |}.

(** A snapshot that holds a finished print at 100 percent. *)
Definition finishedSnapshot : JsVal :=
  JObj [("model", JStr "P1S"); ("online", JBool true); ("gcodeState", JStr "FINISH");
        ("printProgress", JNum 100); ("currentFile", JStr "benchy.3mf")].

(** A running print. *)
Definition runningSnapshot : JsVal :=
  JObj [("model", JStr "P1S"); ("online", JBool true); ("gcodeState", JStr "RUNNING");
        ("printProgress", JNum 42); ("remainingTime", JNum 35);
        ("nozzleTargetTemp", JNum 220); ("bedTargetTemp", JNum 60);
        ("currentFile", JStr "benchy.3mf")].

(** Print sections of frames: a delta that only reports the signal
    strength, the end of a print with its progress, the bare end of a
    print, and a running print. *)
Definition wifiFrame : JsVal := JObj [("wifi_signal", JStr "-50dBm")].
Definition finishFrame : JsVal :=
  JObj [("gcode_state", JStr "FINISH"); ("mc_percent", JNum 100)].
Definition bareFinishFrame : JsVal := JObj [("gcode_state", JStr "FINISH")].

(** A device as the ['connect'] handler stores it, and the report of a
    running print with its targets. *)
Definition rosterSnapshot : JsVal := JObj [("model", JStr "P1S"); ("online", JBool true)].
Definition printingFrame : JsVal :=
  JObj [("gcode_state", JStr "RUNNING"); ("mc_percent", JNum 42);
        ("mc_remaining_time", JNum 35); ("nozzle_target_temper", JNum 220);
        ("bed_target_temper", JNum 60)].
Definition runningFrame : JsVal :=
  JObj [("gcode_state", JStr "RUNNING"); ("mc_percent", JNum 42)].

(** The merge of a print section into the stored snapshot of ["S1"]. *)
Definition merged (snap p : JsVal) : Exc unit * Telemetry.HandlerState :=
  @Telemetry.mergeFrame exampleExternals "S1" (JObj [("print", p)]) p JUndef (stored "S1" snap).

(** Two frames of 104 bytes each, a session with one subscriber and a clock
    that does not advance during the call. *)
Definition frameA : list byte := Camera.JPEG_START ++ repeat x41 100 ++ Camera.JPEG_END.

Definition stream0 (buf : list byte) : Camera.StreamData :=
  {| Camera.buffer := buf; Camera.lastFrame := None; Camera.lastFrameTime := 0;
     Camera.frameCount := 0; Camera.lastSendTime := 0; Camera.clients := [7%nat] |}.


Definition env0 : Camera.Env :=
  {| Camera.clock := fun _ => 1700000000000; Camera.ticks := 0;
     Camera.apiConnected := true; Camera.upstream := []; Camera.delivered := [] |}.

(** The first frame of a session on a connected bridge whose clock advances
    between the readings: 100 ms after the first reading, 300 ms after the
    second. *)
Definition envAdvancing : Camera.Env :=
  {| Camera.clock := fun k => match k with
                              | O => 1700000000000
                              | S O => 1700000000100
                              | _ => 1700000000300
                              end;
     Camera.ticks := 0; Camera.apiConnected := true; Camera.upstream := [];
     Camera.delivered := [] |}.

Definition streamSent (buf : list byte) : Camera.StreamData :=
  {| Camera.buffer := buf; Camera.lastFrame := None; Camera.lastFrameTime := 0;
     Camera.frameCount := 0; Camera.lastSendTime := 1700000000000;
     Camera.clients := [7%nat] |}.

Definition relaySent (buf : list byte) : Camera.RelayData :=
  {| Camera.rBuffer := buf; Camera.rLastFrameTime := 0; Camera.rFrameCount := 0;
     Camera.rLastSendTime := 1700000000000 |}.

(** A Direct session is started at time 1000: its object is 0, its
    watchdog 1 and its socket 2.  A frame arrives and the clock of [env0]
    stamps it. *)
Definition silentSession : DirectSession.State :=
  match DirectSession.onSocketData 2 frameA env0
          (DirectSession.startJpegStream "S" 1000 DirectSession.initial) with
  | Some (s, _) => s
  | None => DirectSession.initial
  end.

(** The AMS rebuild on stand-ins for the number conversions. *)
Definition orZero (v : JsVal) : JsVal := v |? JNum 0.

Definition positiveNumber (v : JsVal) : bool :=
  match v with
  | JNum n => (0 <? n)%Z
  | _ => false
  end.

Definition exampleRebuild : bool -> list JsVal -> JsVal -> Exc (JsVal * JsVal) * JsVal :=
  @Telemetry.amsRebuild exampleExternals orZero orZero positiveNumber.

(** An AMS unit with bit 8 of [info] set and filament in its first and
    third tray, and the same unit as a later frame reports it with the bit
    cleared. *)
Definition amsTrays : JsVal :=
  JArr [JObj [("tray_type", JStr "PLA"); ("tray_color", JStr "FF0000FF")];
        JObj [("tray_color", JStr "00000000")];
        JObj [("tray_color", JStr "00FF00FF")];
        JNull].

Definition amsUnitRight : JsVal := JObj [("info", JNum 256); ("tray", amsTrays)].
Definition amsUnitFlipped : JsVal := JObj [("info", JNum 0); ("tray", amsTrays)].

(** A unit that lists five trays, next to a second unit. *)
Definition amsUnitFive : JsVal :=
  JObj [("tray", JArr (replicate 5 (JObj [("tray_type", JStr "PETG")])))].

End Examples.

(* ===================================================================== *)
(** * Properties of the JavaScript fragment                               *)
(* ===================================================================== *)

Module JsFacts.
Import Js.

Lemma lookupOpt_app k (a b : list (string * JsVal)) :
  lookupOpt k (a ++ b) =
  match lookupOpt k b with
  | Some v => Some v
  | None => lookupOpt k a
  end.
Proof.
  induction a as [| [k' v] a IH]; simpl.
  - destruct (lookupOpt k b); reflexivity.
  - rewrite IH. destruct (lookupOpt k b); reflexivity.
Qed.

Lemma lookupOpt_replace k k' v (props : list (string * JsVal)) :
  lookupOpt k' (map (fun kv => if String.eqb k kv.1 then (k, v) else kv) props)
  = if String.eqb k' k
    then match lookupOpt k props with Some _ => Some v | None => None end
    else lookupOpt k' props.
Proof.
  induction props as [| [k0 v0] props IH].
  - simpl. destruct (String.eqb k' k); reflexivity.
  - cbn [map fst].
    destruct (String.eqb_spec k k0) as [<- | Hk].
    + cbn [lookupOpt]. rewrite IH.
      destruct (String.eqb_spec k' k) as [-> | Hne].
      * rewrite String.eqb_refl. destruct (lookupOpt k props); reflexivity.
      * reflexivity.
    + cbn [lookupOpt]. rewrite IH.
      destruct (String.eqb_spec k' k) as [-> | Hne].
      * destruct (String.eqb_spec k k0); [contradiction |].
        destruct (lookupOpt k props); reflexivity.
      * reflexivity.
Qed.

Lemma lookupOpt_setPropList k k' v (props : list (string * JsVal)) :
  lookupOpt k' (setPropList k v props)
  = if String.eqb k' k then Some v else lookupOpt k' props.
Proof.
  unfold setPropList. destruct (lookupOpt k props) eqn:E.
  - rewrite lookupOpt_replace, E. reflexivity.
  - rewrite lookupOpt_app. simpl.
    destruct (String.eqb_spec k' k) as [-> | Hne]; [reflexivity |].
    reflexivity.
Qed.

Lemma getProp_setProp props k k' v :
  getProp (setProp (JObj props) k v) k'
  = if String.eqb k' k then v else getProp (JObj props) k'.
Proof.
  simpl. unfold lookupProp. rewrite lookupOpt_setPropList.
  destruct (String.eqb k' k); reflexivity.
Qed.

Lemma lookupOpt_assign k (b a : list (string * JsVal)) :
  lookupOpt k (fold_left (fun acc kv => setPropList kv.1 kv.2 acc) b a)
  = match lookupOpt k b with
    | Some v => Some v
    | None => lookupOpt k a
    end.
Proof.
  revert a. induction b as [| [k0 v0] b IH]; intros a; simpl.
  - reflexivity.
  - rewrite IH. destruct (lookupOpt k b); [reflexivity |].
    rewrite lookupOpt_setPropList. destruct (String.eqb k k0); reflexivity.
Qed.

(** A property of [{...a, ...b}] is the one of [b] when [b] has it. *)
Lemma getProp_spread (a : JsVal) (props : list (string * JsVal)) k :
  getProp (spread a (JObj props)) k
  = match lookupOpt k props with
    | Some v => v
    | None => getProp a k
    end.
Proof.
  unfold spread. simpl. unfold lookupProp. rewrite lookupOpt_assign.
  destruct (lookupOpt k props); [reflexivity |].
  destruct a; reflexivity.
Qed.

Lemma getProp_setProp_ne o k k' v :
  k' <> k -> getProp (setProp o k v) k' = getProp o k'.
Proof.
  intros Hne. destruct o; try reflexivity.
  rewrite getProp_setProp. destruct (String.eqb_spec k' k); [contradiction | reflexivity].
Qed.

Lemma setProp_isObject o k v : isObject (setProp o k v) = isObject o.
Proof. destruct o; reflexivity. Qed.

Lemma nullish_absent (a b : JsVal) : isNullish a = true -> a ?? b = b.
Proof. unfold nullish. intros ->. reflexivity. Qed.

Lemma orElse_falsy (a b : JsVal) : truthy a = false -> a |? b = b.
Proof. unfold orElse. intros ->. reflexivity. Qed.

Lemma nullish_not_truthy (a : JsVal) : isNullish a = true -> truthy a = false.
Proof. destruct a; simpl; congruence. Qed.

Lemma nullish_not_array (a : JsVal) : isNullish a = true -> isArray a = false.
Proof. destruct a; simpl; congruence. Qed.

Lemma getProp_nullish (a : JsVal) k : isNullish a = true -> getProp a k = JUndef.
Proof. destruct a; simpl; congruence. Qed.

Lemma wrapInt32_mod (n : Z) : wrapInt32 n mod 2 ^ 16 = n mod 2 ^ 16.
Proof.
  unfold wrapInt32.
  pose proof (Z.div_mod (n + 2 ^ 31) (2 ^ 32) ltac:(lia)) as D.
  replace ((n + 2 ^ 31) mod 2 ^ 32 - 2 ^ 31)
    with (n + (- ((n + 2 ^ 31) / 2 ^ 32) * 2 ^ 16) * 2 ^ 16) by lia.
  apply Z.mod_add. lia.
Qed.

Lemma wrapInt32_small (n : Z) : 0 <= n < 2 ^ 31 -> wrapInt32 n = n.
Proof.
  intros Hn. unfold wrapInt32. rewrite Z.mod_small by lia. lia.
Qed.

Lemma wrapInt32_large (n : Z) : 2 ^ 31 <= n < 2 ^ 32 -> wrapInt32 n = n - 2 ^ 32.
Proof.
  intros Hn. unfold wrapInt32.
  replace (n + 2 ^ 31) with ((n - 2 ^ 31) + 1 * 2 ^ 32) by lia.
  rewrite Z.mod_add by lia. rewrite Z.mod_small by lia. lia.
Qed.

Lemma land_low16 (x : Z) : Z.land x 0xFFFF = x mod 2 ^ 16.
Proof. change 0xFFFF with (Z.ones 16). apply Z.land_ones. lia. Qed.

End JsFacts.

(* ===================================================================== *)
(** * Properties of the telemetry normalizer                              *)
(* ===================================================================== *)

Module TelemetryFacts.
Import Js JsFacts Telemetry Examples.

Lemma high16_of_word (e : Z) :
  0 <= e < 2 ^ 32 -> Z.shiftr (wrapInt32 e) 16 mod 2 ^ 16 = e / 2 ^ 16.
Proof.
  intros He. rewrite Z.shiftr_div_pow2 by lia.
  assert (Hq : 0 <= e / 2 ^ 16 < 2 ^ 16).
  { split.
    - apply Z.div_pos; lia.
    - apply Z.div_lt_upper_bound; lia. }
  destruct (Z_lt_ge_dec e (2 ^ 31)) as [Hlo | Hhi].
  - rewrite wrapInt32_small by lia. apply Z.mod_small. exact Hq.
  - rewrite wrapInt32_large by lia.
    replace (e - 2 ^ 32) with (e + (-2 ^ 16) * 2 ^ 16) by lia.
    rewrite Z.div_add by lia.
    replace (e / 2 ^ 16 + - 2 ^ 16) with (e / 2 ^ 16 + (-1) * 2 ^ 16) by lia.
    rewrite Z.mod_add by lia. apply Z.mod_small. exact Hq.
Qed.

(** C6.  The bit-packed temperature decoder returns the low 16 bits of a
    32-bit encoded value as the current temperature and the high 16 bits as
    the target; [0x00DC00AF] decodes to 175 and 220, and [0], like [null]
    and [undefined], to 0 and 0. *)
Theorem decodeTemp_low_high `{Externals} :
  (forall e : Z, 0 <= e < 2 ^ 32 ->
     decodeTemp (JNum e) = {| current := e mod 2 ^ 16; target := e / 2 ^ 16 |})
  /\ decodeTemp (JNum 0x00DC00AF) = {| current := 175; target := 220 |}
  /\ decodeTemp (JNum 0) = {| current := 0; target := 0 |}
  /\ decodeTemp JNull = {| current := 0; target := 0 |}
  /\ decodeTemp JUndef = {| current := 0; target := 0 |}.
Proof.
  assert (G : forall e : Z, 0 <= e < 2 ^ 32 ->
     decodeTemp (JNum e) = {| current := e mod 2 ^ 16; target := e / 2 ^ 16 |}).
  { intros e He. unfold decodeTemp. simpl.
    destruct (Z.eqb_spec e 0) as [-> | Hne].
    - reflexivity.
    - rewrite !land_low16, wrapInt32_mod, high16_of_word by exact He. reflexivity. }
  split; [exact G |].
  split; [rewrite G by lia; reflexivity |].
  repeat split; reflexivity.
Qed.

(** The decoder evaluated at the encoded value of the specification. *)
Lemma decodeTemp_low_high_witness :
  0 <= 0x00DC00AF < 2 ^ 32 /\
  @decodeTemp exampleExternals (JNum 0x00DC00AF) = {| current := 175; target := 220 |}.
Proof.
  split; [lia |].
  rewrite (proj1 (@decodeTemp_low_high exampleExternals) 0x00DC00AF) by lia.
  reflexivity.
Defined.

(** ** The handler as it is written *)

Section HandlerFacts.
Context `{Externals}.

Lemma amsStage_store p prev st : printers (amsStage p prev st).2 = printers st.
Proof.
  unfold amsStage. destruct (truthy (getProp p "ams")); [| reflexivity].
  destruct (getProp (getProp p "ams") "ams"); try reflexivity.
  destruct (amsUnits items (amsNozzleLock st)) as [[[us ts] | err] lock']; reflexivity.
Qed.

Lemma amsStage_absent p prev st :
  truthy (getProp p "ams") = false -> amsStage p prev st = (Ok JNull, st).
Proof. unfold amsStage. intros ->. reflexivity. Qed.

(** The body of [if (data.print)] never completes: whatever the frame, it
    throws at the latest when line 518 reads [isH2Model], and the store is
    as it was when the body started. *)
Lemma printSection_throws serial data p isH2 st :
  (exists e, (printSection serial data p isH2 st).1 = Throw e)
  /\ printers (printSection serial data p isH2 st).2 = printers st.
Proof.
  unfold printSection, printSectionWith, mbind, m_bind, lift, getState.
  destruct (lightsLog p) as [[] | e]; [| simpl; eauto].
  pose proof (amsStage_store p (default (JObj []) (printers st !! serial)) st) as Hs.
  destruct (amsStage p (default (JObj []) (printers st !! serial)) st) as [[ams | e] st1];
    simpl in *; eauto.
Qed.

(** So the handler writes to the store, if at all, through the CTC branch
    of lines 380-390 only. *)
Lemma onMessage_store serial data st :
  printers (onMessage serial data st) = printers st
  \/ printers (onMessage serial data st) = printers (ctcStage serial data st).2.
Proof.
  unfold onMessage, handlerBody, mbind, m_bind, lift, getState.
  assert (Hd : (debugStage data st).2 = st).
  { unfold debugStage. destruct (debugAmsCmd st); [| reflexivity].
    destruct data; try reflexivity;
      match goal with
      | |- context [truthy ?x] => destruct (truthy x); try reflexivity
      end;
      match goal with
      | |- context [getProp ?x "ams"] => destruct (getProp x "ams"); try reflexivity
      end;
      match goal with
      | |- context [existsb ?f ?l] => destruct (existsb f l); reflexivity
      end. }
  destruct (debugStage data st) as [[[] | e] st0]; simpl in Hd; subst st0; [| left; reflexivity].
  destruct (getPropStrict data "system") as [v | e]; [| left; reflexivity].
  destruct (ctcStage serial data st) as [[[] | e] st1]; [| right; reflexivity].
  simpl.
  destruct (modelIsH2 (printers st1 !! serial)) as [isH2 | e]; [| right; reflexivity].
  destruct (truthy (getProp data "print")); [| right; reflexivity].
  right. apply printSection_throws.
Qed.

(** The CTC branch writes [chamberTemp] and nothing else, and nothing at
    all for a frame without a CTC temperature. *)
Lemma ctcStage_keeps serial key data st :
  key <> "chamberTemp" ->
  getProp (snapshot (ctcStage serial data st).2 serial) key = getProp (snapshot st serial) key.
Proof.
  intros Hkey. unfold ctcStage, snapshot.
  destruct (isNullish _); [reflexivity |]. destruct (convertible _); [| reflexivity].
  cbn [snd withPrinters printers]. rewrite lookup_insert_eq. cbn [default from_option id].
  apply getProp_setProp_ne. exact Hkey.
Qed.

Lemma ctcStage_absent serial data st :
  isNullish (getProp (getProp data "print") "device") = true ->
  ctcStage serial data st = (Ok tt, st).
Proof.
  intros Hd. unfold ctcStage. rewrite (getProp_nullish _ "ctc" Hd). reflexivity.
Qed.

Lemma onMessage_keeps serial key data st :
  key <> "chamberTemp" ->
  getProp (snapshot (onMessage serial data st) serial) key = getProp (snapshot st serial) key.
Proof.
  intros Hkey. unfold snapshot at 1.
  destruct (onMessage_store serial data st) as [-> | ->]; [reflexivity |].
  apply ctcStage_keeps. exact Hkey.
Qed.

(** C1.  Whatever frame arrives, a snapshot field whose keys are absent or
    [null] in the print section has after the handler the value it had
    before: the handler as it is written stores a CTC temperature and
    nothing else, since the body of [if (data.print)] throws at line 518
    before any of its statements writes to the store. *)
Theorem frame_keeps_absent_fields (serial : string) (data : JsVal) (st : HandlerState)
  (field : string) (keys : list string) (fallback : JsVal -> JsVal) :
  In (field, keys, fallback) mergedFields ->
  (forall key, In key (feedingKeys field keys) ->
     isNullish (getProp (getProp data "print") key) = true) ->
  getProp (snapshot (onMessage serial data st) serial) field
  = getProp (snapshot st serial) field.
Proof.
  intros _ Hkeys. destruct (String.eqb_spec field "chamberTemp") as [-> | Hne].
  - assert (Hd : isNullish (getProp (getProp data "print") "device") = true)
      by (apply Hkeys; left; reflexivity).
    unfold snapshot at 1.
    destruct (onMessage_store serial data st) as [-> | ->]; [reflexivity |].
    rewrite (ctcStage_absent serial data st Hd). reflexivity.
  - apply onMessage_keeps. exact Hne.
Qed.

(** ** The merge of lines 531-719 *)

Lemma mergeFrame_inv serial data p isH2 st st' :
  mergeFrame serial data p isH2 st = (Ok tt, st') ->
  let prev := snapshot st serial in
  let prev2 := resetPrev p prev in
  exists h2 ams es ess dbg X,
    (amsStage p prev st).1 = Ok ams
    /\ spoolStage p = Ok (es, ess)
    /\ snapshot st' serial
       = spread X (JObj (statusProps h2 p prev2 ams es ess ++ [("_h2debug", dbg)])).
Proof.
  unfold mergeFrame, printSectionWith.
  unfold mbind, m_bind, lift, getState.
  destruct (lightsLog p); [| discriminate].
  fold (snapshot st serial).
  destruct (amsStage p (snapshot st serial) st) as [[ams | err] st1] eqn:Eams; [| discriminate].
  unfold statusMerge.
  unfold mbind, m_bind, lift, getState.
  destruct (spoolStage p) as [[es ess] | err]; [| discriminate].
  destruct (writePrev serial (resetPrev p (snapshot st serial)) st1)
    as [[[] | err] st2]; [| discriminate].
  destruct (modelIsH2 (printers st2 !! serial)) as [h2 | err]; [| discriminate].
  cbn [readConst].
  destruct (truthy isH2).
  - destruct (h2debug data) as [dbg | err]; [| discriminate].
    intros Hst. inversion Hst; subst st'. clear Hst.
    exists h2, ams, es, ess, dbg, (default JUndef (printers st2 !! serial)).
    repeat split. unfold snapshot, storePrinters, withPrinters. simpl.
    rewrite lookup_insert_eq. reflexivity.
  - intros Hst. inversion Hst; subst st'. clear Hst.
    exists h2, ams, es, ess, JUndef, (default JUndef (printers st2 !! serial)).
    repeat split. unfold snapshot, storePrinters, withPrinters. simpl.
    rewrite lookup_insert_eq. reflexivity.
Qed.

Lemma spoolStage_absent p :
  isNullish (getProp p "vir_slot") = true -> isNullish (getProp p "vt_tray") = true ->
  spoolStage p = Ok (JNull, []).
Proof.
  intros Hv Ht. unfold spoolStage.
  destruct (getProp p "vir_slot"); try discriminate;
    rewrite (nullish_not_truthy _ Ht); reflexivity.
Qed.

Lemma resetPrev_active p prev :
  isIdleState (currentStateOf p prev) = false -> resetPrev p prev = prev.
Proof.
  unfold resetPrev, transitionReset, staleReset. intros ->.
  rewrite andb_false_r. reflexivity.
Qed.

Lemma nozzleTemps_scalar h2 p prev :
  isNullish (getProp p "device") = true -> isNullish (getProp p "extruder") = true ->
  nozzleTemps h2 p prev
  = (if truthy h2 then getProp prev "nozzleTemp" ?? JNum 0
     else getProp p "nozzle_temper" ?? getProp prev "nozzleTemp" ?? JNum 0,
     if truthy h2 then getProp prev "nozzleTargetTemp" ?? JNum 0
     else getProp p "nozzle_target_temper" ?? getProp prev "nozzleTargetTemp" ?? JNum 0,
     if truthy h2 then getProp prev "nozzleTemp2"
     else getProp p "nozzle_temper_2" ?? getProp prev "nozzleTemp2",
     if truthy h2 then getProp prev "nozzleTargetTemp2"
     else getProp p "nozzle_target_temper_2" ?? getProp prev "nozzleTargetTemp2").
Proof.
  intros Hd He. unfold nozzleTemps.
  rewrite (getProp_nullish _ "extruder" Hd). simpl (getProp (getProp JUndef _) _).
  rewrite (nullish_not_truthy _ He). reflexivity.
Qed.

End HandlerFacts.

(** ** The statements behind line 518

    What the merge of lines 531-719 would do with a frame.  The handler
    does not reach these statements; the facts below are about
    [mergeFrame]. *)

Section MergeFacts.
Context `{Externals}.

(** Splits a hypothesis about all keys of a concrete list into one fact per
    key. *)
Ltac split_keys Hkeys :=
  repeat match type of Hkeys with
         | forall key, In key (?k :: ?rest) -> _ =>
             let Hk := fresh "Hk" in
             pose proof (Hkeys k (or_introl eq_refl)) as Hk;
             let Hrest := fresh "Hrest" in
             assert (Hrest : forall key, In key rest -> isNullish (getProp _ key) = true)
               by (intros ? ?; apply Hkeys; right; assumption);
             clear Hkeys; rename Hrest into Hkeys
         end.

(** Rewrites with what is known about absent keys. *)
Ltac absent :=
  repeat match goal with
         | Hk : isNullish ?x = true |- _ =>
             progress (rewrite ?(nullish_absent x _ Hk), ?(nullish_not_truthy x Hk),
                        ?(nullish_not_array x Hk), ?(orElse_falsy x _ (nullish_not_truthy x Hk)),
                        ?(getProp_nullish x _ Hk))
         end.

Lemma staleReset_state cs p prev :
  getProp (staleReset cs p prev) "gcodeState" = getProp prev "gcodeState".
Proof.
  unfold staleReset. destruct (isIdleState cs); [| reflexivity].
  destruct (isNullish (getProp p "print_error") || strictEqNum (getProp p "print_error") 0);
    rewrite !getProp_setProp_ne by discriminate; reflexivity.
Qed.

(** The resets leave every field outside [resetFields] as it was. *)
Lemma resetPrev_untouched p prev k :
  ~ In k (resetFields p prev) -> getProp (resetPrev p prev) k = getProp prev k.
Proof.
  intros Hnot. unfold resetPrev, resetFields in *.
  set (cs := currentStateOf p prev) in *.
  transitivity (getProp (staleReset cs p prev) k).
  - unfold transitionReset. rewrite staleReset_state.
    destruct (isPrintingState (getProp prev "gcodeState") && isIdleState cs); [| reflexivity].
    rewrite !getProp_setProp_ne; [reflexivity | ..];
      intros ->; apply Hnot; rewrite in_app_iff; right; simpl; tauto.
  - unfold staleReset.
    destruct (isIdleState cs); [| reflexivity].
    destruct (isNullish (getProp p "print_error") || strictEqNum (getProp p "print_error") 0);
      (rewrite !getProp_setProp_ne; [reflexivity | ..]);
      intros ->; apply Hnot; rewrite in_app_iff; left; simpl; tauto.
Qed.

Lemma resetFields_active p prev :
  isIdleState (currentStateOf p prev) = false -> resetFields p prev = [].
Proof. unfold resetFields. intros ->. rewrite andb_false_r. reflexivity. Qed.

Lemma mergeFrame_retains serial data p isH2 st st' :
  mergeFrame serial data p isH2 st = (Ok tt, st') ->
  retainsAbsentExcept (resetFields p (snapshot st serial)) p
    (snapshot st serial) (snapshot st' serial).
Proof.
  intros Hrun.
  destruct (mergeFrame_inv serial data p isH2 st st' Hrun)
    as (h2 & ams & es & ess & dbg & X & Hams & Hspool & Hsnap).
  intros field keys fallback Hin Hkeys Hnot.
  rewrite Hsnap, getProp_spread. clear Hsnap Hrun.
  pose proof (resetPrev_untouched p (snapshot st serial) field Hnot) as Hsame.
  unfold mergedFields in Hin.
  repeat (destruct Hin as [Hin | Hin];
          [ inversion Hin; subst field keys fallback; clear Hin; split_keys Hkeys | ]);
    try contradiction.
  all: try (rewrite (amsStage_absent p _ st (nullish_not_truthy _ Hk)) in Hams;
            inversion Hams; subst ams).
  all: try (rewrite (spoolStage_absent p Hk Hk0) in Hspool; inversion Hspool; subst es ess).
  all: unfold statusProps; try rewrite nozzleTemps_scalar by assumption;
    cbn [lookupOpt app String.eqb Ascii.eqb Bool.eqb fst snd];
    unfold chamberTempValue; rewrite ?Hsame; absent; try reflexivity.
  all: destruct (truthy h2); absent; reflexivity.
Qed.

(** When [mergeFrame] completes, every merged field whose keys are absent or
    [null] in the frame keeps its previous value, or takes its default when
    it had none, unless it is one of the fields that the resets for IDLE
    and FINISH write. *)
Lemma merge_retains_absent_fields serial data p isH2 st st' :
  mergeFrame serial data p isH2 st = (Ok tt, st') ->
  retainsAbsentExcept (resetFields p (snapshot st serial)) p
    (snapshot st serial) (snapshot st' serial).
Proof. exact (mergeFrame_retains serial data p isH2 st st'). Qed.

(** While the operating state is neither IDLE nor FINISH no field is
    excepted. *)
Corollary merge_retains_while_active serial data p isH2 st st' :
  mergeFrame serial data p isH2 st = (Ok tt, st') ->
  isIdleState (currentStateOf p (snapshot st serial)) = false ->
  retainsAbsent p (snapshot st serial) (snapshot st' serial).
Proof.
  intros Hrun Hactive field keys fallback Hin Hkeys.
  apply (mergeFrame_retains serial data p isH2 st st' Hrun field keys fallback Hin Hkeys).
  rewrite (resetFields_active _ _ Hactive). intros [].
Qed.

Lemma resetPrev_clear p props :
  isIdleState (currentStateOf p (JObj props)) = true ->
  let prev2 := resetPrev p (JObj props) in
  getProp prev2 "printProgress" = JNum 0
  /\ getProp prev2 "remainingTime" = JNum 0
  /\ getProp prev2 "nozzleTargetTemp" = JNum 0
  /\ getProp prev2 "nozzleTargetTemp2" = JNum 0
  /\ getProp prev2 "bedTargetTemp" = JNum 0
  /\ getProp prev2 "hms" = JArr [].
Proof.
  intros Hidle. unfold resetPrev, transitionReset, staleReset. rewrite Hidle.
  destruct (isNullish (getProp p "print_error") || strictEqNum (getProp p "print_error") 0);
    cbn [setProp];
    match goal with
    | |- context [if ?c then _ else _] => destruct c
    end;
    cbn [setProp getProp]; unfold lookupProp; rewrite !lookupOpt_setPropList;
    cbn [String.eqb Ascii.eqb Bool.eqb]; repeat split; reflexivity.
Qed.

Lemma resetPrev_state p props :
  getProp (resetPrev p (JObj props)) "gcodeState" = getProp (JObj props) "gcodeState".
Proof.
  unfold resetPrev, transitionReset, staleReset.
  destruct (isIdleState (currentStateOf p (JObj props))).
  - destruct (isNullish (getProp p "print_error") || strictEqNum (getProp p "print_error") 0);
      cbn [setProp];
      match goal with
      | |- context [if ?c then _ else _] => destruct c
      end;
      cbn [setProp getProp]; unfold lookupProp; rewrite !lookupOpt_setPropList;
      cbn [String.eqb Ascii.eqb Bool.eqb]; reflexivity.
  - rewrite andb_false_r. reflexivity.
Qed.

Lemma printing_not_nullish v : isPrintingState v = true -> isNullish v = false.
Proof. destruct v; cbn; intros Hp; try discriminate Hp; reflexivity. Qed.

(** When [mergeFrame] completes and takes the operating state from RUNNING,
    PAUSE or PREPARE to IDLE or FINISH, progress, remaining time, each
    target temperature and the alert list are zero (empty) in the snapshot
    unless the frame itself reports a value for them: this is what the
    resets of lines 581-608 are written for. *)
Lemma finish_clears_print_data serial data p isH2 st st' :
  mergeFrame serial data p isH2 st = (Ok tt, st') ->
  isObject (snapshot st serial) = true ->
  isPrintingState (getProp (snapshot st serial) "gcodeState") = true ->
  isIdleState (getProp (snapshot st' serial) "gcodeState") = true ->
  clearedUnlessReported p (snapshot st' serial).
Proof.
  intros Hrun Hobj Hwas Hnow.
  destruct (mergeFrame_inv serial data p isH2 st st' Hrun)
    as (h2 & ams & es & ess & dbg & X & _ & _ & Hsnap).
  destruct (snapshot st serial) as [| | | | | | props]; try discriminate. clear Hobj.
  rewrite Hsnap in Hnow |- *. clear Hsnap Hrun.
  pose proof (resetPrev_state p props) as Hstate.
  pose proof (printing_not_nullish _ Hwas) as Hset.
  assert (Hidle : isIdleState (currentStateOf p (JObj props)) = true).
  { rewrite getProp_spread in Hnow. unfold statusProps in Hnow.
    cbn [lookupOpt app String.eqb Ascii.eqb Bool.eqb fst snd] in Hnow.
    rewrite Hstate in Hnow.
    revert Hnow. unfold currentStateOf, nullish.
    destruct (isNullish (getProp p "gcode_state")) eqn:Ea; rewrite ?Hset, ?Ea; auto. }
  destruct (resetPrev_clear p props Hidle) as (C1 & C2 & C3 & C4 & C5 & C6).
  unfold clearedUnlessReported. rewrite !getProp_spread. unfold statusProps.
  repeat split; intros;
    try rewrite nozzleTemps_scalar by assumption;
    cbn [lookupOpt app String.eqb Ascii.eqb Bool.eqb fst snd];
    rewrite ?C1, ?C2, ?C3, ?C4, ?C5, ?C6; absent;
    try match goal with
        | Harr : isArray _ = false |- _ => rewrite Harr
        end;
    try reflexivity;
    destruct (truthy h2); absent; reflexivity.
Qed.

End MergeFacts.

(** ** Worked frames *)

(** [mergeFrame] with a finished print at 100 percent in the store: a frame
    that only reports the signal strength has no [mc_percent], yet the
    reset sets the progress to 0. *)
Lemma merge_clears_absent_progress :
  (merged finishedSnapshot wifiFrame).1 = Ok tt
  /\ isNullish (getProp wifiFrame "mc_percent") = true
  /\ getProp finishedSnapshot "printProgress" = JNum 100
  /\ getProp (snapshot (merged finishedSnapshot wifiFrame).2 "S1") "printProgress" = JNum 0
  /\ ~ retainsAbsent wifiFrame finishedSnapshot
        (snapshot (merged finishedSnapshot wifiFrame).2 "S1").
Proof.
  split; [reflexivity |]. split; [reflexivity |]. split; [reflexivity |].
  split; [vm_compute; reflexivity |].
  intros Hretain.
  specialize (Hretain "printProgress" ["mc_percent"] (fun v => v ?? JNum 0)).
  assert (Hin : In ("printProgress", ["mc_percent"], fun v : JsVal => v ?? JNum 0) mergedFields)
    by (right; left; reflexivity).
  specialize (Hretain Hin).
  assert (Hk : forall key, In key ["mc_percent"] -> isNullish (getProp wifiFrame key) = true).
  { intros key [<- | []]. reflexivity. }
  specialize (Hretain Hk). vm_compute in Hretain. discriminate Hretain.
Qed.

(** The same delta frame merged into the finished print: the fields outside
    the reset are kept, among them the file name. *)
Lemma merge_retains_absent_fields_witness :
  (merged finishedSnapshot wifiFrame).1 = Ok tt
  /\ retainsAbsentExcept (resetFields wifiFrame finishedSnapshot) wifiFrame finishedSnapshot
       (snapshot (merged finishedSnapshot wifiFrame).2 "S1")
  /\ getProp (snapshot (merged finishedSnapshot wifiFrame).2 "S1") "currentFile"
     = JStr "benchy.3mf".
Proof.
  split; [reflexivity |].
  split; [| vm_compute; reflexivity].
  apply (@merge_retains_absent_fields exampleExternals "S1"
           (JObj [("print", wifiFrame)]) wifiFrame JUndef (stored "S1" finishedSnapshot)
           (merged finishedSnapshot wifiFrame).2).
  vm_compute. reflexivity.
Defined.

(** [mergeFrame] with a running print at 42 percent: the frame that ends it
    reports [gcode_state] FINISH together with [mc_percent] 100, and the
    snapshot then shows progress 100. *)
Lemma finish_frame_keeps_reported_progress :
  (merged runningSnapshot finishFrame).1 = Ok tt
  /\ isPrintingState (getProp runningSnapshot "gcodeState") = true
  /\ isIdleState (getProp (snapshot (merged runningSnapshot finishFrame).2 "S1") "gcodeState")
     = true
  /\ getProp (snapshot (merged runningSnapshot finishFrame).2 "S1") "printProgress" = JNum 100
  /\ ~ printDataCleared (snapshot (merged runningSnapshot finishFrame).2 "S1").
Proof.
  split; [reflexivity |]. split; [reflexivity |].
  split; [vm_compute; reflexivity |].
  split; [vm_compute; reflexivity |].
  intros (Hprogress & _). vm_compute in Hprogress. discriminate Hprogress.
Qed.

(** A running print ended by a frame that carries the new state only. *)
Lemma finish_clears_print_data_witness :
  (merged runningSnapshot bareFinishFrame).1 = Ok tt
  /\ printDataCleared (snapshot (merged runningSnapshot bareFinishFrame).2 "S1").
Proof.
  split; [reflexivity |].
  destruct (@finish_clears_print_data exampleExternals "S1"
              (JObj [("print", bareFinishFrame)]) bareFinishFrame JUndef
              (stored "S1" runningSnapshot) (merged runningSnapshot bareFinishFrame).2)
    as (A & B & C & D & E & F).
  - vm_compute. reflexivity.
  - reflexivity.
  - reflexivity.
  - vm_compute. reflexivity.
  - unfold printDataCleared.
    split; [apply A; reflexivity |]. split; [apply B; reflexivity |].
    split; [apply C; reflexivity |]. split; [apply D; reflexivity |].
    split; [apply E; reflexivity | apply F; reflexivity].
Defined.

(** ** The handler on worked frames *)

(** The frame [{ gcode_state: 'RUNNING', mc_percent: 42 }] leaves the stored
    snapshot untouched, since the body throws before it reaches the merge. *)
Example handler_drops_print_frames :
  let st := stored "S1" (JObj [("model", JStr "X1C"); ("online", JBool true)]) in
  (@handlerBody exampleExternals "S1" (JObj [("print", runningFrame)]) st).1
  = Throw (ReferenceError "Cannot access 'isH2Model' before initialization")
  /\ @onMessage exampleExternals "S1" (JObj [("print", runningFrame)]) st = st.
Proof. vm_compute. split; reflexivity. Qed.

(** A finished print at 100 percent and a frame that only reports the
    signal strength: the progress stays at 100. *)
Lemma frame_keeps_absent_fields_witness :
  isNullish (getProp wifiFrame "mc_percent") = true
  /\ getProp (snapshot (@onMessage exampleExternals "S1" (JObj [("print", wifiFrame)])
                          (stored "S1" finishedSnapshot)) "S1") "printProgress"
     = JNum 100.
Proof.
  split; [reflexivity |].
  rewrite (@frame_keeps_absent_fields exampleExternals "S1" (JObj [("print", wifiFrame)])
             (stored "S1" finishedSnapshot) "printProgress" ["mc_percent"]
             (fun v => v ?? JNum 0)).
  - reflexivity.
  - right. left. reflexivity.
  - intros key [<- | []]. reflexivity.
Defined.

(** C2, evaluated.  A connected device reports a running print and then its
    end: both frames are dropped at line 518, the snapshot is the roster
    record as the ['connect'] handler stored it, without an operating state
    and without progress, remaining time, targets or alert list, so none of
    them is 0 or empty.  The same frame on a snapshot that holds a running
    print at 42 percent leaves it running at 42 percent with its targets,
    although line 582 would find the state FINISH. *)
Theorem finish_frame_is_dropped :
  let handle := @onMessage exampleExternals "S1" in
  let finish := JObj [("print", bareFinishFrame)] in
  let st2 := handle finish (handle (JObj [("print", printingFrame)])
                              (stored "S1" rosterSnapshot)) in
  let st' := handle finish (stored "S1" runningSnapshot) in
  st2 = stored "S1" rosterSnapshot
  /\ getProp (snapshot st2 "S1") "gcodeState" = JUndef
  /\ getProp (snapshot st2 "S1") "printProgress" = JUndef
  /\ ~ printDataCleared (snapshot st2 "S1")
  /\ (@handlerBody exampleExternals "S1" finish (stored "S1" runningSnapshot)).1
     = Throw (ReferenceError "Cannot access 'isH2Model' before initialization")
  /\ isPrintingState (getProp runningSnapshot "gcodeState") = true
  /\ isIdleState (currentStateOf bareFinishFrame runningSnapshot) = true
  /\ st' = stored "S1" runningSnapshot
  /\ getProp (snapshot st' "S1") "gcodeState" = JStr "RUNNING"
  /\ getProp (snapshot st' "S1") "printProgress" = JNum 42
  /\ getProp (snapshot st' "S1") "remainingTime" = JNum 35
  /\ getProp (snapshot st' "S1") "nozzleTargetTemp" = JNum 220
  /\ getProp (snapshot st' "S1") "bedTargetTemp" = JNum 60
  /\ ~ printDataCleared (snapshot st' "S1").
Proof.
  vm_compute.
  repeat (split; [first [reflexivity | intros (Hp & _); discriminate Hp] |]).
  intros (Hp & _). discriminate Hp.
Qed.

End TelemetryFacts.

(* ===================================================================== *)
(** * Properties of the session manager and of the command translator     *)
(* ===================================================================== *)

Module SessionFacts.
Import Js JsFacts Session Examples.

(** ** Reconnect policy *)

Lemma backoffDelay_cap (n : Z) : 5 <= n -> backoffDelay n = 120000.
Proof.
  intros Hn. unfold backoffDelay.
  assert (2 ^ 5 <= 2 ^ n) by (apply Z.pow_le_mono_r; lia).
  apply Z.min_r. lia.
Qed.

Lemma awaiting_delay printer n s :
  awaiting printer n s -> scheduledDelay (serialNumber printer) s = Some (backoffDelay n).
Proof.
  intros (_ & _ & _ & tid & Ht & Hd). unfold scheduledDelay. rewrite Ht, Hd. reflexivity.
Qed.

Lemma scheduleReconnect_awaiting printer n s :
  printerDataCache s !! serialNumber printer = Some printer ->
  mqttClients s !! serialNumber printer = None ->
  attemptsOf s (serialNumber printer) = n ->
  awaiting printer n (scheduleReconnect (serialNumber printer) s).
Proof.
  intros Hc Hm Ha. unfold scheduleReconnect. rewrite Hc, Hm, Ha. simpl.
  repeat split; simpl; try assumption.
  - apply lookup_insert_eq.
  - exists (nextId s). split; apply lookup_insert_eq.
Qed.

Lemma onClose_awaiting printer n client s :
  printerDataCache s !! serialNumber printer = Some printer ->
  attemptsOf s (serialNumber printer) = n ->
  awaiting printer n (onClose client printer s).
Proof.
  intros Hc Ha. unfold onClose.
  apply scheduleReconnect_awaiting.
  - destruct (printers _ !! _); simpl; exact Hc.
  - destruct (printers _ !! _); simpl; apply lookup_delete_eq.
  - unfold attemptsOf in *. destruct (printers _ !! _); simpl; exact Ha.
Qed.

Lemma connectPrinter_unregistered printer s :
  mqttClients s !! serialNumber printer = None ->
  printerDataCache (connectPrinter printer s) !! serialNumber printer = Some printer
  /\ reconnectAttempts (connectPrinter printer s) = reconnectAttempts s
  /\ mqttClients (connectPrinter printer s) = mqttClients s.
Proof.
  intros Hm. unfold connectPrinter. rewrite Hm. simpl.
  destruct (printerReconnectTimers s !! serialNumber printer); simpl;
    repeat split; apply lookup_insert_eq.
Qed.

Lemma fireTimer_reconnect printer n s :
  awaiting printer n s ->
  exists tid,
    printerReconnectTimers s !! serialNumber printer = Some tid
    /\ printerDataCache (fireTimer tid s) !! serialNumber printer = Some printer
    /\ reconnectAttempts (fireTimer tid s) = reconnectAttempts s
    /\ mqttClients (fireTimer tid s) !! serialNumber printer = None.
Proof.
  intros (Hc & Hm & Ha & tid & Ht & Hd). exists tid. split; [exact Ht |].
  unfold fireTimer. rewrite Hd. simpl. rewrite Hm.
  match goal with
  | |- context [connectPrinter printer ?x] =>
      destruct (connectPrinter_unregistered printer x) as (C1 & C2 & C3); [exact Hm |]
  end.
  rewrite C1, C2, C3. simpl. auto.
Qed.

Lemma retryFails_awaiting printer n s :
  0 <= n -> awaiting printer n s -> awaiting printer (n + 1) (retryFails printer s).
Proof.
  intros Hn Hw.
  destruct (fireTimer_reconnect printer n s Hw) as (tid & Ht & Hc & Ha & Hm).
  unfold retryFails. rewrite Ht.
  apply onClose_awaiting; [exact Hc |].
  unfold attemptsOf. rewrite Ha.
  destruct Hw as (_ & _ & Hr & _). rewrite Hr.
  destruct (Z.eqb_spec (n + 1) 0); lia.
Qed.

Lemma failures_awaiting printer client s (n : nat) :
  printerDataCache s !! serialNumber printer = Some printer ->
  attemptsOf s (serialNumber printer) = 0 ->
  awaiting printer (Z.of_nat n) (Nat.iter n (retryFails printer) (onClose client printer s)).
Proof.
  intros Hc Ha. induction n as [| n IH].
  - simpl. apply onClose_awaiting; assumption.
  - rewrite Nat2Z.inj_succ. unfold Z.succ. simpl.
    apply retryFails_awaiting; [lia | exact IH].
Qed.

(** C3.  With a fresh or reset counter the delays scheduled for repeated
    immediate failures of one device are 5 s, 10 s, 20 s, 40 s, 80 s and
    then 120 s for every later attempt; one successful open resets the
    counter, so that the next failure waits 5 s again. *)
Theorem reconnect_backoff_sequence (printer : Printer) (client : nat) (s : State) :
  printerDataCache s !! serialNumber printer = Some printer ->
  attemptsOf s (serialNumber printer) = 0 ->
  let failures (n : nat) := Nat.iter n (retryFails printer) (onClose client printer s) in
  (forall n : nat,
      scheduledDelay (serialNumber printer) (failures n) = Some (backoffDelay (Z.of_nat n)))
  /\ map backoffDelay [0; 1; 2; 3; 4; 5; 6]
     = [5000; 10000; 20000; 40000; 80000; 120000; 120000]
  /\ (forall n : Z, 5 <= n -> backoffDelay n = 120000)
  /\ (forall n : nat,
        attemptsOf (retrySucceeds printer (failures n)) (serialNumber printer) = 0
        /\ forall client', scheduledDelay (serialNumber printer)
                             (onClose client' printer (retrySucceeds printer (failures n)))
                           = Some 5000).
Proof.
  intros Hc Ha failures.
  assert (W : forall n, awaiting printer (Z.of_nat n) (failures n))
    by (intros n; apply failures_awaiting; assumption).
  split; [intros n; apply awaiting_delay, W |].
  split; [reflexivity |].
  split; [exact backoffDelay_cap |].
  intros n.
  destruct (fireTimer_reconnect printer _ _ (W n)) as (tid & Ht & Hc' & _ & _).
  assert (R : reconnectAttempts (retrySucceeds printer (failures n)) !! serialNumber printer = None).
  { unfold retrySucceeds. rewrite Ht. simpl. apply lookup_delete_eq. }
  assert (A : attemptsOf (retrySucceeds printer (failures n)) (serialNumber printer) = 0).
  { unfold attemptsOf. rewrite R. reflexivity. }
  split; [exact A |].
  intros client'.
  rewrite (awaiting_delay printer 0); [reflexivity |].
  apply onClose_awaiting; [| exact A].
  unfold retrySucceeds. rewrite Ht. simpl. exact Hc'.
Qed.

(** The backoff sequence of the device [dev] after its first connection
    attempt failed. *)
Lemma reconnect_backoff_sequence_witness :
  printerDataCache (connectPrinter dev initial) !! serialNumber dev = Some dev
  /\ attemptsOf (connectPrinter dev initial) (serialNumber dev) = 0
  /\ scheduledDelay (serialNumber dev)
       (Nat.iter 5 (retryFails dev) (onClose 0 dev (connectPrinter dev initial)))
     = Some 120000.
Proof.
  split; [reflexivity |]. split; [reflexivity |].
  exact (proj1 (reconnect_backoff_sequence dev 0%nat (connectPrinter dev initial)
                  eq_refl eq_refl) 5%nat).
Defined.

(** ** Removal of a device *)

(** The handler of [printer:remove] never touches the pending timers, the
    reconnect table, the cached device records or the counters. *)
Lemma removePrinter_keeps_timers serial s :
  timers (removePrinter serial s) = timers s
  /\ printerReconnectTimers (removePrinter serial s) = printerReconnectTimers s
  /\ printerDataCache (removePrinter serial s) = printerDataCache s
  /\ reconnectAttempts (removePrinter serial s) = reconnectAttempts s.
Proof.
  unfold removePrinter. destruct (mqttClients s !! serial); simpl; auto.
Qed.

(** Without a registered client the handler does nothing at all. *)
Lemma removePrinter_disconnected serial s :
  mqttClients s !! serial = None -> removePrinter serial s = s.
Proof. unfold removePrinter. intros ->. reflexivity. Qed.

(** C4, evaluated.  A device whose connection was lost waits for its
    reconnect timer; [printer:remove] then changes nothing: the timer stays
    pending and, when it expires, opens a new connection for the removed
    device.  For a connected device the handler ends the client, and the
    close event of that client schedules a reconnect for the removed
    device. *)
Theorem remove_leaves_reconnect_timer :
  let serial := serialNumber dev in
  let waiting := onClose 0 dev (connectPrinter dev initial) in
  let removed := removePrinter serial waiting in
  let connected := onConnect 0 dev (connectPrinter dev initial) in
  removed = waiting
  /\ printerReconnectTimers removed !! serial = Some 1%nat
  /\ timers removed !! 1%nat = Some (ReconnectTimer serial dev 5000)
  /\ sockets removed = ∅
  /\ sockets (fireTimer 1 removed) !! 2%nat = Some serial
  /\ scheduledDelay serial (onClose 0 dev (removePrinter serial connected)) = Some 5000.
Proof.
  vm_compute. repeat split; reflexivity.
Qed.

(** ** Command translation *)



Section CommandFacts.
Context `{Externals}.



(** C10.  A command given as a bare string is executed exactly as the
    object [{ type: name }]: same result, same state, same published
    payloads.  Where a case supplies a value for a missing parameter, the
    bare string is executed as the object that carries that value; and for
    a connected device the fan, load and jog commands given as bare strings
    publish the payloads of speed 0, slot 0 and ten millimetres along X. *)
Theorem executeCommand_string_form (serial : string) (s : State) :
  (forall name,
      executeCommand serial (JStr name) s
      = executeCommand serial (JObj [("type", JStr name)]) s)
  /\ (forall name param value,
        In (name, param, value) parameterDefaults ->
        executeCommand serial (JStr name) s
        = executeCommand serial (JObj [("type", JStr name); (param, value)]) s)
  /\ (forall client name payloads,
        mqttClients s !! serial = Some client ->
        In (name, payloads) defaultPayloads ->
        executeCommand serial (JStr name) s
        = Ok (fold_left (fun acc payload =>
                           publish client ("device/" ++ serial ++ "/request") payload acc)
                payloads s)).
Proof.
  split; [reflexivity |]. split.
  - intros name param value Hin. unfold parameterDefaults in Hin.
    repeat (destruct Hin as [Hin | Hin];
            [inversion Hin; subst name param value; clear Hin;
             unfold executeCommand; destruct (mqttClients s !! serial); reflexivity |]).
    destruct Hin.
  - intros client name payloads Hm Hin. unfold defaultPayloads in Hin.
    repeat (destruct Hin as [Hin | Hin];
            [inversion Hin; subst name payloads; clear Hin;
             unfold executeCommand; rewrite Hm; vm_compute; reflexivity |]).
    destruct Hin.
Qed.

(** A case reads every parameter of a bare-string command as [undefined]. *)
Lemma string_command_parameters (name key : string) :
  key <> "type" -> getProp (JObj [("type", JStr name)]) key = JUndef.
Proof.
  intros Hk. simpl. unfold lookupProp. simpl.
  destruct (String.eqb_spec key "type"); [contradiction | reflexivity].
Qed.

(** ** Fan scaling *)

(** C7, evaluated.  [Math.round(speed * 2.55)] in binary64: 100 gives 255
    and 0 gives 0, but 50 gives 127, because the double nearest to 2.55 lies
    below 2.55 and the product 127.49999999999999 rounds down; the payload
    carries [S127]. *)
Theorem fan_scaling_values :
  fanNative (JNum 50) = RInt 127
  /\ fanNative (JNum 100) = RInt 255
  /\ fanNative (JNum 0) = RInt 0
  /\ SFmul 53 1024 (toDouble (JNum 50)) lit_2_55 = S754_finite false 8972014882652159 (-46)
  /\ (8972014882652159 < 255 * 2 ^ 45)%Z
  /\ translate CPartFan 0 "" (JObj [("type", JStr "partFan"); ("speed", JNum 50)]) initial
     = Ok ([gcodeLine ("M106 P1 S127" ++ newline)], initial).
Proof. vm_compute. repeat split; reflexivity. Qed.

End CommandFacts.

(** The literal [2.55] denotes the double obtained by rounding 255/100. *)
Lemma lit_2_55_nearest :
  SFdiv 53 1024 (binary_normalize 53 1024 255 0 false) (binary_normalize 53 1024 100 0 false)
  = lit_2_55.
Proof. vm_compute. reflexivity. Qed.

(** Over the whole input range the native value stays within 0..255 and is
    the exact rounding, except at 50 and 90 where it is one less. *)
Lemma fanNative_range `{Externals} (speed : Z) :
  0 <= speed <= 100 ->
  fanNative (JNum speed)
  = RInt (if ((speed =? 50) || (speed =? 90))%Z then fanExact speed - 1 else fanExact speed).
Proof.
  intros Hs.
  assert (E : exists n : nat, speed = Z.of_nat n /\ (n <= 100)%nat)
    by (exists (Z.to_nat speed); lia).
  destruct E as (n & -> & Hn).
  do 101 (destruct n as [| n]; [vm_compute; reflexivity |]).
  lia.
Qed.

(** What bare-string commands publish: the fan command uses speed 0, the
    jog its defaults, the nozzle temperature has no default. *)
Example string_command_defaults :
  let s := onConnect 0 dev (connectPrinter dev initial) in
  let sent (command : JsVal) :=
    match @executeCommand exampleExternals (serialNumber dev) command s with
    | Ok s' => map snd (skipn (length (published s)) (published s'))
    | Throw _ => []
    end in
  sent (JStr "partFan") = [gcodeLine ("M106 P1 S0" ++ newline)]
  /\ sent (JStr "move")
     = [gcodeLine ("G91" ++ newline); gcodeLine ("G0 X10 F3000" ++ newline);
        gcodeLine ("G90" ++ newline)]
  /\ sent (JStr "nozzleTemp") = [gcodeLine ("M104 Sundefined" ++ newline)]
  /\ sent (JStr "selfDestruct") = [].
Proof. vm_compute. repeat split; reflexivity. Qed.



End SessionFacts.

(* ===================================================================== *)
(** * Properties of the camera frame extractors                           *)
(* ===================================================================== *)

Module CameraFacts.
Import Camera.

(** ** Searching for markers *)

Lemma byte_eqb_refl (x : byte) : Byte.eqb x x = true.
Proof. apply byte_dec_lb. reflexivity. Qed.

Lemma byte_eqb_neq (x y : byte) : x <> y -> Byte.eqb x y = false.
Proof.
  intros Hxy. destruct (Byte.eqb x y) eqn:E; [| reflexivity].
  exfalso. apply Hxy. apply byte_dec_bl. exact E.
Qed.

Lemma indexOf2_step a b x y rest :
  indexOf2 a b (x :: y :: rest)
  = if (Byte.eqb x a && Byte.eqb y b)%bool then Some 0%nat
    else option_map S (indexOf2 a b (y :: rest)).
Proof. reflexivity. Qed.

Lemma indexOf2_cons_none a b x y rest :
  indexOf2 a b (x :: y :: rest) = None ->
  (Byte.eqb x a && Byte.eqb y b)%bool = false /\ indexOf2 a b (y :: rest) = None.
Proof.
  rewrite indexOf2_step. destruct (Byte.eqb x a && Byte.eqb y b)%bool; [discriminate |].
  destruct (indexOf2 a b (y :: rest)); [discriminate | auto].
Qed.

(** In marker-free bytes followed by a marker, the marker is found right
    after them: no marker starts inside, and none straddles the border. *)
Lemma indexOf2_at_marker a b g rest :
  a <> b -> indexOf2 a b g = None -> indexOf2 a b (g ++ a :: b :: rest) = Some (length g).
Proof.
  intros Hab. induction g as [| x g IH]; intros Hg.
  - cbn. rewrite !byte_eqb_refl. reflexivity.
  - destruct g as [| y g].
    + cbn. rewrite (byte_eqb_neq a b Hab), andb_false_r, !byte_eqb_refl. reflexivity.
    + apply indexOf2_cons_none in Hg. destruct Hg as [Ht Hn].
      change ((x :: y :: g) ++ a :: b :: rest)%list with (x :: y :: (g ++ a :: b :: rest))%list.
      rewrite indexOf2_step, Ht.
      change (y :: g ++ a :: b :: rest)%list with ((y :: g) ++ a :: b :: rest)%list.
      rewrite (IH Hn). reflexivity.
Qed.

Lemma indexOf2_bound a b buf i : indexOf2 a b buf = Some i -> (i + 2 <= length buf)%nat.
Proof.
  revert i. induction buf as [| x buf IH]; intros i Hi; [discriminate |].
  destruct buf as [| y buf]; [discriminate |].
  rewrite indexOf2_step in Hi.
  destruct (Byte.eqb x a && Byte.eqb y b)%bool.
  - inversion Hi. simpl. lia.
  - destruct (indexOf2 a b (y :: buf)) as [j |] eqn:E; [| discriminate].
    inversion Hi. specialize (IH j eq_refl). simpl in *. lia.
Qed.

Lemma indexOfFrom_bound a b buf from i :
  indexOfFrom a b buf from = Some i -> (from <= i /\ i + 2 <= length buf)%nat.
Proof.
  unfold indexOfFrom. destruct (indexOf2 a b (skipn from buf)) as [j |] eqn:E; [| discriminate].
  intros Hi. inversion Hi. apply indexOf2_bound in E. rewrite length_skipn in E. lia.
Qed.

Lemma markerFree_start g : markerFree g = true -> indexOf2 xff xd8 g = None.
Proof. unfold markerFree. destruct (indexOf2 xff xd8 g); [discriminate | reflexivity]. Qed.

Lemma markerFree_end g : markerFree g = true -> indexOf2 xff xd9 g = None.
Proof.
  unfold markerFree. destruct (indexOf2 xff xd8 g); [discriminate |].
  destruct (indexOf2 xff xd9 g); [discriminate | reflexivity].
Qed.

(** ** The clock readings of the log lines *)

Lemma sendLog_env (e : Env) :
  clock (sendLog e) = clock e /\ apiConnected (sendLog e) = apiConnected e
  /\ upstream (sendLog e) = upstream e /\ delivered (sendLog e) = delivered e.
Proof. unfold sendLog. destruct (apiConnected e) eqn:E; cbn; rewrite ?E; auto. Qed.

(** The environment in which [acceptJpeg] reads [now]: after the reading
    for [lastFrameTime] and the log line of every tenth frame. *)
Lemma logged_env (c : bool) (e : Env) :
  let e1 := if c then sendLog (dateNow e).2 else (dateNow e).2 in
  clock e1 = clock e /\ apiConnected e1 = apiConnected e
  /\ upstream e1 = upstream e /\ delivered e1 = delivered e.
Proof.
  destruct c; cbv zeta; [| cbn; auto].
  destruct (sendLog_env (dateNow e).2) as (A & B & C & D).
  rewrite A, B, C, D. cbn. auto.
Qed.

(** ** Termination of the loops *)

Lemma acceptJpeg_buffer serial frame sd e :
  buffer (acceptJpeg serial frame sd e).1 = buffer sd.
Proof.
  unfold acceptJpeg. destruct (100 <? Z.of_nat (length frame))%Z; reflexivity.
Qed.

Lemma acceptJpeg_clients serial frame sd e :
  clients (acceptJpeg serial frame sd e).1 = clients sd.
Proof.
  unfold acceptJpeg. destruct (100 <? Z.of_nat (length frame))%Z; reflexivity.
Qed.

Lemma acceptRtsp_buffer serial frame rd streams e :
  rBuffer (acceptRtsp serial frame rd streams e).1.1 = rBuffer rd.
Proof.
  unfold acceptRtsp. destruct (100 <? Z.of_nat (length frame))%Z; [| reflexivity].
  simpl. destruct (_ <? 200)%Z; reflexivity.
Qed.

Lemma jpegLoop_total fuel serial sd e :
  (length (buffer sd) < fuel)%nat -> exists r, jpegLoop fuel serial sd e = Some r.
Proof.
  revert sd e. induction fuel as [| fuel IH]; intros sd e Hlen; [lia |].
  cbn [jpegLoop].
  destruct (indexOfStart (buffer sd)) as [startIdx |] eqn:Es; [| eauto].
  set (buf := if (0 <? startIdx)%nat then skipn startIdx (buffer sd) else buffer sd).
  assert (Hbuf : (length buf <= length (buffer sd))%nat).
  { subst buf. destruct (0 <? startIdx)%nat; [rewrite length_skipn |]; lia. }
  destruct (indexOfEnd buf 2) as [endIdx |] eqn:Ee; [| eauto].
  apply indexOfFrom_bound in Ee.
  destruct (acceptJpeg serial (firstn (endIdx + 2) buf)
              (withBuffer sd (skipn (endIdx + 2) buf)) e) as [sd2 e2] eqn:Ea.
  apply IH.
  pose proof (acceptJpeg_buffer serial (firstn (endIdx + 2) buf)
                (withBuffer sd (skipn (endIdx + 2) buf)) e) as Hb.
  rewrite Ea in Hb. simpl in Hb. rewrite Hb, length_skipn. lia.
Qed.

Lemma rtspLoop_total fuel serial rd streams e :
  (length (rBuffer rd) < fuel)%nat -> exists r, rtspLoop fuel serial rd streams e = Some r.
Proof.
  revert rd streams e. induction fuel as [| fuel IH]; intros rd streams e Hlen; [lia |].
  cbn [rtspLoop].
  destruct (indexOfStart (rBuffer rd)) as [startIdx |] eqn:Es; [| eauto].
  set (buf := if (0 <? startIdx)%nat then skipn startIdx (rBuffer rd) else rBuffer rd).
  assert (Hbuf : (length buf <= length (rBuffer rd))%nat).
  { subst buf. destruct (0 <? startIdx)%nat; [rewrite length_skipn |]; lia. }
  destruct (indexOfEnd buf 2) as [endIdx |] eqn:Ee; [| eauto].
  apply indexOfFrom_bound in Ee.
  destruct (acceptRtsp serial (firstn (endIdx + 2) buf)
              (withRBuffer rd (skipn (endIdx + 2) buf)) streams e) as [[rd2 streams2] e2] eqn:Ea.
  apply IH.
  pose proof (acceptRtsp_buffer serial (firstn (endIdx + 2) buf)
                (withRBuffer rd (skipn (endIdx + 2) buf)) streams e) as Hb.
  rewrite Ea in Hb. simpl in Hb. rewrite Hb, length_skipn. lia.
Qed.

(** Both functions return for every buffer. *)
Lemma processJpegBuffer_total serial sd e : exists r, processJpegBuffer serial sd e = Some r.
Proof. apply jpegLoop_total. lia. Qed.

Lemma processRtspFrameBuffer_total serial rd streams e :
  exists r, processRtspFrameBuffer serial rd streams e = Some r.
Proof. apply rtspLoop_total. lia. Qed.

(** ** One frame between garbage *)

Lemma frame_located (g1 body g2 : list byte) :
  markerFree g1 = true -> markerFree body = true ->
  let frame := (JPEG_START ++ body ++ JPEG_END)%list in
  let buf := (g1 ++ frame ++ g2)%list in
  let buf1 := if (0 <? length g1)%nat then skipn (length g1) buf else buf in
  indexOfStart buf = Some (length g1)
  /\ exists endIdx, indexOfEnd buf1 2 = Some endIdx
       /\ firstn (endIdx + 2) buf1 = frame
       /\ skipn (endIdx + 2) buf1 = g2.
Proof.
  intros Hg1 Hbody frame buf buf1.
  assert (Hs : indexOfStart buf = Some (length g1)).
  { subst buf frame. unfold indexOfStart, JPEG_START. simpl.
    apply indexOf2_at_marker; [discriminate | apply markerFree_start, Hg1]. }
  split; [exact Hs |].
  assert (Hb1 : buf1 = (frame ++ g2)%list).
  { subst buf1 buf. destruct g1 as [| x g1'].
    - reflexivity.
    - cbn [length Nat.ltb Nat.leb]. apply (drop_app_length (x :: g1')). }
  exists (2 + length body)%nat. rewrite Hb1. repeat split.
  - subst frame. unfold indexOfEnd, indexOfFrom, JPEG_START, JPEG_END. simpl.
    rewrite <- app_assoc. simpl. rewrite drop_0.
    rewrite indexOf2_at_marker; [reflexivity | discriminate | apply markerFree_end, Hbody].
  - replace (2 + length body + 2)%nat with (length frame).
    + apply take_app_length.
    + subst frame. unfold JPEG_START, JPEG_END. rewrite !length_app. simpl. lia.
  - replace (2 + length body + 2)%nat with (length frame).
    + apply drop_app_length.
    + subst frame. unfold JPEG_START, JPEG_END. rewrite !length_app. simpl. lia.
Qed.

Lemma processJpegBuffer_frame serial sd e (g1 body g2 : list byte) :
  markerFree g1 = true -> markerFree body = true -> markerFree g2 = true ->
  let frame := (JPEG_START ++ body ++ JPEG_END)%list in
  buffer sd = (g1 ++ frame ++ g2)%list ->
  processJpegBuffer serial sd e
  = Some (withBuffer (acceptJpeg serial frame (withBuffer sd g2) e).1 [],
          (acceptJpeg serial frame (withBuffer sd g2) e).2).
Proof.
  intros Hg1 Hbody Hg2 frame Hbuf.
  destruct (frame_located g1 body g2 Hg1 Hbody) as (Hs & endIdx & He & Hf & Hr).
  fold frame in Hs, He, Hf, Hr.
  unfold processJpegBuffer. cbn [jpegLoop]. rewrite Hbuf, Hs, He, Hf, Hr.
  pose proof (acceptJpeg_buffer serial frame (withBuffer sd g2) e) as Hb.
  destruct (acceptJpeg serial frame (withBuffer sd g2) e) as [sd2 e2].
  simpl in Hb. cbn [fst snd].
  assert (Hlen : (0 < length (g1 ++ frame ++ g2)%list)%nat).
  { unfold frame, JPEG_START, JPEG_END. rewrite !length_app. simpl length. lia. }
  destruct (length (g1 ++ frame ++ g2)%list) as [| fuel]; [lia |]. cbn [jpegLoop].
  rewrite Hb. unfold indexOfStart. rewrite (markerFree_start g2 Hg2). reflexivity.
Qed.

Lemma extractFrames_frame (g1 body g2 : list byte) :
  markerFree g1 = true -> markerFree body = true -> markerFree g2 = true ->
  let frame := (JPEG_START ++ body ++ JPEG_END)%list in
  let buf := (g1 ++ frame ++ g2)%list in
  extractFrames (S (length buf)) buf = ([frame], []).
Proof.
  intros Hg1 Hbody Hg2 frame buf.
  destruct (frame_located g1 body g2 Hg1 Hbody) as (Hs & endIdx & He & Hf & Hr).
  fold frame in Hs, He, Hf, Hr. fold buf in Hs, He, Hf, Hr.
  assert (Hb1 : (if (0 <? length g1)%nat then skipn (length g1) buf else buf)
                = skipn (length g1) buf).
  { destruct (length g1); reflexivity. }
  rewrite Hb1 in He, Hf, Hr.
  cbn [extractFrames]. rewrite Hs, He, Hf, Hr.
  assert (Hlen : (0 < length buf)%nat).
  { unfold buf, frame, JPEG_START, JPEG_END. rewrite !length_app. simpl length. lia. }
  destruct (length buf) as [| fuel]; [lia |]. cbn [extractFrames].
  unfold indexOfStart. rewrite (markerFree_start g2 Hg2). reflexivity.
Qed.

Lemma acceptJpeg_small serial frame sd e :
  (length frame <= 100)%nat -> acceptJpeg serial frame sd e = (sd, e).
Proof.
  intros Hl. unfold acceptJpeg.
  destruct (Z.ltb_spec 100 (Z.of_nat (length frame))); [lia | reflexivity].
Qed.

(** A frame that passes the size test, with the readings of the clock
    named. *)
Lemma acceptJpeg_eq serial frame sd e :
  (100 <? Z.of_nat (length frame))%Z = true ->
  let e1 := if (Z.rem (frameCount sd + 1) 10 =? 1)%Z then sendLog (dateNow e).2
            else (dateNow e).2 in
  let now := clock e1 (ticks e1) in
  let send := (apiConnected e1 && (200 <=? now - lastSendTime sd)%Z)%bool in
  acceptJpeg serial frame sd e
  = ({| buffer := buffer sd; lastFrame := Some frame; lastFrameTime := clock e (ticks e);
        frameCount := frameCount sd + 1;
        lastSendTime := if send then now else lastSendTime sd;
        clients := clients sd |},
     sendToClients (clients sd) frame
       (if send then emitFrame serial frame now (dateNow e1).2 else (dateNow e1).2)).
Proof. intros Hsize. unfold acceptJpeg. rewrite Hsize. reflexivity. Qed.

Lemma acceptJpeg_valid serial frame sd e :
  (100 < length frame)%nat ->
  let r := acceptJpeg serial frame sd e in
  lastFrame r.1 = Some frame
  /\ frameCount r.1 = frameCount sd + 1
  /\ delivered r.2 = (delivered e ++ map (fun c => (c, frame)) (clients sd))%list
  /\ (upstream r.2 = upstream e
      \/ exists ts, upstream r.2 = (upstream e ++ [(serial, frame, ts)])%list).
Proof.
  intros Hl. unfold acceptJpeg.
  destruct (Z.ltb_spec 100 (Z.of_nat (length frame))); [| lia].
  cbn [dateNow].
  destruct (logged_env (Z.rem (frameCount sd + 1) 10 =? 1)%Z e) as (_ & _ & Hu & Hd).
  cbv zeta in Hu, Hd. cbn [dateNow snd] in Hu, Hd.
  match goal with
  | |- context [if ?c then emitFrame _ _ _ _ else _] => destruct c
  end; cbn [fst snd lastFrame frameCount delivered upstream sendToClients emitFrame];
    rewrite Hu, Hd; eauto 10.
Qed.

(** C5.  Garbage, a start marker, marker-free bytes, an end marker and more
    garbage, all in one buffer: [processJpegBuffer] returns with an empty
    buffer after cutting out exactly the one frame from start marker to end
    marker; the frame is stored, counted and delivered when it is longer
    than 100 bytes and changes nothing otherwise.  A start marker without an
    end marker after it produces nothing and keeps the bytes from the start
    marker on.  A frame of at most 100 bytes is neither stored nor
    delivered. *)
Theorem processJpegBuffer_extracts_frame :
  (forall serial sd e (g1 body g2 : list byte),
      markerFree g1 = true -> markerFree body = true -> markerFree g2 = true ->
      let frame := (JPEG_START ++ body ++ JPEG_END)%list in
      buffer sd = (g1 ++ frame ++ g2)%list ->
      exists sd' e',
        processJpegBuffer serial sd e = Some (sd', e')
        /\ extractFrames (S (length (buffer sd))) (buffer sd) = ([frame], [])
        /\ buffer sd' = []
        /\ ((100 < length frame)%nat ->
              lastFrame sd' = Some frame
              /\ frameCount sd' = frameCount sd + 1
              /\ delivered e' = (delivered e ++ map (fun c => (c, frame)) (clients sd))%list
              /\ (upstream e' = upstream e
                  \/ exists ts, upstream e' = (upstream e ++ [(serial, frame, ts)])%list))
        /\ ((length frame <= 100)%nat -> sd' = withBuffer sd [] /\ e' = e))
  /\ (forall serial sd e (i : nat),
        indexOfStart (buffer sd) = Some i ->
        indexOfEnd (skipn i (buffer sd)) 2 = None ->
        processJpegBuffer serial sd e = Some (withBuffer sd (skipn i (buffer sd)), e))
  /\ (forall serial frame sd e,
        (length frame < 100)%nat -> acceptJpeg serial frame sd e = (sd, e)).
Proof.
  split; [| split].
  - intros serial sd e g1 body g2 Hg1 Hbody Hg2 frame Hbuf.
    pose proof (processJpegBuffer_frame serial sd e g1 body g2 Hg1 Hbody Hg2 Hbuf) as Hrun.
    cbv zeta in Hrun. fold frame in Hrun.
    pose proof (acceptJpeg_valid serial frame (withBuffer sd g2) e) as Hvalid.
    pose proof (acceptJpeg_small serial frame (withBuffer sd g2) e) as Hsmall.
    destruct (acceptJpeg serial frame (withBuffer sd g2) e) as [sd2 e2].
    exists (withBuffer sd2 []), e2.
    split; [exact Hrun |].
    split; [rewrite Hbuf; apply extractFrames_frame; assumption |].
    split; [reflexivity |].
    split.
    + intros Hl. destruct (Hvalid Hl) as (A & B & C & D). simpl in *. auto.
    + intros Hl. specialize (Hsmall Hl). inversion Hsmall; subst. split; reflexivity.
  - intros serial sd e i Hs He. unfold processJpegBuffer. cbn [jpegLoop]. rewrite Hs.
    assert (Hb : (if (0 <? i)%nat then skipn i (buffer sd) else buffer sd) = skipn i (buffer sd))
      by (destruct i; reflexivity).
    rewrite Hb, He. reflexivity.
  - intros serial frame sd e Hl. apply acceptJpeg_small. lia.
Qed.

(** The extractor run on two bytes of garbage, a frame of 104 bytes and one
    more byte of garbage. *)
Lemma processJpegBuffer_extracts_frame_witness :
  markerFree [x00; x11] = true /\ markerFree (repeat x41 100) = true
  /\ markerFree [x22] = true
  /\ exists sd' e',
       processJpegBuffer "S" (Examples.stream0 ([x00; x11] ++ Examples.frameA ++ [x22])%list)
         Examples.env0 = Some (sd', e')
       /\ buffer sd' = [] /\ lastFrame sd' = Some Examples.frameA.
Proof.
  split; [reflexivity |]. split; [reflexivity |]. split; [reflexivity |].
  destruct (proj1 processJpegBuffer_extracts_frame "S"
              (Examples.stream0 ([x00; x11] ++ Examples.frameA ++ [x22])%list)
              Examples.env0 [x00; x11] (repeat x41 100) [x22]
              eq_refl eq_refl eq_refl eq_refl)
    as (sd' & e' & Hrun & _ & Hbuf & Hbig & _).
  exists sd', e'. split; [exact Hrun |]. split; [exact Hbuf |].
  apply Hbig. simpl. lia.
Defined.

(** ** Direct capture against relay capture *)



Lemma skipn_start (startIdx : nat) (buf : list byte) :
  (if (0 <? startIdx)%nat then skipn startIdx buf else buf) = skipn startIdx buf.
Proof. destruct startIdx; reflexivity. Qed.

(** The Direct path writes every frame that passes the size test to every
    subscriber. *)
Lemma jpegLoop_delivered fuel serial : forall sd e sd' e',
  jpegLoop fuel serial sd e = Some (sd', e') ->
  clients sd' = clients sd
  /\ delivered e'
     = (delivered e
        ++ deliveries (clients sd) (List.filter validFrame (extractFrames fuel (buffer sd)).1))%list.
Proof.
  induction fuel as [| fuel IH]; intros sd e sd' e' Hrun; [discriminate |].
  cbn [jpegLoop extractFrames] in *.
  destruct (indexOfStart (buffer sd)) as [startIdx |].
  - rewrite skipn_start in Hrun.
    destruct (indexOfEnd (skipn startIdx (buffer sd)) 2) as [endIdx |].
    + set (buf := skipn startIdx (buffer sd)) in *.
      set (frame := firstn (endIdx + 2) buf) in *.
      destruct (acceptJpeg serial frame (withBuffer sd (skipn (endIdx + 2) buf)) e)
        as [sd2 e2] eqn:Ea.
      destruct (IH sd2 e2 sd' e' Hrun) as [Hc Hd].
      assert (Hb : buffer sd2 = skipn (endIdx + 2) buf).
      { pose proof (acceptJpeg_buffer serial frame (withBuffer sd (skipn (endIdx + 2) buf)) e) as B.
        rewrite Ea in B. exact B. }
      rewrite Hb in Hd.
      destruct (extractFrames fuel (skipn (endIdx + 2) buf)) as [frames rest].
      cbn [fst List.filter].
      assert (Hcl : clients sd2 = clients sd).
      { pose proof (acceptJpeg_clients serial frame (withBuffer sd (skipn (endIdx + 2) buf)) e) as C.
        rewrite Ea in C. exact C. }
      rewrite Hcl in Hc, Hd.
      destruct (validFrame frame) eqn:Hv; unfold validFrame in Hv.
      * apply Z.ltb_lt in Hv.
        destruct (acceptJpeg_valid serial frame (withBuffer sd (skipn (endIdx + 2) buf)) e
                    ltac:(lia)) as (_ & _ & Hd2 & _).
        rewrite Ea in Hd2. cbn [fst snd clients withBuffer] in Hd2.
        rewrite Hd, Hd2. split; [exact Hc |].
        unfold deliveries; cbn [flat_map]; rewrite <- !app_assoc; reflexivity.
      * apply Z.ltb_ge in Hv.
        rewrite (acceptJpeg_small serial frame _ e ltac:(lia)) in Ea.
        inversion Ea; subst sd2 e2. split; [exact Hc | exact Hd].
    + inversion Hrun; subst. cbn. rewrite app_nil_r. split; reflexivity.
  - inversion Hrun; subst. cbn. rewrite app_nil_r. split; reflexivity.
Qed.





(** The first frame of a session, the last forwarded frame stamped
    1700000000000, and a clock that shows 1700000000000, then 100 ms and
    then 300 ms more.  The Direct path reads the clock for [lastFrameTime],
    for the time stamp of its log line and then for [now]: 300 ms have
    passed and the frame is forwarded.  The Relay path reads [now] right
    after [lastFrameTime]: 100 ms have passed and the frame is dropped at
    the throttle. *)
Lemma relay_throttles_at_other_reading :
  (match processJpegBuffer "S" (Examples.streamSent Examples.frameA) Examples.envAdvancing with
   | Some (sd', e1) =>
       upstream e1 = [("S", Examples.frameA, 1700000000300)]
       /\ lastSendTime sd' = 1700000000300
   | None => False
   end)
  /\ (match processRtspFrameBuffer "S" (Examples.relaySent Examples.frameA)
             {["S" := Examples.streamSent []]} Examples.envAdvancing with
      | Some (rd', _, e2) => upstream e2 = [] /\ rLastSendTime rd' = 1700000000000
      | None => False
      end).
Proof. split; vm_compute; split; reflexivity. Qed.

End CameraFacts.
(* ===================================================================== *)
(** * The message handler: what reaches the store                         *)
(* ===================================================================== *)

Module TelemetryProps.
Import Js Telemetry JsFacts TelemetryFacts Examples.

(** Closes a goal [In k l] for a key and a list that are both given. *)
Ltac in_list := simpl; repeat first [left; reflexivity | right].

Lemma land16_range (x : Z) : 0 <= Z.land x 0xFFFF <= 65535.
Proof.
  rewrite land_low16. pose proof (Z.mod_pos_bound x (2 ^ 16) ltac:(lia)). lia.
Qed.

Section Store.
Context `{Externals}.

Lemma writePrev_result serial prev2 st :
  exists st2,
    writePrev serial prev2 st = (Ok tt, st2)
    /\ printers st2 = match printers st !! serial with
                      | Some _ => <[serial := prev2]> (printers st)
                      | None => printers st
                      end.
Proof. unfold writePrev. destruct (printers st !! serial); eauto. Qed.

(** Whatever a merge does, and whether it completes or throws, it writes to
    the entry of its own device only. *)
Lemma mergeFrame_others serial other data p isH2 st :
  other <> serial ->
  printers (mergeFrame serial data p isH2 st).2 !! other = printers st !! other.
Proof.
  intros Hne.
  unfold mergeFrame, printSectionWith.
  unfold mbind, m_bind, lift, getState.
  destruct (lightsLog p); [| reflexivity].
  fold (snapshot st serial).
  pose proof (amsStage_store p (snapshot st serial) st) as Hst1.
  destruct (amsStage p (snapshot st serial) st) as [[ams | err] st1];
    cbn [snd] in Hst1; [| cbn [snd]; rewrite Hst1; reflexivity].
  unfold statusMerge.
  unfold mbind, m_bind, lift, getState.
  destruct (spoolStage p) as [[es ess] | err]; [| cbn [snd]; rewrite Hst1; reflexivity].
  destruct (writePrev_result serial (resetPrev p (snapshot st serial)) st1)
    as (st2 & Hw & Hp2).
  rewrite Hw. rewrite Hst1 in Hp2.
  assert (Hst2 : printers st2 !! other = printers st !! other).
  { rewrite Hp2. destruct (printers st !! serial); [| reflexivity].
    apply lookup_insert_ne. congruence. }
  destruct (modelIsH2 _) as [h2 | err]; [| exact Hst2].
  cbn [readConst].
  destruct (truthy isH2).
  - destruct (h2debug data) as [dbg | err]; [| exact Hst2].
    unfold storePrinters, withPrinters. cbn [snd printers].
    rewrite lookup_insert_ne by congruence. exact Hst2.
  - unfold mret, m_ret, storePrinters, withPrinters. cbn [snd printers].
    rewrite lookup_insert_ne by congruence. exact Hst2.
Qed.

Lemma ctcStage_others serial other data st :
  other <> serial -> printers (ctcStage serial data st).2 !! other = printers st !! other.
Proof.
  intros Hne. unfold ctcStage. destruct (isNullish _); [reflexivity |].
  destruct (convertible _); [| reflexivity].
  cbn [snd withPrinters printers]. apply lookup_insert_ne. congruence.
Qed.

(** X1: isolation of devices.  A message of one device never changes the
    stored snapshot of another device: neither through the handler as it is
    written, nor through the merge of lines 531-719, completed or not. *)
Theorem message_keeps_other_devices (serial other : string) (data p isH2 : JsVal)
  (st : HandlerState) :
  other <> serial ->
  printers (onMessage serial data st) !! other = printers st !! other
  /\ printers (mergeFrame serial data p isH2 st).2 !! other = printers st !! other.
Proof.
  intros Hne. split.
  - destruct (onMessage_store serial data st) as [-> | ->]; [reflexivity |].
    apply ctcStage_others. exact Hne.
  - apply mergeFrame_others. exact Hne.
Qed.

(** X2: the handler as it is written changes of the snapshot of its device
    at most [chamberTemp].  Every other property, of every message, is left
    as it was (the body of [if (data.print)] throws before the merge, the
    CTC branch of lines 380-390 writes one property). *)
Theorem onMessage_writes_chamber_only (serial key : string) (data : JsVal)
  (st : HandlerState) :
  key <> "chamberTemp" ->
  getProp (snapshot (onMessage serial data st) serial) key
  = getProp (snapshot st serial) key.
Proof.
  intros Hkey. unfold snapshot at 1.
  destruct (onMessage_store serial data st) as [-> | ->]; [reflexivity |].
  apply ctcStage_keeps. exact Hkey.
Qed.

(** X3: the CTC branch.  A message that carries
    [print.device.ctc.info.temp], has no [system] section (whose log line
    converts the name of the roster entry) and arrives outside the AMS
    debug window stores the low 16 bits of that value, a number from 0 to
    65535, as the chamber temperature of the device, whatever else the
    message holds and although the merge is not reached.  That is so when
    the value converts to a number; for a value that does not (an object
    with an own [toString] property, or an array holding one) line 382
    throws and the store stays as it was. *)
Theorem onMessage_stores_ctc_temp (serial : string) (data : JsVal) (st : HandlerState) :
  let ctcTemp :=
    getProp (getProp (getProp (getProp (getProp data "print") "device") "ctc") "info") "temp" in
  isNullish ctcTemp = false ->
  debugAmsCmd st = false ->
  truthy (getProp data "system") = false ->
  isObject (snapshot st serial) = true ->
  (convertible ctcTemp = true ->
   getProp (snapshot (onMessage serial data st) serial) "chamberTemp"
   = JNum (Z.land (toInt32 ctcTemp) 0xFFFF)
   /\ 0 <= Z.land (toInt32 ctcTemp) 0xFFFF <= 65535)
  /\ (convertible ctcTemp = false -> printers (onMessage serial data st) = printers st).
Proof.
  intros ctcTemp Hctc Hdbg _ Hobj.
  assert (Hdata : isNullish data = false).
  { destruct data; try reflexivity; discriminate Hctc. }
  assert (Hrun : printers (onMessage serial data st) = printers (ctcStage serial data st).2).
  { unfold onMessage, handlerBody, mbind, m_bind, lift, getState.
    unfold debugStage. rewrite Hdbg.
    assert (Hsys : exists v, getPropStrict data "system" = Ok v).
    { destruct data; try discriminate Hdata; eexists; reflexivity. }
    destruct Hsys as [v ->].
    destruct (ctcStage serial data st) as [[[] | e] st1]; [| reflexivity].
    cbn [snd].
    destruct (modelIsH2 (printers st1 !! serial)) as [isH2 | e]; [| reflexivity].
    destruct (truthy (getProp data "print")); [| reflexivity].
    apply printSection_throws. }
  split; intros Hconv.
  - split; [| apply land16_range].
    assert (Hstage : printers (ctcStage serial data st).2
                     = <[serial := setProp (snapshot st serial) "chamberTemp"
                                     (JNum (Z.land (toInt32 ctcTemp) 0xFFFF))]> (printers st)).
    { unfold ctcStage. fold ctcTemp. rewrite Hctc, Hconv. reflexivity. }
    unfold snapshot at 1. rewrite Hrun, Hstage, lookup_insert_eq. cbn [default from_option id].
    destruct (snapshot st serial) as [| | | | | | props]; try discriminate Hobj.
    rewrite getProp_setProp. reflexivity.
  - rewrite Hrun. unfold ctcStage. fold ctcTemp. rewrite Hctc, Hconv. reflexivity.
Qed.

(** X7: bounds of the packed temperatures.  Whatever value arrives in an
    extruder record (also a negative or a huge number, or no number at
    all), both halves that [decodeTemp] returns are from 0 to 65535. *)
Theorem decodeTemp_range (encoded : JsVal) :
  0 <= current (decodeTemp encoded) <= 65535
  /\ 0 <= target (decodeTemp encoded) <= 65535.
Proof.
  unfold decodeTemp.
  destruct (isNullish encoded || strictEqNum encoded 0); cbn [current target].
  - lia.
  - split; apply land16_range.
Qed.

Lemma virSlots_listed slots : forall es ess es' ess',
  match ess with
  | [] => es = JNull
  | first :: _ => es = first /\ truthy es = true
  end ->
  Forall (fun spool => listedSpool spool = true) ess ->
  virSlots slots es ess = Ok (es', ess') ->
  match ess' with
  | [] => es' = JNull
  | first :: _ => es' = first /\ truthy es' = true
  end
  /\ Forall (fun spool => listedSpool spool = true) ess'.
Proof.
  induction slots as [| slot slots IH]; intros es ess es' ess' Hfirst Hall Hrun.
  - cbn [virSlots] in Hrun. inversion Hrun; subst. auto.
  - cbn [virSlots] in Hrun. unfold mbind, exc_bind in Hrun.
    destruct (getPropStrict slot "tray_type") as [ty | err]; [| discriminate].
    destruct (hasFilament (ty |? JStr "") (getProp slot "tray_color" |? JStr "")) eqn:Ef.
    + apply IH in Hrun; [exact Hrun | |].
      * destruct ess as [| first rest]; cbn [app].
        -- subst es. cbn [truthy]. auto.
        -- destruct Hfirst as [-> Ht]. rewrite Ht. auto.
      * apply Forall_app. split; [exact Hall |].
        constructor; [| constructor].
        unfold listedSpool, spoolProps.
        cbn [getProp lookupProp lookupOpt String.eqb Ascii.eqb Bool.eqb]. exact Ef.
    + apply IH in Hrun; assumption.
Qed.

(** X8: external spools.  When [spoolStage] completes, the external spool it
    reports is the first entry of the list of external spools ([null] when
    the list is empty), and every listed spool carries a material or a color
    other than ['00000000']: empty slots are not listed. *)
Theorem spoolStage_first_listed (p es : JsVal) (ess : list JsVal) :
  spoolStage p = Ok (es, ess) ->
  match ess with
  | [] => es = JNull
  | first :: _ => es = first
  end
  /\ Forall (fun spool => listedSpool spool = true) ess.
Proof.
  unfold spoolStage. intros Hrun.
  assert (Hvt : (let vt := getProp p "vt_tray" in
                 if truthy vt then
                   let vtType := getProp vt "tray_type" |? JStr "" in
                   let vtColor := getProp vt "tray_color" |? JStr "" in
                   if hasFilament vtType vtColor then
                     Ok (JObj (spoolProps vt vtType vtColor),
                         [JObj (spoolProps vt vtType vtColor)])
                   else Ok (JNull, [])
                 else Ok (JNull, [])) = Ok (es, ess) ->
                match ess with
                | [] => es = JNull
                | first :: _ => es = first
                end
                /\ Forall (fun spool => listedSpool spool = true) ess).
  { cbv zeta. destruct (truthy (getProp p "vt_tray")).
    - destruct (hasFilament _ _) eqn:Ef; intros Hr; inversion Hr; subst; [| auto].
      split; [reflexivity |]. constructor; [| constructor].
      unfold listedSpool, spoolProps.
      cbn [getProp lookupProp lookupOpt String.eqb Ascii.eqb Bool.eqb]. exact Ef.
    - intros Hr; inversion Hr; subst. auto. }
  destruct (getProp p "vir_slot") as [| | | | | items |]; try (apply Hvt; exact Hrun).
  destruct items as [| s ss]; [apply Hvt; exact Hrun |].
  destruct (virSlots_listed (s :: ss) JNull [] es ess eq_refl (List.Forall_nil _) Hrun)
    as [Hfirst Hall].
  split; [| exact Hall].
  destruct ess; [exact Hfirst | exact (proj1 Hfirst)].
Qed.

End Store.

(** ** Worked inputs *)

(** A frame of device S1 with a CTC temperature, while S2 is stored. *)
Lemma message_keeps_other_devices_witness :
  let st := {| printers := {["S1" := runningSnapshot; "S2" := finishedSnapshot]};
               amsNozzleLock := JUndef; debugAmsCmd := false |} in
  let data := JObj [("print", JObj [("mc_percent", JNum 43);
                                    ("device", JObj [("ctc", JObj [("info",
                                       JObj [("temp", JNum 35)])])])])] in
  printers (@onMessage exampleExternals "S1" data st) !! "S2" = Some finishedSnapshot
  /\ printers (@mergeFrame exampleExternals "S1" data (getProp data "print") JUndef st).2 !! "S2"
     = Some finishedSnapshot.
Proof.
  intros st data.
  destruct (@message_keeps_other_devices exampleExternals "S1" "S2" data
              (getProp data "print") JUndef st) as [A B].
  - discriminate.
  - rewrite A, B. split; reflexivity.
Defined.

Lemma onMessage_writes_chamber_only_witness :
  let data := JObj [("print", JObj [("mc_percent", JNum 43);
                                    ("device", JObj [("ctc", JObj [("info",
                                       JObj [("temp", JNum 35)])])])])] in
  getProp (snapshot (@onMessage exampleExternals "S1" data (stored "S1" runningSnapshot)) "S1")
    "printProgress" = JNum 42.
Proof.
  intros data.
  rewrite (@onMessage_writes_chamber_only exampleExternals "S1" "printProgress" data
             (stored "S1" runningSnapshot)).
  - reflexivity.
  - discriminate.
Defined.

(** The raw value 0x10023 is stored as 0x23 = 35. *)
Lemma onMessage_stores_ctc_temp_witness :
  let data := JObj [("print", JObj [("device", JObj [("ctc", JObj [("info",
                                       JObj [("temp", JNum 65571)])])])])] in
  getProp (snapshot (@onMessage exampleExternals "S1" data (stored "S1" runningSnapshot)) "S1")
    "chamberTemp" = JNum 35.
Proof.
  intros data.
  destruct (@onMessage_stores_ctc_temp exampleExternals "S1" data (stored "S1" runningSnapshot))
    as [A _].
  - reflexivity.
  - reflexivity.
  - reflexivity.
  - reflexivity.
  - destruct (A eq_refl) as [B _]. rewrite B. reflexivity.
Defined.

(** Two slots, the first one empty: the second is the external spool. *)
Lemma spoolStage_first_listed_witness :
  let empty := JObj [("id", JNum 254); ("tray_type", JStr ""); ("tray_color", JStr "00000000")] in
  let pla := JObj [("id", JNum 255); ("tray_type", JStr "PLA"); ("tray_color", JStr "FF0000FF")] in
  match @spoolStage exampleExternals (JObj [("vir_slot", JArr [empty; pla])]) with
  | Ok (es, ess) =>
      head ess = Some es /\ getProp es "type" = JStr "PLA"
      /\ Forall (fun spool => listedSpool spool = true) ess
  | Throw _ => False
  end.
Proof.
  intros empty pla.
  destruct (@spoolStage exampleExternals (JObj [("vir_slot", JArr [empty; pla])]))
    as [[es ess] | err] eqn:E; [| discriminate E].
  destruct (@spoolStage_first_listed exampleExternals _ es ess E) as [Hfirst Hall].
  vm_compute in E. inversion E; subst es ess.
  split; [reflexivity |]. split; [reflexivity | exact Hall].
Defined.

End TelemetryProps.
(* ===================================================================== *)
(** * The AMS rebuild: the nozzle latch and the tray list                 *)
(* ===================================================================== *)

Module AmsProps.
Import Js Telemetry JsFacts.

Lemma to_uint_nonnil (n : nat) : Nat.to_uint n <> Decimal.Nil.
Proof.
  rewrite <- (DecimalNat.Unsigned.of_to n) at 1.
  rewrite DecimalNat.Unsigned.to_of. apply DecimalFacts.unorm_nonnil.
Qed.

(** Two units never share a key of the latch. *)
Lemma lockKey_inj (i j : nat) : lockKey i = lockKey j -> i = j.
Proof.
  unfold lockKey. intros E. apply (inj (String.append "unit_")) in E.
  apply DecimalNat.Unsigned.to_uint_inj.
  assert (Some (Nat.to_uint i) = Some (Nat.to_uint j)) as [= ->]; [| reflexivity].
  rewrite <- !NilZero.usu by apply to_uint_nonnil. rewrite E. reflexivity.
Qed.

Lemma created_getProp (lock : JsVal) (key : string) :
  getProp (if truthy lock then lock else JObj []) key = getProp lock key.
Proof.
  destruct lock; cbn [truthy]; try reflexivity;
    match goal with |- getProp (if ?c then _ else _) _ = _ => destruct c end; reflexivity.
Qed.

Lemma latchWrite_sticky (i : nat) (b : Z) (lock : JsVal) (key : string) :
  getProp lock key <> JUndef -> getProp (latchWrite i b lock) key = getProp lock key.
Proof.
  intros Hset. unfold latchWrite.
  destruct (getProp (if truthy lock then lock else JObj []) (lockKey i)) eqn:Ek;
    try apply created_getProp.
  rewrite getProp_setProp_ne; [apply created_getProp |].
  intros ->. rewrite created_getProp in Ek. contradiction.
Qed.

Lemma latchWrite_other (i : nat) (b : Z) (lock : JsVal) (key : string) :
  key <> lockKey i -> getProp (latchWrite i b lock) key = getProp lock key.
Proof.
  intros Hne. unfold latchWrite.
  destruct (getProp (if truthy lock then lock else JObj []) (lockKey i)) eqn:Ek;
    try apply created_getProp.
  rewrite getProp_setProp_ne by exact Hne. apply created_getProp.
Qed.

Lemma latchWrite_value (i : nat) (b : Z) (lock : JsVal) :
  lock = JUndef \/ isObject lock = true ->
  getProp (latchWrite i b lock) (lockKey i)
  = match getProp lock (lockKey i) with
    | JUndef => JNum b
    | v => v
    end.
Proof.
  intros Hl. unfold latchWrite.
  assert (exists props, (if truthy lock then lock else JObj []) = JObj props
                        /\ getProp lock (lockKey i) = getProp (JObj props) (lockKey i))
    as (props & -> & ->).
  { destruct Hl as [-> | Hobj]; [exists []; split; reflexivity |].
    destruct lock; try discriminate. eexists; split; reflexivity. }
  destruct (getProp (JObj props) (lockKey i)) eqn:Ek; try exact Ek.
  rewrite getProp_setProp, String.eqb_refl. reflexivity.
Qed.

Lemma latchWrite_object (i : nat) (b : Z) (lock : JsVal) :
  lock = JUndef \/ isObject lock = true -> isObject (latchWrite i b lock) = true.
Proof.
  intros Hl. unfold latchWrite.
  assert (isObject (if truthy lock then lock else JObj []) = true) as Hobj.
  { destruct Hl as [-> | Hobj]; [reflexivity |]. destruct lock; try discriminate. exact Hobj. }
  destruct (getProp (if truthy lock then lock else JObj []) (lockKey i));
    try exact Hobj.
  rewrite setProp_isObject. exact Hobj.
Qed.

Lemma hasFilament_record (ty col : JsVal) :
  hasFilament ty col = true -> hasFilament (ty |? JStr "") (col |? JStr "") = true.
Proof.
  unfold hasFilament, orElse. intros Hf.
  destruct (truthy ty) eqn:Et; [rewrite Et; reflexivity |].
  destruct (truthy col) eqn:Ec; [| discriminate Hf].
  rewrite Ec. cbn in Hf |- *. exact Hf.
Qed.

Section Rebuild.
Context `{Externals}.
Variables toFloat toIndex : JsVal -> JsVal.
Variable positive : JsVal -> bool.

Lemma nozzleLatch_outcome (logged : bool) (i : nat) (unit lock : JsVal) :
  let info := getProp unit "info" in
  (info = JUndef /\ nozzleLatch logged i unit lock = (Ok [], lock))
  \/ (info <> JUndef
      /\ nozzleLatch logged i unit lock
         = (if (negb logged && isNullish info)%bool
            then Throw (TypeError "infoVal.toString")
            else Ok [("nozzle", getProp (latchWrite i (nozzleBit info) lock) (lockKey i));
                     ("_infoRaw", infoValue info)],
            latchWrite i (nozzleBit info) lock)).
Proof.
  intros info. subst info. unfold nozzleLatch.
  destruct (getProp unit "info"); [left; split; reflexivity | right ..];
    (split; [discriminate |]); destruct logged; reflexivity.
Qed.

Lemma humidityProps_nozzle (unit : JsVal) (key : string) :
  key = "nozzle" \/ key = "id" ->
  lookupOpt key (humidityProps toIndex positive unit) = None.
Proof.
  intros Hk. unfold humidityProps.
  destruct (reported (getProp unit "humidity_raw"));
    [| destruct (reported (getProp unit "humidity") && positive (getProp unit "humidity"))%bool];
    destruct Hk as [-> | ->]; reflexivity.
Qed.

(** Reads [id] or [nozzle] from a unit record. *)
Ltac unit_lookup :=
  cbn [getProp app]; unfold lookupProp; cbn [lookupOpt];
  rewrite humidityProps_nozzle by auto; reflexivity.

(** One unit of the loop: what it does to the latch and what it pushes. *)
Lemma unitStep_spec (logged : bool) (i : nat) (unit lock : JsVal)
  (r : Exc (JsVal * list JsVal)) (lock' : JsVal) :
  unitStep toFloat toIndex positive logged i unit lock = (r, lock') ->
  (forall key, getProp lock key <> JUndef -> getProp lock' key = getProp lock key)
  /\ (forall key, key <> lockKey i -> getProp lock' key = getProp lock key)
  /\ (lock = JUndef \/ isObject lock = true -> lock' = JUndef \/ isObject lock' = true)
  /\ forall u trays, r = Ok (u, trays) ->
       trays = unitTrays i unit
       /\ getProp u "id" = JNum (Z.of_nat i)
       /\ (lock = JUndef \/ isObject lock = true ->
           getProp u "nozzle" = latchedNozzle (getProp unit "info") (getProp lock (lockKey i))
           /\ (getProp unit "info" <> JUndef ->
               getProp lock' (lockKey i) = getProp u "nozzle"
               /\ getProp u "nozzle" <> JUndef)).
Proof.
  unfold unitStep. destruct (isNullish unit).
  { intros [= <- <-]. split; [auto |]. split; [auto |]. split; [auto |].
    intros u trays [=]. }
  destruct (nozzleLatch_outcome logged i unit lock) as [[Hinfo ->] | [Hinfo ->]].
  - intros [= <- <-]. split; [auto |]. split; [auto |]. split; [auto |].
    intros u trays [= <- <-]. rewrite Hinfo.
    split; [reflexivity |]. split.
    + unit_lookup.
    + intros _. split; [| intros Hc; contradiction].
      unit_lookup.
  - set (info := getProp unit "info") in *.
    set (written := latchWrite i (nozzleBit info) lock).
    assert (Hval : lock = JUndef \/ isObject lock = true ->
                   getProp written (lockKey i) = latchedNozzle info (getProp lock (lockKey i))
                   /\ getProp written (lockKey i) <> JUndef).
    { intros Hl. subst written. rewrite (latchWrite_value _ _ _ Hl).
      unfold latchedNozzle. destruct info; try contradiction;
        destruct (getProp lock (lockKey i)); split; try reflexivity; discriminate. }
    destruct (negb logged && isNullish info)%bool; intros [= <- <-].
    + split; [intros key; apply latchWrite_sticky |].
      split; [intros key; apply latchWrite_other |].
      split; [intros Hl; right; apply latchWrite_object; exact Hl |].
      intros u trays [=].
    + split; [intros key; apply latchWrite_sticky |].
      split; [intros key; apply latchWrite_other |].
      split; [intros Hl; right; apply latchWrite_object; exact Hl |].
      intros u trays [= Hu Ht].
      assert (Hn : getProp u "nozzle" = getProp written (lockKey i))
        by (rewrite <- Hu; unit_lookup).
      split; [symmetry; exact Ht |]. split; [rewrite <- Hu; unit_lookup |].
      intros Hl. destruct (Hval Hl) as [Hv Hdef]. rewrite Hn.
      split; [exact Hv |]. intros _. split; [reflexivity | exact Hdef].
Qed.

(** The latch over the whole loop, whatever its outcome. *)
Lemma rebuildFrom_sticky (logged : bool) (units : list JsVal) :
  forall idx lock us ts r lock',
    rebuildFrom toFloat toIndex positive logged idx units lock us ts = (r, lock') ->
    forall key, getProp lock key <> JUndef -> getProp lock' key = getProp lock key.
Proof.
  induction units as [| unit rest IH]; intros idx lock us ts r lock' Hrun key Hset.
  - injection Hrun as _ <-. reflexivity.
  - cbn [rebuildFrom] in Hrun.
    destruct (unitStep toFloat toIndex positive logged idx unit lock) as [r1 lock1] eqn:Estep.
    destruct (unitStep_spec _ _ _ _ _ _ Estep) as (Hsticky & _).
    destruct r1 as [[u trays] | e].
    + rewrite (IH _ _ _ _ _ _ Hrun key) by (rewrite Hsticky; assumption).
      apply Hsticky. exact Hset.
    + injection Hrun as _ <-. apply Hsticky. exact Hset.
Qed.

(** A loop that completes: one record per unit, and the trays of the
    units. *)
Lemma rebuildFrom_done (logged : bool) (units : list JsVal) :
  forall idx lock us ts us' ts' lock',
    rebuildFrom toFloat toIndex positive logged idx units lock us ts
    = (Ok (JArr us', JArr ts'), lock') ->
    exists newUs, us' = (us ++ newUs)%list
      /\ length newUs = length units
      /\ (forall t, t ∈ ts' <-> t ∈ ts \/ exists j unit, units !! j = Some unit
                                                    /\ t ∈ unitTrays (idx + j) unit)
      /\ forall j unit, units !! j = Some unit ->
           exists u, newUs !! j = Some u
             /\ getProp u "id" = JNum (Z.of_nat (idx + j))
             /\ (lock = JUndef \/ isObject lock = true ->
                 getProp u "nozzle"
                 = latchedNozzle (getProp unit "info") (getProp lock (lockKey (idx + j)))
                 /\ (getProp unit "info" <> JUndef ->
                     getProp lock' (lockKey (idx + j)) = getProp u "nozzle")).
Proof.
  induction units as [| unit rest IH]; intros idx lock us ts us' ts' lock' Hrun.
  - injection Hrun as <- <- <-. exists []. rewrite app_nil_r.
    split; [reflexivity |]. split; [reflexivity |]. split.
    + intros t. split; [auto |]. intros [Ht | (j & unit & Hj & _)]; [exact Ht |].
      rewrite lookup_nil in Hj. discriminate.
    + intros j unit Hj. rewrite lookup_nil in Hj. discriminate.
  - cbn [rebuildFrom] in Hrun.
    destruct (unitStep toFloat toIndex positive logged idx unit lock) as [r1 lock1] eqn:Estep.
    destruct (unitStep_spec _ _ _ _ _ _ Estep) as (Hsticky & Hother & Hinv & Hrec).
    destruct r1 as [[u trays] | e]; [| discriminate Hrun].
    destruct (Hrec u trays eq_refl) as (-> & Hid & Hnozzle).
    destruct (IH _ _ _ _ _ _ _ Hrun) as (newUs & -> & Hlen & Htrays & Hunits).
    exists (u :: newUs). rewrite <- app_assoc.
    split; [reflexivity |]. split; [cbn; rewrite Hlen; reflexivity |]. split.
    + intros t. rewrite Htrays, elem_of_app. split.
      * intros [[Ht | Ht] | (j & unit' & Hj & Ht)].
        -- left. exact Ht.
        -- right. exists 0%nat, unit. rewrite Nat.add_0_r. split; [reflexivity | exact Ht].
        -- right. exists (S j), unit'. rewrite Nat.add_succ_r. split; [exact Hj | exact Ht].
      * intros [Ht | (j & unit' & Hj & Ht)]; [left; left; exact Ht |].
        destruct j as [| j].
        -- injection Hj as <-. rewrite Nat.add_0_r in Ht. left. right. exact Ht.
        -- right. exists j, unit'. rewrite Nat.add_succ_r in Ht. split; [exact Hj | exact Ht].
    + intros j unit' Hj. destruct j as [| j].
      * injection Hj as <-. exists u. rewrite Nat.add_0_r.
        split; [reflexivity |]. split; [exact Hid |].
        intros Hl. destruct (Hnozzle Hl) as [Hv Hlatch].
        split; [exact Hv |]. intros Hinfo. destruct (Hlatch Hinfo) as [Hl1 Hdef].
        rewrite <- Hl1.
        apply (rebuildFrom_sticky _ _ _ _ _ _ _ _ Hrun). rewrite Hl1. exact Hdef.
      * destruct (Hunits j unit' Hj) as (u' & Hu' & Hid' & Hnozzle').
        exists u'. rewrite Nat.add_succ_r.
        split; [exact Hu' |]. split; [exact Hid' |].
        intros Hl. destruct (Hnozzle' (Hinv Hl)) as [Hv Hlatch].
        split; [| exact Hlatch].
        rewrite Hv, Hother; [reflexivity |].
        intros E. apply lockKey_inj in E. lia.
Qed.

Lemma traysFrom_elem (unitIdx : nat) (items : list JsVal) :
  forall base t,
    t ∈ traysFrom unitIdx base items
    <-> exists j tray, items !! j = Some tray /\ trayHasData tray = true
                       /\ t = trayRecord unitIdx (base + j) tray.
Proof.
  induction items as [| tray rest IH]; intros base t; cbn [traysFrom].
  - split; [intros Ht; inversion Ht |]. intros (j & tray & Hj & _).
    rewrite lookup_nil in Hj. discriminate.
  - rewrite elem_of_app, IH. split.
    + intros [Ht | (j & tray' & Hj & Hd & ->)].
      * destruct (trayHasData tray) eqn:Hd; [| inversion Ht].
        apply list_elem_of_singleton in Ht as ->.
        exists 0%nat, tray. rewrite Nat.add_0_r. auto.
      * exists (S j), tray'. rewrite Nat.add_succ_r. auto.
    + intros (j & tray' & Hj & Hd & ->). destruct j as [| j].
      * injection Hj as <-. left. rewrite Hd, Nat.add_0_r.
        apply list_elem_of_singleton. reflexivity.
      * right. exists j, tray'. rewrite Nat.add_succ_r. auto.
Qed.

Lemma unitTrays_elem (unitIdx : nat) (unit t : JsVal) :
  t ∈ unitTrays unitIdx unit
  <-> exists j tray, arrayItems (getProp unit "tray") !! j = Some tray
                     /\ trayHasData tray = true /\ t = trayRecord unitIdx j tray.
Proof.
  unfold unitTrays. destruct (getProp unit "tray");
    try (split; [intros Ht; inversion Ht
                | intros (j & tray & Hj & _); cbn in Hj; rewrite lookup_nil in Hj;
                  discriminate]).
  cbn [arrayItems]. apply traysFrom_elem.
Qed.

(** The tray loop as one record or none per tray, by position. *)
Lemma traysFrom_imap (unitIdx : nat) (items : list JsVal) :
  forall base,
    traysFrom unitIdx base items
    = List.concat (imap (fun j tray => if trayHasData tray
                                       then [trayRecord unitIdx (base + j) tray] else [])
                     items).
Proof.
  induction items as [| tray rest IH]; intros base; [reflexivity |].
  cbn [traysFrom imap List.concat]. rewrite Nat.add_0_r, IH.
  f_equal. f_equal. apply imap_ext. intros j tray' _. unfold compose.
  rewrite Nat.add_succ_r. reflexivity.
Qed.

Lemma unitTrays_imap (unitIdx : nat) (unit : JsVal) :
  unitTrays unitIdx unit
  = List.concat (imap (fun j tray => if trayHasData tray
                                     then [trayRecord unitIdx j tray] else [])
                   (arrayItems (getProp unit "tray"))).
Proof.
  unfold unitTrays. destruct (getProp unit "tray"); try reflexivity.
  cbn [arrayItems]. apply traysFrom_imap.
Qed.

Lemma unitStep_trays (logged : bool) (unitIdx : nat) (unit lock : JsVal) u trays lock' :
  unitStep toFloat toIndex positive logged unitIdx unit lock = (Ok (u, trays), lock') ->
  trays = unitTrays unitIdx unit.
Proof.
  unfold unitStep. destruct (isNullish unit); [discriminate |].
  destruct (nozzleLatch logged unitIdx unit lock) as [[nozzle | e] lock1]; [| discriminate].
  intros [= _ <- _]. reflexivity.
Qed.

(** A loop that completes appends the tray records of the units, unit by
    unit. *)
Lemma rebuildFrom_trays (logged : bool) (units : list JsVal) :
  forall idx lock us ts us' ts' lock',
    rebuildFrom toFloat toIndex positive logged idx units lock us ts
    = (Ok (JArr us', JArr ts'), lock') ->
    ts' = (ts ++ List.concat (imap (fun j unit => unitTrays (idx + j) unit) units))%list.
Proof.
  induction units as [| unit rest IH]; intros idx lock us ts us' ts' lock' Hrun.
  - injection Hrun as _ <- _. cbn. rewrite app_nil_r. reflexivity.
  - cbn [rebuildFrom] in Hrun.
    destruct (unitStep toFloat toIndex positive logged idx unit lock) as [r1 lock1] eqn:Estep.
    destruct r1 as [[u trays] | e]; [| discriminate Hrun].
    apply unitStep_trays in Estep as ->.
    rewrite (IH _ _ _ _ _ _ _ Hrun). cbn [imap List.concat].
    rewrite Nat.add_0_r, <- app_assoc. f_equal. f_equal. f_equal.
    apply imap_ext. intros j unit' _. unfold compose. rewrite Nat.add_succ_r. reflexivity.
Qed.

Lemma sorted_app {A} (R : A -> A -> Prop) (l1 l2 : list A) :
  (forall x1 x2, x1 ∈ l1 -> x2 ∈ l2 -> R x1 x2) ->
  StronglySorted R l1 -> StronglySorted R l2 -> StronglySorted R (l1 ++ l2)%list.
Proof.
  intros Hcross H1 H2. induction H1 as [| x l1 Hs IH Hall]; [exact H2 |].
  cbn [app]. constructor.
  - apply IH. intros x1 x2 Hx1 Hx2. apply Hcross; [right; exact Hx1 | exact Hx2].
  - apply Forall_app. split; [exact Hall |].
    apply Forall_forall. intros x2 Hx2. apply Hcross; [left | exact Hx2].
Qed.

Lemma sorted_NoDup (l : list JsVal) : StronglySorted idBefore l -> NoDup l.
Proof.
  induction 1 as [| x l Hs IH Hall]; constructor; [| exact IH].
  intros Hin. rewrite Forall_forall in Hall.
  destruct (Hall x Hin) as (n1 & n2 & H1 & H2 & Hlt).
  rewrite H1 in H2. injection H2 as ->. lia.
Qed.

Lemma trayRecord_id (unitIdx trayIdx : nat) (tray : JsVal) :
  getProp (trayRecord unitIdx trayIdx tray) "id"
  = JNum (Z.of_nat unitIdx * 4 + Z.of_nat trayIdx).
Proof. reflexivity. Qed.

Lemma traysFrom_sorted (unitIdx : nat) (items : list JsVal) :
  forall base, StronglySorted idBefore (traysFrom unitIdx base items).
Proof.
  induction items as [| tray rest IH]; intros base; cbn [traysFrom]; [constructor |].
  apply sorted_app; [| destruct (trayHasData tray); repeat constructor | apply IH].
  intros x1 x2 Hx1 Hx2.
  destruct (trayHasData tray); [| inversion Hx1].
  apply list_elem_of_singleton in Hx1 as ->.
  apply traysFrom_elem in Hx2 as (j & tray' & _ & _ & ->).
  eexists _, _. split; [apply trayRecord_id |]. split; [apply trayRecord_id | lia].
Qed.

Lemma unitTrays_sorted (unitIdx : nat) (unit : JsVal) :
  StronglySorted idBefore (unitTrays unitIdx unit).
Proof.
  unfold unitTrays. destruct (getProp unit "tray"); try constructor.
  apply traysFrom_sorted.
Qed.

(** While no unit lists more than four trays, the ids of the tray list
    ascend. *)
Lemma rebuildFrom_sorted (logged : bool) (units : list JsVal) :
  forall idx lock us ts us' ts' lock',
    (forall unit, unit ∈ units -> (length (arrayItems (getProp unit "tray")) <= 4)%nat) ->
    rebuildFrom toFloat toIndex positive logged idx units lock us ts
    = (Ok (JArr us', JArr ts'), lock') ->
    StronglySorted idBefore ts ->
    (forall t, t ∈ ts -> exists n, getProp t "id" = JNum n /\ n < Z.of_nat idx * 4) ->
    StronglySorted idBefore ts'.
Proof.
  induction units as [| unit rest IH]; intros idx lock us ts us' ts' lock' Hfour Hrun Hs Hb.
  - injection Hrun as _ <- _. exact Hs.
  - cbn [rebuildFrom] in Hrun.
    destruct (unitStep toFloat toIndex positive logged idx unit lock) as [r1 lock1] eqn:Estep.
    destruct r1 as [[u trays] | e]; [| discriminate Hrun].
    apply unitStep_trays in Estep as ->.
    assert (Hunit : forall t, t ∈ unitTrays idx unit ->
              exists n, getProp t "id" = JNum n
                        /\ Z.of_nat idx * 4 <= n < Z.of_nat (S idx) * 4).
    { intros t Ht. apply unitTrays_elem in Ht as (j & tray & Hj & _ & ->).
      apply lookup_lt_Some in Hj. pose proof (Hfour unit ltac:(left)) as Hlen.
      eexists. split; [apply trayRecord_id | lia]. }
    apply (IH _ _ _ _ _ _ _ (fun unit' Hin => Hfour unit' ltac:(right; exact Hin)) Hrun).
    + apply sorted_app; [| exact Hs | apply unitTrays_sorted].
      intros x1 x2 Hx1 Hx2.
      destruct (Hb x1 Hx1) as (n1 & Hn1 & Hlt1).
      destruct (Hunit x2 Hx2) as (n2 & Hn2 & Hlt2).
      exists n1, n2. split; [exact Hn1 |]. split; [exact Hn2 | lia].
    + intros t Ht. apply elem_of_app in Ht as [Ht | Ht].
      * destruct (Hb t Ht) as (n & Hn & Hlt). exists n. split; [exact Hn | lia].
      * destruct (Hunit t Ht) as (n & Hn & Hlt). exists n. split; [exact Hn | lia].
Qed.

(** X28: the nozzle of an AMS unit is latched.  When the rebuild of lines
    437-513 completes, [units] has one record per unit of the frame, in
    order and numbered by position.  A unit without [info] reports no
    [nozzle]; a unit with [info] reports the value that the latch already
    holds for it, whatever bit 8 of [info] says now, and bit 8 of [info]
    only when the latch has none; afterwards the latch holds the reported
    value, and every entry that the latch had is unchanged. *)
Theorem ams_nozzle_latched (logged : bool) (units : list JsVal) (lock : JsVal)
  (us ts : list JsVal) (lock' : JsVal) :
  lock = JUndef \/ isObject lock = true ->
  amsRebuild toFloat toIndex positive logged units lock = (Ok (JArr us, JArr ts), lock') ->
  length us = length units
  /\ (forall key, getProp lock key <> JUndef -> getProp lock' key = getProp lock key)
  /\ forall i unit, units !! i = Some unit ->
       exists u, us !! i = Some u
         /\ getProp u "id" = JNum (Z.of_nat i)
         /\ getProp u "nozzle"
            = latchedNozzle (getProp unit "info") (getProp lock (lockKey i))
         /\ (getProp unit "info" <> JUndef ->
             getProp lock' (lockKey i) = getProp u "nozzle").
Proof.
  intros Hl Hrun. unfold amsRebuild in Hrun.
  destruct (rebuildFrom_done _ _ _ _ _ _ _ _ _ Hrun) as (newUs & -> & Hlen & _ & Hunits).
  split; [exact Hlen |].
  split; [exact (rebuildFrom_sticky _ _ _ _ _ _ _ _ Hrun) |].
  intros i unit Hi. destruct (Hunits i unit Hi) as (u & Hu & Hid & Hnozzle).
  exists u. split; [exact Hu |]. split; [exact Hid |].
  destruct (Hnozzle Hl) as [Hv Hlatch]. split; [exact Hv | exact Hlatch].
Qed.


(** X30: the tray list.  When the rebuild completes, [trays] is, unit by
    unit and tray by tray in the order of the frame, one record for each
    tray that carries a material or a color other than ['00000000'] and
    nothing for any other tray; the record is built from the position of
    the unit and the position of the tray in the unit, and passes the same
    test on its own [type] and [color].  The [id] is four times the unit
    position plus the tray position: while no unit lists more than four
    trays, the list has no record twice and two records with the same [id]
    are the same record, whereas a fifth tray takes the [id] of the first
    tray of the next unit. *)
Theorem ams_trays_listed (logged : bool) (units : list JsVal) (lock : JsVal)
  (us ts : list JsVal) (lock' : JsVal) :
  amsRebuild toFloat toIndex positive logged units lock = (Ok (JArr us, JArr ts), lock') ->
  ts = List.concat
         (imap (fun i unit =>
                  List.concat
                    (imap (fun j tray => if trayHasData tray then [trayRecord i j tray] else [])
                       (arrayItems (getProp unit "tray"))))
            units)
  /\ (forall t, t ∈ ts <->
       exists i unit j tray,
         units !! i = Some unit /\ arrayItems (getProp unit "tray") !! j = Some tray
         /\ trayHasData tray = true /\ t = trayRecord i j tray)
  /\ (forall t, t ∈ ts -> listedSpool t = true)
  /\ ((forall unit, unit ∈ units -> (length (arrayItems (getProp unit "tray")) <= 4)%nat) ->
      NoDup ts
      /\ forall t1 t2, t1 ∈ ts -> t2 ∈ ts -> getProp t1 "id" = getProp t2 "id" -> t1 = t2)
  /\ forall i tray tray',
       getProp (trayRecord i 4 tray) "id" = getProp (trayRecord (S i) 0 tray') "id".
Proof.
  intros Hrun. unfold amsRebuild in Hrun.
  split.
  { rewrite (rebuildFrom_trays _ _ _ _ _ _ _ _ _ Hrun). cbn [app]. f_equal.
    apply imap_ext. intros i unit _. cbn [Nat.add]. apply unitTrays_imap. }
  pose proof (fun Hfour => sorted_NoDup ts
                (rebuildFrom_sorted _ _ _ _ _ _ _ _ _ Hfour Hrun (SSorted_nil _)
                   (fun t (Ht : t ∈ []) => False_ind _ (not_elem_of_nil t Ht)))) as Hnodup.
  destruct (rebuildFrom_done _ _ _ _ _ _ _ _ _ Hrun) as (newUs & _ & _ & Htrays & _).
  assert (Hchar : forall t, t ∈ ts <->
            exists i unit j tray,
              units !! i = Some unit /\ arrayItems (getProp unit "tray") !! j = Some tray
              /\ trayHasData tray = true /\ t = trayRecord i j tray).
  { intros t. rewrite Htrays. split.
    - intros [Ht | (i & unit & Hi & Ht)]; [inversion Ht |].
      apply unitTrays_elem in Ht as (j & tray & Hj & Hd & ->).
      exists i, unit, j, tray. auto.
    - intros (i & unit & j & tray & Hi & Hj & Hd & ->).
      right. exists i, unit. split; [exact Hi |].
      apply unitTrays_elem. exists j, tray. auto. }
  split; [exact Hchar |]. split; [| split].
  - intros t Ht. apply Hchar in Ht as (i & unit & j & tray & _ & _ & Hd & ->).
    unfold trayHasData in Hd. apply andb_true_iff in Hd as [_ Hd].
    apply hasFilament_record in Hd. exact Hd.
  - intros Hfour. split; [exact (Hnodup Hfour) |]. intros t1 t2 H1 H2 Hid.
    apply Hchar in H1 as (i1 & unit1 & j1 & tray1 & Hi1 & Hj1 & _ & ->).
    apply Hchar in H2 as (i2 & unit2 & j2 & tray2 & Hi2 & Hj2 & _ & ->).
    assert (Hb1 : (j1 < 4)%nat).
    { apply lookup_lt_Some in Hj1.
      pose proof (Hfour unit1 (list_elem_of_lookup_2 _ _ _ Hi1)). lia. }
    assert (Hb2 : (j2 < 4)%nat).
    { apply lookup_lt_Some in Hj2.
      pose proof (Hfour unit2 (list_elem_of_lookup_2 _ _ _ Hi2)). lia. }
    assert (E : Z.of_nat i1 * 4 + Z.of_nat j1 = Z.of_nat i2 * 4 + Z.of_nat j2)
      by (injection Hid as Hid; exact Hid).
    assert (i1 = i2) as -> by lia. assert (j1 = j2) as -> by lia.
    rewrite Hi1 in Hi2. injection Hi2 as ->.
    rewrite Hj1 in Hj2. injection Hj2 as ->. reflexivity.
  - intros i tray tray'. change (JNum (Z.of_nat i * 4 + Z.of_nat 4)
                                 = JNum (Z.of_nat (S i) * 4 + Z.of_nat 0)).
    f_equal. lia.
Qed.

End Rebuild.

(** ** Worked inputs *)

(** The first frame reports the unit with bit 8 of [info] set, the second
    with the bit cleared: the second still reports nozzle 1. *)
Lemma ams_nozzle_latched_witness :
  let first := Examples.exampleRebuild false [Examples.amsUnitRight] JUndef in
  let second := Examples.exampleRebuild false [Examples.amsUnitFlipped] first.2 in
  @nozzleBit Examples.exampleExternals (getProp Examples.amsUnitFlipped "info") = 0
  /\ exists u rest ts lock', second = (Ok (JArr (u :: rest), JArr ts), lock')
                            /\ getProp u "nozzle" = JNum 1.
Proof.
  intros first second. split; [reflexivity |].
  eassert (Hrun : second = (Ok (JArr _, JArr _), _)) by (vm_compute; reflexivity).
  destruct (@ams_nozzle_latched Examples.exampleExternals Examples.orZero Examples.orZero Examples.positiveNumber
              false [Examples.amsUnitFlipped] first.2 _ _ _
              (or_intror eq_refl) Hrun) as (_ & _ & Hunits).
  destruct (Hunits 0%nat Examples.amsUnitFlipped eq_refl) as (u & Hu & _ & Hnozzle & _).
  injection Hu as <-.
  eexists _, _, _, _. split; [exact Hrun | exact Hnozzle].
Defined.

Lemma ams_trays_listed_witness :
  exists us ts lock',
    Examples.exampleRebuild false [Examples.amsUnitRight] JUndef
    = (Ok (JArr us, JArr ts), lock')
    /\ length ts = 2%nat
    /\ Forall (fun t => listedSpool t = true) ts.
Proof.
  eassert (Hrun : Examples.exampleRebuild false [Examples.amsUnitRight] JUndef
                  = (Ok (JArr _, JArr _), _)) by (vm_compute; reflexivity).
  destruct (@ams_trays_listed Examples.exampleExternals Examples.orZero Examples.orZero Examples.positiveNumber
              false [Examples.amsUnitRight] JUndef _ _ _ Hrun) as (_ & _ & Hlisted & _).
  eexists _, _, _. split; [exact Hrun |]. split; [reflexivity |].
  apply Forall_forall. exact Hlisted.
Defined.

End AmsProps.
(* ===================================================================== *)
(** * Sessions: connections, timers and commands beyond the reconnect cycle *)
(* ===================================================================== *)

Module SessionProps.
Import Js Session JsFacts SessionFacts Examples.

(** ** Connections and timers *)

Lemma connectPrinter_socket printer s :
  mqttClients s !! serialNumber printer = None ->
  sockets (connectPrinter printer s) = <[nextId s := serialNumber printer]> (sockets s)
  /\ nextId (connectPrinter printer s) = S (nextId s)
  /\ mqttClients (connectPrinter printer s) = mqttClients s
  /\ forall tid, printerReconnectTimers s !! serialNumber printer <> Some tid ->
       timers (connectPrinter printer s) !! tid = timers s !! tid.
Proof.
  intros Hm. unfold connectPrinter. rewrite Hm. cbn [printerReconnectTimers setPrinterDataCache].
  destruct (printerReconnectTimers s !! serialNumber printer) as [tracked |] eqn:Et;
    cbn; repeat split; try reflexivity.
  intros tid Hne. apply lookup_delete_ne. congruence.
Qed.

Lemma scheduleReconnect_keeps serial s :
  printers (scheduleReconnect serial s) = printers s
  /\ mqttClients (scheduleReconnect serial s) = mqttClients s
  /\ printerDataCache (scheduleReconnect serial s) = printerDataCache s.
Proof.
  unfold scheduleReconnect.
  destruct (printerDataCache s !! serial); [| auto].
  destruct (mqttClients s !! serial); auto.
Qed.

Lemma onClose_schedules printer client s :
  printerDataCache s !! serialNumber printer = Some printer ->
  let serial := serialNumber printer in
  timers (onClose client printer s)
  = <[nextId s := ReconnectTimer serial printer (backoffDelay (attemptsOf s serial))]> (timers s)
  /\ nextId (onClose client printer s) = S (nextId s)
  /\ printerReconnectTimers (onClose client printer s)
     = <[serial := nextId s]> (printerReconnectTimers s)
  /\ reconnectAttempts (onClose client printer s)
     = <[serial := attemptsOf s serial + 1]> (reconnectAttempts s)
  /\ printerDataCache (onClose client printer s) = printerDataCache s
  /\ mqttClients (onClose client printer s) = delete serial (mqttClients s).
Proof.
  intros Hc serial. subst serial. unfold onClose, scheduleReconnect.
  destruct (printers (setMqttClients _ _) !! serialNumber printer); simpl;
    rewrite Hc, lookup_delete_eq; simpl; repeat split; reflexivity.
Qed.


(** X10: [scheduleReconnect] does not cancel a timer that is already
    pending.  After two ['close'] events for the same device (one per
    client) two reconnect timers are pending, with the delays of two
    successive attempts; only the second is registered, so a later
    [connectPrinter] cancels the second and leaves the first one pending. *)
Theorem second_close_leaves_first_timer (printer : Printer) (c1 c2 : nat) (s : State) :
  printerDataCache s !! serialNumber printer = Some printer ->
  let serial := serialNumber printer in
  let a := attemptsOf s serial in
  let s2 := onClose c2 printer (onClose c1 printer s) in
  timers s2 !! nextId s = Some (ReconnectTimer serial printer (backoffDelay a))
  /\ timers s2 !! S (nextId s) = Some (ReconnectTimer serial printer (backoffDelay (a + 1)))
  /\ printerReconnectTimers s2 !! serial = Some (S (nextId s))
  /\ timers (connectPrinter printer s2) !! nextId s
     = Some (ReconnectTimer serial printer (backoffDelay a))
  /\ timers (connectPrinter printer s2) !! S (nextId s) = None.
Proof.
  intros Hc serial a s2.
  destruct (onClose_schedules printer c1 s Hc) as (T1 & N1 & R1 & A1 & C1 & M1).
  destruct (onClose_schedules printer c2 (onClose c1 printer s)) as (T2 & N2 & R2 & A2 & C2 & M2).
  { rewrite C1. exact Hc. }
  fold serial in T1, R1, A1, M1, T2, R2, A2, M2. fold a in T1, A1.
  assert (Ha : attemptsOf (onClose c1 printer s) serial = a + 1).
  { unfold attemptsOf at 1. rewrite A1, lookup_insert_eq.
    destruct (Z.eqb_spec (a + 1) 0) as [E | _]; [symmetry; exact E | reflexivity]. }
  rewrite Ha, N1, T1 in T2. rewrite N1 in R2.
  assert (Hm2 : mqttClients s2 !! serial = None).
  { subst s2. rewrite M2. apply lookup_delete_eq. }
  assert (Hr2 : printerReconnectTimers s2 !! serial = Some (S (nextId s))).
  { subst s2. rewrite R2. apply lookup_insert_eq. }
  assert (Ht1 : timers s2 !! nextId s = Some (ReconnectTimer serial printer (backoffDelay a))).
  { subst s2. rewrite T2. rewrite lookup_insert_ne by lia. apply lookup_insert_eq. }
  split; [exact Ht1 |].
  split; [subst s2; rewrite T2; apply lookup_insert_eq |].
  split; [exact Hr2 |].
  destruct (connectPrinter_socket printer s2 Hm2) as (_ & _ & _ & Hkeep).
  split.
  - rewrite Hkeep; [exact Ht1 |]. fold serial. rewrite Hr2. intros E. inversion E. lia.
  - unfold connectPrinter. fold serial. rewrite Hm2.
    cbn [printerReconnectTimers setPrinterDataCache]. rewrite Hr2. cbn.
    apply lookup_delete_eq.
Qed.

Lemma disconnectApi_keeps s :
  mqttClients (disconnectApi s) = ∅
  /\ printers (disconnectApi s) = ∅
  /\ printerDataCache (disconnectApi s) = printerDataCache s
  /\ reconnectAttempts (disconnectApi s) = reconnectAttempts s
  /\ printerReconnectTimers (disconnectApi s) = printerReconnectTimers s
  /\ timers (disconnectApi s) = timers s
  /\ nextId (disconnectApi s) = nextId s.
Proof. unfold disconnectApi. cbn. repeat split; reflexivity. Qed.

(** X11: [disconnectApi] empties [mqttClients] and [printers] but leaves the
    cached records, the reconnect counters and the pending timers.  So the
    ['close'] event of a client it has ended schedules a reconnect as for a
    lost connection, and when that timer expires a new connection to the
    device is opened. *)
Theorem disconnect_keeps_reconnecting (printer : Printer) (client : nat) (s : State) :
  printerDataCache s !! serialNumber printer = Some printer ->
  let serial := serialNumber printer in
  let closed := onClose client printer (disconnectApi s) in
  mqttClients (disconnectApi s) = ∅
  /\ printers (disconnectApi s) = ∅
  /\ timers (disconnectApi s) = timers s
  /\ awaiting printer (attemptsOf s serial) closed
  /\ printerReconnectTimers closed !! serial = Some (nextId s)
  /\ sockets (fireTimer (nextId s) closed) !! S (nextId s) = Some serial.
Proof.
  intros Hc serial closed.
  destruct (disconnectApi_keeps s) as (M & P & C & A & R & T & N).
  split; [exact M |]. split; [exact P |]. split; [exact T |].
  assert (Hc' : printerDataCache (disconnectApi s) !! serialNumber printer = Some printer)
    by (rewrite C; exact Hc).
  assert (Ha : attemptsOf (disconnectApi s) serial = attemptsOf s serial)
    by (unfold attemptsOf; rewrite A; reflexivity).
  split; [apply onClose_awaiting; assumption |].
  destruct (onClose_schedules printer client (disconnectApi s) Hc')
    as (T1 & N1 & R1 & A1 & C1 & M1).
  fold serial closed in T1, N1, R1, A1, C1, M1. rewrite N in T1, N1, R1.
  split; [rewrite R1; apply lookup_insert_eq |].
  unfold fireTimer. rewrite T1, lookup_insert_eq.
  cbn [mqttClients setPrinterReconnectTimers setTimers].
  rewrite M1, lookup_delete_eq.
  match goal with
  | |- sockets (connectPrinter printer ?x) !! _ = _ =>
      destruct (connectPrinter_socket printer x) as (S1 & _)
  end.
  { cbn. rewrite M1. apply lookup_delete_eq. }
  rewrite S1. cbn [nextId setPrinterReconnectTimers setTimers]. rewrite N1.
  apply lookup_insert_eq.
Qed.

(** X12: the ['close'] handler marks the snapshot of its device offline and
    keeps every other property of it; it creates no snapshot for a device
    that has none, leaves the snapshots of other devices as they are, and
    the device is no longer registered afterwards. *)
Theorem close_marks_offline (printer : Printer) (client : nat) (s : State) :
  let serial := serialNumber printer in
  let s' := onClose client printer s in
  (forall pr, printers s !! serial = Some pr ->
     exists pr', printers s' !! serial = Some pr'
       /\ getProp pr' "online" = JBool false
       /\ forall key, key <> "online" -> getProp pr' key = getProp pr key)
  /\ (printers s !! serial = None -> printers s' !! serial = None)
  /\ (forall other, other <> serial -> printers s' !! other = printers s !! other)
  /\ mqttClients s' !! serial = None.
Proof.
  intros serial s'. subst s'. unfold onClose. fold serial.
  match goal with
  | |- context [scheduleReconnect serial ?x] =>
      destruct (scheduleReconnect_keeps serial x) as (P & M & _); rewrite P, M
  end.
  cbn [printers setMqttClients setSockets].
  destruct (printers s !! serial) as [pr0 |] eqn:Ep; cbn.
  - split; [| split; [discriminate | split]].
    + intros pr E. inversion E; subst pr0. eexists. split; [apply lookup_insert_eq |].
      split.
      * rewrite getProp_spread. reflexivity.
      * intros key Hkey. rewrite getProp_spread. cbn [lookupOpt].
        destruct (String.eqb_spec key "online"); [contradiction | reflexivity].
    + intros other Hne. apply lookup_insert_ne. congruence.
    + apply lookup_delete_eq.
  - split; [discriminate |]. split; [intros _; exact Ep |].
    split; [reflexivity | apply lookup_delete_eq].
Qed.

(** X13: the error log of a device is throttled to one line per 60 s.  After
    an error that was logged at [t1], an error at [t2] is logged exactly
    when more than 60000 ms lie between them; a successful connect resets
    the throttle, the next error is then logged for every time stamp above
    60000. *)
Theorem error_log_throttle (printer : Printer) (t1 t2 : Z) (client : nat) (s : State) :
  (onError printer t1 s).1 = true ->
  let s1 := (onError printer t1 s).2 in
  (onError printer t2 s1).1 = (60000 <? t2 - t1)%Z
  /\ (onError printer t2 (onConnect client printer s1)).1 = (60000 <? t2)%Z.
Proof.
  unfold onError at 1 2.
  destruct (60000 <? t1 - default 0 (mqttErrorThrottle s !! serialNumber printer))%Z;
    [| discriminate].
  intros _. cbn [fst snd]. split.
  - unfold onError. cbn [mqttErrorThrottle setMqttErrorThrottle].
    rewrite lookup_insert_eq. cbn [default from_option id].
    destruct (60000 <? t2 - t1)%Z; reflexivity.
  - unfold onError.
    assert (Hreset : mqttErrorThrottle (onConnect client printer
                       (setMqttErrorThrottle (<[serialNumber printer := t1]> (mqttErrorThrottle s)) s))
                     !! serialNumber printer = None) by apply lookup_delete_eq.
    rewrite Hreset. cbn [default from_option id]. rewrite Z.sub_0_r.
    destruct (60000 <? t2)%Z; reflexivity.
Qed.

(** ** Commands *)

Lemma publish_all client topic payloads : forall s,
  let s' := fold_left (fun acc payload => publish client topic payload acc) payloads s in
  published s'
  = (published s ++ map (fun payload => (client, topic, jsonShape payload)) payloads)%list
  /\ sameConnections s s'.
Proof.
  induction payloads as [| payload payloads IH]; intros s; cbn [fold_left map].
  - rewrite app_nil_r. repeat split; reflexivity.
  - destruct (IH (publish client topic payload s)) as (Hp & Hs).
    split.
    + rewrite Hp. cbn [publish published setPublished]. rewrite <- app_assoc. reflexivity.
    + exact Hs.
Qed.

Section CommandProps.
Context `{Externals}.

Lemma convertible_orElse (a d : JsVal) :
  convertible a = true -> convertible d = true -> convertible (a |? d) = true.
Proof. intros Ha Hd. unfold orElse. destruct (truthy a); assumption. Qed.

Lemma modelUsable_convertible s serial :
  modelUsable s serial = true -> convertible (snapshotProp s serial "model") = true.
Proof.
  unfold modelUsable, snapshotProp. destruct (printers s !! serial) as [pr |]; [| reflexivity].
  destruct (getProp pr "model"); try discriminate; reflexivity.
Qed.

Lemma translate_total kind client serial cmd s :
  modelUsable s serial = true ->
  convertible (snapshotProp s serial "name") = true ->
  (forall key, convertible (getProp cmd key) = true) ->
  exists payloads s',
    translate kind client serial cmd s = Ok (payloads, s')
    /\ (length payloads <= 3)%nat
    /\ published s' = published s
    /\ sameConnections s s'.
Proof.
  intros Hm Hname Hconv.
  assert (Hmodel : exists m, modelUpper s serial = Ok m).
  { unfold modelUpper, modelUsable in *. destruct (printers s !! serial) as [pr |]; [| eauto].
    destruct (getProp pr "model"); try discriminate Hm; eauto. }
  destruct Hmodel as [m Hmodel].
  pose proof (modelUsable_convertible s serial Hm) as Hmc.
  unfold translate. destruct kind; rewrite ?Hmodel; cbn [mbind exc_bind];
    unfold converting; cbn [forallb];
    rewrite ?Hconv, ?Hname, ?Hmc, ?convertible_orElse by (first [apply Hconv | reflexivity]);
    cbn [andb];
    repeat match goal with
           | |- context [if ?c then _ else _] => destruct c
           end;
    (eexists _, _; split; [reflexivity |]; split; [cbn [length]; lia |];
     split; [reflexivity | repeat split; reflexivity]).
Qed.

(** X14: what a command can do.  For a connected device, a command other
    than [null] and [undefined] whose parameters all convert to primitives
    never throws, given that the stored model is a string or missing and
    that the stored name converts; all it publishes, at most three
    payloads, goes through the client of that device to the request topic
    of that device and is appended to what was published before; clients,
    snapshots, cached records, reconnect counters, registered timers and
    sockets stay as they are. *)
Theorem executeCommand_publishes (serial : string) (command : JsVal) (s : State)
  (client : nat) :
  mqttClients s !! serial = Some client ->
  isNullish command = false ->
  modelUsable s serial = true ->
  convertible (snapshotProp s serial "name") = true ->
  (forall key, convertible (getProp command key) = true) ->
  exists payloads s',
    executeCommand serial command s = Ok s'
    /\ (length payloads <= 3)%nat
    /\ published s'
       = (published s
          ++ map (fun payload =>
                 (client, ("device/" ++ serial ++ "/request")%string, jsonShape payload))
               payloads)%list
    /\ sameConnections s s'.
Proof.
  intros Hc Hn Hm Hname Hconv. unfold executeCommand. rewrite Hc.
  set (cmd := match command with
              | JStr name => JObj [("type", JStr name)]
              | _ => command
              end).
  assert (Hty : exists ty, getPropStrict cmd "type" = Ok ty).
  { subst cmd. destruct command; try discriminate Hn; eexists; reflexivity. }
  assert (Hcmd : forall key, convertible (getProp cmd key) = true).
  { intros key. subst cmd. destruct command; try apply Hconv.
    cbn [getProp]. unfold lookupProp. cbn [lookupOpt].
    destruct (String.eqb key "type"); reflexivity. }
  destruct Hty as [ty ->]. cbn [mbind exc_bind].
  destruct (classify ty) as [kind |].
  - destruct (translate_total kind client serial cmd s Hm Hname Hcmd)
      as (payloads & s1 & -> & Hlen & Hpub & Hsame).
    cbn [mbind exc_bind].
    destruct (publish_all client ("device/" ++ serial ++ "/request") payloads s1)
      as (Hp & Hs).
    eexists payloads, _. split; [reflexivity |]. split; [exact Hlen |].
    split; [rewrite Hp, Hpub; reflexivity |].
    unfold sameConnections in *.
    destruct Hsame as (A1 & A2 & A3 & A4 & A5 & A6).
    destruct Hs as (B1 & B2 & B3 & B4 & B5 & B6).
    rewrite B1, B2, B3, B4, B5, B6. auto 10.
  - exists [], s. split; [reflexivity |]. split; [cbn; lia |].
    split; [cbn; rewrite app_nil_r; reflexivity | repeat split; reflexivity].
Qed.

(** A parameter that does not convert makes the case throw before it
    publishes: the G-code of a [gcode] command, say. *)
Lemma executeCommand_conversion_throws (serial : string) (props : list (string * JsVal))
  (s : State) (client : nat) :
  mqttClients s !! serial = Some client ->
  getProp (JObj props) "type" = JStr "gcode" ->
  convertible (getProp (JObj props) "gcode") = false ->
  executeCommand serial (JObj props) s = Throw conversionError.
Proof.
  intros Hc Hty Hconv. unfold executeCommand. rewrite Hc.
  cbn [getPropStrict mbind exc_bind]. rewrite Hty.
  cbn [classify assoc commandTable String.eqb Ascii.eqb Bool.eqb translate].
  unfold converting. cbn [forallb]. rewrite Hconv. reflexivity.
Qed.

End CommandProps.

(** ** Worked inputs *)


(** The device connects, loses the connection, and the close handler runs a
    second time: timers 1 and 2 are pending with 5 s and 10 s. *)
Lemma second_close_leaves_first_timer_witness :
  let s := onConnect 0 dev (connectPrinter dev initial) in
  timers (onClose 0 dev (onClose 0 dev s)) !! 1%nat
  = Some (ReconnectTimer (serialNumber dev) dev 5000)
  /\ timers (onClose 0 dev (onClose 0 dev s)) !! 2%nat
     = Some (ReconnectTimer (serialNumber dev) dev 10000).
Proof.
  intros s.
  destruct (second_close_leaves_first_timer dev 0 0 s eq_refl) as (A & B & _).
  split; [exact A | exact B].
Defined.

Lemma disconnect_keeps_reconnecting_witness :
  let s := onConnect 0 dev (connectPrinter dev initial) in
  scheduledDelay (serialNumber dev) (onClose 0 dev (disconnectApi s)) = Some 5000
  /\ sockets (fireTimer 1 (onClose 0 dev (disconnectApi s))) !! 2%nat
     = Some (serialNumber dev).
Proof.
  intros s.
  destruct (disconnect_keeps_reconnecting dev 0 s eq_refl) as (_ & _ & _ & W & _ & F).
  split; [| exact F].
  rewrite (awaiting_delay dev _ _ W). reflexivity.
Defined.

Lemma error_log_throttle_witness :
  (onError dev 1700000000000 initial).1 = true
  /\ (onError dev 1700000030000 (onError dev 1700000000000 initial).2).1 = false
  /\ (onError dev 1700000060001 (onError dev 1700000000000 initial).2).1 = true.
Proof.
  split; [reflexivity |].
  destruct (error_log_throttle dev 1700000000000 1700000030000 0 initial eq_refl) as [A _].
  destruct (error_log_throttle dev 1700000000000 1700000060001 0 initial eq_refl) as [B _].
  split; [rewrite A | rewrite B]; reflexivity.
Defined.

(** A jog of a connected device. *)
Lemma executeCommand_publishes_witness :
  let s := onConnect 0 dev (connectPrinter dev initial) in
  exists payloads s',
    @executeCommand exampleExternals (serialNumber dev)
      (JObj [("type", JStr "move"); ("axis", JStr "Y"); ("distance", JNum 5)]) s = Ok s'
    /\ (length payloads <= 3)%nat
    /\ published s'
       = (published s
          ++ map (fun payload => (0%nat, "device/01P00A000000001/request", jsonShape payload))
               payloads)%list.
Proof.
  intros s.
  destruct (@executeCommand_publishes exampleExternals (serialNumber dev)
              (JObj [("type", JStr "move"); ("axis", JStr "Y"); ("distance", JNum 5)]) s 0%nat
              eq_refl eq_refl eq_refl eq_refl)
    as (payloads & s' & Hrun & Hlen & Hpub & _).
  { intros key. cbn [getProp]. unfold lookupProp. cbn [lookupOpt].
    repeat match goal with
           | |- context [String.eqb ?a ?b] => destruct (String.eqb a b)
           end; reflexivity. }
  exists payloads, s'. split; [exact Hrun |]. split; [exact Hlen | exact Hpub].
Defined.

End SessionProps.
(* ===================================================================== *)
(** * Camera: frames, chunks, throttle, auth packet and retry policy      *)
(* ===================================================================== *)

Module CameraProps.
Import Camera CameraFacts Examples.

(** ** Where a marker is found *)

Lemma indexOf2_split a b buf i :
  indexOf2 a b buf = Some i ->
  exists pre post, buf = (pre ++ a :: b :: post)%list /\ length pre = i.
Proof.
  revert i. induction buf as [| x buf IH]; intros i Hi; [discriminate |].
  destruct buf as [| y buf]; [discriminate |].
  rewrite indexOf2_step in Hi.
  destruct (Byte.eqb x a && Byte.eqb y b)%bool eqn:E.
  - inversion Hi; subst i. apply andb_prop in E. destruct E as [Ex Ey].
    apply byte_dec_bl in Ex, Ey. subst x y. exists [], buf. split; reflexivity.
  - destruct (indexOf2 a b (y :: buf)) as [j |]; [| discriminate].
    inversion Hi; subst i.
    destruct (IH j eq_refl) as (pre & post & Hbuf & Hlen).
    exists (x :: pre), post. rewrite Hbuf. split; [reflexivity | simpl; lia].
Qed.

(** The bytes before the place of the first marker decide the search alone:
    cut short of the marker nothing is found, cut right after it the marker
    is found at the same place. *)
Lemma indexOf2_take a b buf i n :
  indexOf2 a b buf = Some i ->
  indexOf2 a b (take n buf) = if (i + 2 <=? n)%nat then Some i else None.
Proof.
  revert i n. induction buf as [| x buf IH]; intros i n Hi; [discriminate |].
  destruct buf as [| y buf]; [discriminate |].
  rewrite indexOf2_step in Hi.
  destruct n as [| [| n]].
  - destruct (Nat.leb_spec (i + 2) 0); [lia | reflexivity].
  - destruct (Nat.leb_spec (i + 2) 1); [lia | reflexivity].
  - change (take (S (S n)) (x :: y :: buf)) with (x :: y :: take n buf).
    rewrite indexOf2_step.
    destruct (Byte.eqb x a && Byte.eqb y b)%bool.
    + inversion Hi; subst i. reflexivity.
    + destruct (indexOf2 a b (y :: buf)) as [j |] eqn:Ej; [| discriminate].
      inversion Hi; subst i.
      change (y :: take n buf) with (take (S n) (y :: buf)).
      rewrite (IH j (S n) eq_refl).
      change (S j + 2 <=? S (S n))%nat with (j + 2 <=? S n)%nat.
      destruct (j + 2 <=? S n)%nat; reflexivity.
Qed.

Lemma indexOf2_drop a b buf i : indexOf2 a b buf = Some i -> indexOf2 a b (drop i buf) = Some 0%nat.
Proof.
  intros Hi. destruct (indexOf2_split a b buf i Hi) as (pre & post & -> & <-).
  rewrite drop_app_length. cbn. rewrite !byte_eqb_refl. reflexivity.
Qed.

Lemma indexOf2_head a b buf :
  indexOf2 a b buf = Some 0%nat -> exists rest, buf = a :: b :: rest.
Proof.
  intros Hi. destruct (indexOf2_split a b buf 0 Hi) as (pre & post & -> & Hlen).
  destruct pre; [| discriminate]. exists post. reflexivity.
Qed.

(** Marker-free bytes followed by the first byte of a marker hold no
    marker. *)
Lemma indexOf2_snoc_none a b g x :
  b <> x -> indexOf2 a b g = None -> indexOf2 a b (g ++ [x]) = None.
Proof.
  intros Hbx. induction g as [| y g IH]; intros Hg; [reflexivity |].
  destruct g as [| z g].
  - cbn. rewrite (byte_eqb_neq x b) by congruence. rewrite andb_false_r. reflexivity.
  - apply indexOf2_cons_none in Hg. destruct Hg as [Ht Hn].
    change ((y :: z :: g) ++ [x])%list with (y :: z :: (g ++ [x]))%list.
    rewrite indexOf2_step, Ht.
    change (z :: g ++ [x])%list with ((z :: g) ++ [x])%list.
    rewrite (IH Hn). reflexivity.
Qed.

(** ** The frames of a buffer *)

Lemma cut_delimited (buf1 : list byte) (endIdx : nat) :
  indexOfStart buf1 = Some 0%nat ->
  indexOfEnd buf1 2 = Some endIdx ->
  delimited (take (endIdx + 2) buf1).
Proof.
  intros Hs He.
  destruct (indexOf2_head _ _ _ Hs) as (tail & ->).
  unfold indexOfEnd, indexOfFrom in He. cbn [skipn] in He. rewrite drop_0 in He.
  destruct (indexOf2 xff xd9 tail) as [j |] eqn:Ej; [| discriminate].
  cbn in He. inversion He; subst endIdx. clear He.
  destruct (indexOf2_split _ _ _ _ Ej) as (body & post & Htail & Hlen).
  exists body. split.
  - subst tail. unfold JPEG_START, JPEG_END.
    change (S (S j) + 2)%nat with (S (S (j + 2))). cbn [take app].
    rewrite <- Hlen.
    change (body ++ xff :: xd9 :: post)%list with (body ++ [xff; xd9] ++ post)%list.
    rewrite app_assoc.
    replace (length body + 2)%nat with (length (body ++ [xff; xd9])%list)
      by (rewrite length_app; reflexivity).
    rewrite take_app_length. reflexivity.
  - unfold indexOfEnd, indexOfFrom.
    change (S (S j) + 2)%nat with (S (S (j + 2))). cbn [take skipn]. rewrite drop_0.
    rewrite (indexOf2_take _ _ _ _ (j + 2) Ej), Nat.leb_refl. cbn.
    rewrite Hlen. reflexivity.
Qed.

Lemma extractFrames_delimited fuel : forall buf,
  (length buf < fuel)%nat ->
  Forall delimited (extractFrames fuel buf).1 /\ waiting (extractFrames fuel buf).2.
Proof.
  induction fuel as [| fuel IH]; intros buf Hlen; [lia |].
  cbn [extractFrames].
  destruct (indexOfStart buf) as [startIdx |] eqn:Es.
  - pose proof (indexOf2_drop _ _ _ _ Es) as Hs0.
    pose proof (indexOf2_bound _ _ _ _ Es) as Hsb.
    change (skipn startIdx buf) with (drop startIdx buf).
    set (buf1 := drop startIdx buf) in *.
    assert (Hb1 : (length buf1 <= length buf)%nat)
      by (subst buf1; rewrite length_drop; lia).
    destruct (indexOfEnd buf1 2) as [endIdx |] eqn:Ee.
    + pose proof (indexOfFrom_bound _ _ _ _ _ Ee) as Heb.
      destruct (IH (skipn (endIdx + 2) buf1)) as [Hf Hw].
      { rewrite length_skipn. lia. }
      destruct (extractFrames fuel (skipn (endIdx + 2) buf1)) as [frames rest].
      cbn [fst snd] in *. split; [| exact Hw].
      constructor; [| exact Hf].
      exact (cut_delimited buf1 endIdx Hs0 Ee).
    + cbn [fst snd]. split; [constructor |]. right. split; assumption.
  - cbn [fst snd]. split; [constructor | left; reflexivity].
Qed.

(** ** The loop in terms of the frames *)

(** The Direct path leaves the bytes that [extractFrames] leaves, counts
    the frames that pass the size test and stores the last of them. *)
Lemma jpegLoop_summary fuel serial : forall sd e sd' e',
  jpegLoop fuel serial sd e = Some (sd', e') ->
  let frames := (extractFrames fuel (buffer sd)).1 in
  buffer sd' = (extractFrames fuel (buffer sd)).2
  /\ frameCount sd' = frameCount sd + Z.of_nat (length (List.filter validFrame frames))
  /\ lastFrame sd' = lastValid (lastFrame sd) frames.
Proof.
  induction fuel as [| fuel IH]; intros sd e sd' e' Hrun; [discriminate |].
  cbn [jpegLoop extractFrames] in *.
  destruct (indexOfStart (buffer sd)) as [startIdx |].
  - rewrite skipn_start in Hrun.
    destruct (indexOfEnd (skipn startIdx (buffer sd)) 2) as [endIdx |].
    + set (buf := skipn startIdx (buffer sd)) in *.
      set (frame := firstn (endIdx + 2) buf) in *.
      destruct (acceptJpeg serial frame (withBuffer sd (skipn (endIdx + 2) buf)) e)
        as [sd2 e2] eqn:Ea.
      destruct (IH sd2 e2 sd' e' Hrun) as (Hb & Hc & Hl).
      assert (Hb2 : buffer sd2 = skipn (endIdx + 2) buf).
      { pose proof (acceptJpeg_buffer serial frame (withBuffer sd (skipn (endIdx + 2) buf)) e) as B.
        rewrite Ea in B. exact B. }
      rewrite Hb2 in Hb, Hc, Hl.
      destruct (extractFrames fuel (skipn (endIdx + 2) buf)) as [frames rest].
      cbn [fst snd List.filter] in *. unfold lastValid. cbn [fold_left].
      fold (lastValid (if validFrame frame then Some frame else lastFrame sd) frames).
      unfold acceptJpeg in Ea. fold (validFrame frame) in Ea.
      destruct (validFrame frame); inversion Ea; subst sd2 e2; clear Ea;
        cbn [frameCount lastFrame withBuffer dateNow fst snd] in *.
      * split; [exact Hb |]. split; [| exact Hl].
        rewrite Hc. cbn [length]. lia.
      * split; [exact Hb |]. split; [exact Hc | exact Hl].
    + inversion Hrun; subst. cbn. split; [reflexivity |]. split; [lia | reflexivity].
  - inversion Hrun; subst. cbn. split; [reflexivity |]. split; [lia | reflexivity].
Qed.

Lemma last_cons_default (t d : Z) (rest : list Z) :
  List.last (t :: rest) d = List.last rest t.
Proof.
  revert t d. induction rest as [| x rest IH]; intros t d; [reflexivity |].
  change (List.last (t :: x :: rest) d) with (List.last (x :: rest) d).
  rewrite (IH x d), (IH x t). reflexivity.
Qed.

Lemma lastValid_last (previous : option (list byte)) (frames : list (list byte)) :
  lastValid previous frames
  = match last (List.filter validFrame frames) with
    | Some frame => Some frame
    | None => previous
    end.
Proof.
  unfold lastValid. revert previous.
  induction frames as [| frame frames IH]; intros previous; [reflexivity |].
  cbn [fold_left List.filter]. rewrite IH.
  destruct (validFrame frame); [| reflexivity].
  rewrite last_cons. destruct (last (List.filter validFrame frames)); reflexivity.
Qed.

(** X15: what one call of [processJpegBuffer] amounts to.  With the frames
    that the loop cuts out of the buffer, in order: the call returns, every
    frame that passes the size test is counted and written to every
    subscriber, in order, and the frame stored for [/frame/:serial] is the
    last one that passed (the one stored before when none did). *)
Theorem processJpegBuffer_by_frames (serial : string) (sd : StreamData) (e : Env) :
  let frames := (extractFrames (S (length (buffer sd))) (buffer sd)).1 in
  let valid := List.filter validFrame frames in
  exists sd' e',
    processJpegBuffer serial sd e = Some (sd', e')
    /\ buffer sd' = (extractFrames (S (length (buffer sd))) (buffer sd)).2
    /\ frameCount sd' = frameCount sd + Z.of_nat (length valid)
    /\ lastFrame sd' = match last valid with
                       | Some frame => Some frame
                       | None => lastFrame sd
                       end
    /\ frameEndpoint {[serial := sd']} serial = lastFrame sd'
    /\ delivered e' = (delivered e ++ deliveries (clients sd) valid)%list.
Proof.
  intros frames valid.
  destruct (processJpegBuffer_total serial sd e) as [[sd' e'] Hrun].
  exists sd', e'. split; [exact Hrun |].
  unfold processJpegBuffer in Hrun.
  destruct (jpegLoop_summary _ _ _ _ _ _ Hrun) as (Hb & Hc & Hl).
  destruct (jpegLoop_delivered _ _ _ _ _ _ Hrun) as (_ & Hd).
  split; [exact Hb |]. split; [exact Hc |].
  split; [rewrite Hl; apply lastValid_last |].
  split; [unfold frameEndpoint; rewrite lookup_singleton_eq; reflexivity | exact Hd].
Qed.

Lemma withBuffer_same (sd : StreamData) : withBuffer sd (buffer sd) = sd.
Proof. destruct sd; reflexivity. Qed.

Lemma jpegLoop_waiting fuel serial sd e :
  waiting (buffer sd) -> jpegLoop (S fuel) serial sd e = Some (sd, e).
Proof.
  intros [Hempty | [Hs He]]; cbn [jpegLoop].
  - rewrite Hempty. cbn. rewrite <- Hempty. rewrite withBuffer_same. reflexivity.
  - rewrite Hs. cbn [Nat.ltb Nat.leb]. rewrite He, withBuffer_same. reflexivity.
Qed.

(** X16: the frames and what stays behind.  Every frame that the loop cuts
    out starts with the start marker and ends with the first end marker
    found from offset 2 on; the buffer left behind is empty or an incomplete
    frame from its start marker on, so a second call without new data does
    nothing: no frame is delivered or counted twice. *)
Theorem processJpegBuffer_settles (serial : string) (sd : StreamData) (e : Env) :
  exists sd' e',
    processJpegBuffer serial sd e = Some (sd', e')
    /\ Forall delimited (extractFrames (S (length (buffer sd))) (buffer sd)).1
    /\ waiting (buffer sd')
    /\ processJpegBuffer serial sd' e' = Some (sd', e').
Proof.
  destruct (processJpegBuffer_total serial sd e) as [[sd' e'] Hrun].
  exists sd', e'. split; [exact Hrun |].
  unfold processJpegBuffer in Hrun.
  destruct (jpegLoop_summary _ _ _ _ _ _ Hrun) as (Hb & _).
  destruct (extractFrames_delimited (S (length (buffer sd))) (buffer sd)) as [Hf Hw]; [lia |].
  rewrite <- Hb in Hw.
  split; [exact Hf |]. split; [exact Hw |].
  apply jpegLoop_waiting. exact Hw.
Qed.

(** ** The throttle of the upstream events *)

Lemma spaced_cons_app (last t : Z) (stamps : list Z) :
  200 <= t - last -> spaced t stamps -> spaced last (t :: stamps).
Proof. intros; split; assumption. Qed.

Lemma jpegLoop_spaced fuel serial : forall sd e sd' e',
  jpegLoop fuel serial sd e = Some (sd', e') ->
  exists events,
    upstream e' = (upstream e ++ events)%list
    /\ spaced (lastSendTime sd) (map eventStamp events)
    /\ lastSendTime sd' = List.last (map eventStamp events) (lastSendTime sd).
Proof.
  induction fuel as [| fuel IH]; intros sd e sd' e' Hrun; [discriminate |].
  cbn [jpegLoop] in Hrun.
  destruct (indexOfStart (buffer sd)) as [startIdx |].
  - rewrite skipn_start in Hrun.
    destruct (indexOfEnd (skipn startIdx (buffer sd)) 2) as [endIdx |].
    + set (buf := skipn startIdx (buffer sd)) in *.
      set (frame := firstn (endIdx + 2) buf) in *.
      destruct (100 <? Z.of_nat (length frame))%Z eqn:Hsize.
      * rewrite (acceptJpeg_eq serial frame _ e Hsize) in Hrun. cbv zeta in Hrun.
        destruct (logged_env (Z.rem (frameCount (withBuffer sd (skipn (endIdx + 2) buf)) + 1) 10
                              =? 1)%Z e) as (_ & _ & Lu & _).
        cbv zeta in Lu.
        set (e1 := if (Z.rem (frameCount (withBuffer sd (skipn (endIdx + 2) buf)) + 1) 10
                       =? 1)%Z then sendLog (dateNow e).2 else (dateNow e).2) in *.
        set (now := clock e1 (ticks e1)) in *.
        cbn [lastSendTime withBuffer clients] in Hrun.
        destruct (apiConnected e1 && (200 <=? now - lastSendTime sd)%Z)%bool eqn:Hsend;
          destruct (IH _ _ _ _ Hrun) as (events & Hu & Hs & Hl);
          cbn [lastSendTime upstream emitFrame sendToClients dateNow snd] in Hu, Hs, Hl;
          rewrite Lu in Hu.
        -- apply andb_true_iff in Hsend as [_ Hgap]. apply Z.leb_le in Hgap.
           exists ((serial, frame, now) :: events).
           split; [rewrite Hu, <- app_assoc; reflexivity |].
           cbn [map eventStamp snd]. split; [split; assumption |].
           rewrite last_cons_default. exact Hl.
        -- exists events. auto.
      * unfold acceptJpeg in Hrun. rewrite Hsize in Hrun.
        destruct (IH _ _ _ _ Hrun) as (events & Hu & Hs & Hl). exists events. auto.
    + inversion Hrun; subst. exists []. cbn. rewrite app_nil_r. auto.
  - inversion Hrun; subst. exists []. cbn. rewrite app_nil_r. auto.
Qed.

Lemma rtspLoop_spaced fuel serial : forall rd streams e rd' streams' e',
  rtspLoop fuel serial rd streams e = Some (rd', streams', e') ->
  exists events,
    upstream e' = (upstream e ++ events)%list
    /\ spaced (rLastSendTime rd) (map eventStamp events)
    /\ (apiConnected e = true ->
        rLastSendTime rd' = List.last (map eventStamp events) (rLastSendTime rd))
    /\ (apiConnected e = false -> events = []).
Proof.
  induction fuel as [| fuel IH]; intros rd streams e rd' streams' e' Hrun; [discriminate |].
  cbn [rtspLoop] in Hrun.
  destruct (indexOfStart (rBuffer rd)) as [startIdx |].
  - rewrite skipn_start in Hrun.
    destruct (indexOfEnd (skipn startIdx (rBuffer rd)) 2) as [endIdx |].
    + set (buf := skipn startIdx (rBuffer rd)) in *.
      set (frame := firstn (endIdx + 2) buf) in *.
      unfold acceptRtsp in Hrun.
      destruct (100 <? Z.of_nat (length frame))%Z.
      * cbn [dateNow fst snd rLastSendTime withRBuffer clock ticks] in Hrun.
        destruct (Z.ltb_spec (clock e (S (ticks e)) - rLastSendTime rd) 200) as [Hgap | Hgap].
        -- destruct (IH _ _ _ _ _ _ Hrun) as (events & Hu & Hs & Hl & Hn).
           cbn [rLastSendTime upstream apiConnected] in Hu, Hs, Hl, Hn.
           exists events. auto.
        -- cbn [apiConnected sendToClients] in Hrun.
           destruct (apiConnected e) eqn:Hconn;
             match type of Hrun with
             | rtspLoop _ _ _ _ (if ?c then sendLog ?base else _) = _ =>
                 assert (Henv : apiConnected (if c then sendLog base else base)
                                = apiConnected base
                                /\ upstream (if c then sendLog base else base) = upstream base)
                   by (destruct c;
                       [destruct (sendLog_env base) as (_ & Sa & Su & _); auto | auto])
             end;
             destruct Henv as [Ha2 Hu2];
             destruct (IH _ _ _ _ _ _ Hrun) as (events & Hu & Hs & Hl & Hn);
             rewrite Ha2 in Hl, Hn; rewrite Hu2 in Hu;
             cbn [rLastSendTime upstream apiConnected emitFrame sendToClients] in Hu, Hs, Hl, Hn.
           ++ exists ((serial, frame, clock e (S (ticks e))) :: events).
              split; [rewrite Hu, <- app_assoc; reflexivity |].
              cbn [map eventStamp snd]. split; [split; [lia | exact Hs] |].
              split; [| discriminate].
              intros _. rewrite last_cons_default. apply Hl. reflexivity.
           ++ specialize (Hn eq_refl). subst events.
              exists []. split; [exact Hu |]. split; [exact I |].
              split; [discriminate | reflexivity].
      * destruct (IH _ _ _ _ _ _ Hrun) as (events & Hu & Hs & Hl & Hn). exists events. auto.
    + inversion Hrun; subst. exists []. cbn. rewrite app_nil_r. auto.
  - inversion Hrun; subst. exists []. cbn. rewrite app_nil_r. auto.
Qed.

(** X17: the throttle.  Whatever bytes arrive and however the clock runs, the
    [bridge:frame] events that one call of either extractor emits carry
    time stamps at least 200 ms apart, the first of them at least 200 ms
    after the last event sent before the call; the call leaves the stamp of
    its last event as the new throttle state. *)
Theorem upstream_events_spaced (serial : string) (sd : StreamData) (rd : RelayData)
  (streams : gmap string StreamData) (e : Env) :
  (exists sd' e' events,
      processJpegBuffer serial sd e = Some (sd', e')
      /\ upstream e' = (upstream e ++ events)%list
      /\ spaced (lastSendTime sd) (map eventStamp events)
      /\ lastSendTime sd' = List.last (map eventStamp events) (lastSendTime sd))
  /\ (exists rd' streams' e' events,
        processRtspFrameBuffer serial rd streams e = Some (rd', streams', e')
        /\ upstream e' = (upstream e ++ events)%list
        /\ spaced (rLastSendTime rd) (map eventStamp events)
        /\ (apiConnected e = true ->
            rLastSendTime rd' = List.last (map eventStamp events) (rLastSendTime rd))).
Proof.
  split.
  - destruct (processJpegBuffer_total serial sd e) as [[sd' e'] Hrun].
    destruct (jpegLoop_spaced _ _ _ _ _ _ Hrun) as (events & Hu & Hs & Hl).
    exists sd', e', events. auto.
  - destruct (processRtspFrameBuffer_total serial rd streams e) as [[[rd' streams'] e'] Hrun].
    destruct (rtspLoop_spaced _ _ _ _ _ _ _ _ Hrun) as (events & Hu & Hs & Hl & _).
    exists rd', streams', e', events. auto.
Qed.

(** ** Frames that arrive in pieces *)

Lemma indexOf2_cons_ne a b x rest :
  x <> a -> indexOf2 a b rest = None -> indexOf2 a b (x :: rest) = None.
Proof.
  intros Hx Hr. destruct rest as [| y rest]; [reflexivity |].
  rewrite indexOf2_step, (byte_eqb_neq x a Hx), Hr. reflexivity.
Qed.

Lemma frame_end_located (body : list byte) :
  markerFree body = true ->
  indexOf2 xff xd9 (body ++ JPEG_END) = Some (length body).
Proof.
  intros Hbody. apply indexOf2_at_marker; [discriminate |].
  apply markerFree_end. exact Hbody.
Qed.

(** X18: a frame that arrives in two chunks.  Cut anywhere after its start
    marker, a frame is put together again: the first chunk delivers nothing
    and stays in the buffer, and the second chunk gives exactly what the
    whole frame in one chunk gives. *)
Theorem frame_in_two_chunks (serial : string) (sd : StreamData) (e : Env)
  (body : list byte) (k : nat) :
  markerFree body = true ->
  buffer sd = [] ->
  let frame := (JPEG_START ++ body ++ JPEG_END)%list in
  (2 <= k < length frame)%nat ->
  onJpegData serial (take k frame) sd e = Some (withBuffer sd (take k frame), e)
  /\ onJpegData serial (drop k frame) (withBuffer sd (take k frame)) e
     = onJpegData serial frame sd e
  /\ onJpegData serial frame sd e
     = Some (withBuffer (acceptJpeg serial frame (withBuffer sd []) e).1 [],
             (acceptJpeg serial frame (withBuffer sd []) e).2).
Proof.
  intros Hbody Hbuf frame Hk.
  split; [| split].
  - unfold onJpegData, processJpegBuffer. rewrite Hbuf, app_nil_l.
    cbn [buffer withBuffer jpegLoop].
    destruct k as [| [| k]]; [lia | lia |].
    assert (Hlen : (k < length body + 2)%nat).
    { subst frame. unfold JPEG_START, JPEG_END in Hk.
      rewrite !length_app in Hk. cbn [length] in Hk. lia. }
    subst frame. unfold JPEG_START. cbn [app take].
    unfold indexOfStart. cbn [indexOf2 Byte.eqb]. cbn.
    unfold indexOfEnd, indexOfFrom. cbn [skipn]. rewrite drop_0.
    rewrite (indexOf2_take _ _ _ _ k (frame_end_located body Hbody)).
    destruct (Nat.leb_spec (length body + 2) k); [lia |].
    reflexivity.
  - unfold onJpegData. cbn [buffer withBuffer]. rewrite take_drop, Hbuf. reflexivity.
  - unfold onJpegData. rewrite Hbuf, app_nil_l.
    apply (processJpegBuffer_frame serial (withBuffer sd frame) e [] body []);
      [reflexivity | exact Hbody | reflexivity |].
    cbn [buffer withBuffer]. subst frame. rewrite app_nil_r. reflexivity.
Qed.

(** X19: a start marker that straddles two chunks is not found.  When a chunk
    without a start marker ends with the byte FF, the buffer is emptied all
    the same; the next chunk then starts with D8, holds no start marker
    either, and the frame it carries is dropped: nothing is stored,
    counted or delivered, and the buffer is empty again. *)
Theorem split_start_marker_drops_frame (serial : string) (sd : StreamData) (e : Env)
  (g body : list byte) :
  indexOf2 xff xd8 g = None ->
  markerFree body = true ->
  buffer sd = [] ->
  onJpegData serial (g ++ [xff]) sd e = Some (withBuffer sd [], e)
  /\ onJpegData serial (xd8 :: body ++ JPEG_END) (withBuffer sd []) e
     = Some (withBuffer sd [], e).
Proof.
  intros Hg Hbody Hbuf. split.
  - unfold onJpegData, processJpegBuffer. rewrite Hbuf, app_nil_l.
    cbn [buffer withBuffer jpegLoop]. unfold indexOfStart.
    rewrite (indexOf2_snoc_none xff xd8 g xff); [reflexivity | discriminate | exact Hg].
  - unfold onJpegData, processJpegBuffer.
    cbn [buffer withBuffer jpegLoop app]. unfold indexOfStart.
    rewrite indexOf2_cons_ne; [reflexivity | discriminate |].
    unfold JPEG_END.
    change (body ++ [xff; xd9])%list with (body ++ [xff] ++ [xd9])%list.
    rewrite app_assoc.
    apply indexOf2_snoc_none; [discriminate |].
    apply indexOf2_snoc_none; [discriminate |].
    apply markerFree_start. exact Hbody.
Qed.

(** ** The auth packet *)

(** A copy onto a field that starts where [pre] ends: the field holds the
    source, cut to the length of the field or followed by what the field
    held beyond it. *)
Lemma bufferCopy_field (src pre field : list byte) (start : nat) :
  length pre = start ->
  bufferCopy src start (pre ++ field)
  = (pre ++ take (length field) (src ++ drop (length src) field))%list.
Proof.
  intros <-. unfold bufferCopy.
  rewrite length_app.
  replace (length pre + length field - length pre)%nat with (length field) by lia.
  rewrite take_app_length.
  rewrite drop_app_ge by lia.
  f_equal.
  destruct (Nat.le_ge_cases (length src) (length field)) as [Hle | Hge].
  - rewrite Nat.min_l by exact Hle.
    replace (length pre + length src - length pre)%nat with (length src) by lia.
    rewrite firstn_all. rewrite take_ge; [reflexivity |].
    rewrite length_app, length_drop. lia.
  - rewrite Nat.min_r by exact Hge.
    replace (length pre + length field - length pre)%nat with (length field) by lia.
    rewrite take_app_le by exact Hge.
    rewrite drop_all, app_nil_r. reflexivity.
Qed.

(** X20: the auth packet of the Direct socket.  For every access code the
    packet is 80 bytes long; its first 48 bytes are the little-endian words
    0x40, 0x3000, 0, 0 and the user name [bblp] padded with zeros to 32
    bytes; its last 32 bytes are the bytes of the access code, cut after 32
    bytes or padded with zeros to 32 bytes. *)
Theorem authPacket_layout (accessCode : string) :
  length (authPacket accessCode) = 80%nat
  /\ take 48 (authPacket accessCode)
     = ([x40; x00; x00; x00; x00; x30; x00; x00] ++ replicate 8 x00
        ++ [x62; x62; x6c; x70] ++ replicate 28 x00)%list
  /\ drop 48 (authPacket accessCode)
     = take 32 (bufferFrom accessCode ++ replicate 32 x00).
Proof.
  unfold authPacket.
  set (code := bufferFrom accessCode).
  set (header := ([x40; x00; x00; x00; x00; x30; x00; x00] ++ replicate 8 x00
                  ++ [x62; x62; x6c; x70] ++ replicate 28 x00)%list).
  assert (Hp5 : bufferCopy (bufferFrom "bblp") 16
                  (writeUInt32LE 0 12 (writeUInt32LE 0 8 (writeUInt32LE 12288 4
                     (writeUInt32LE 64 0 (bufferAlloc 80)))))
                = (header ++ replicate 32 x00)%list) by reflexivity.
  cbv zeta. rewrite Hp5. clear Hp5.
  assert (Hh : length header = 48%nat) by reflexivity.
  rewrite (bufferCopy_field code header (replicate 32 x00) 48 Hh).
  rewrite length_replicate, drop_replicate.
  set (field := take 32 (code ++ replicate (32 - length code) x00)).
  assert (Hfield : field = take 32 (code ++ replicate 32 x00)).
  { subst field. rewrite !take_app, !take_replicate. f_equal. f_equal. lia. }
  assert (Hlen : length field = 32%nat).
  { subst field. rewrite length_take, length_app, length_replicate. lia. }
  split; [| split].
  - rewrite length_app, Hh, Hlen. reflexivity.
  - apply take_app_length'. symmetry. exact Hh.
  - rewrite drop_app_length' by (symmetry; exact Hh). exact Hfield.
Qed.

(** ** The retry policy of the camera connections *)

(** Closes a comparison of two given rationals. *)
Ltac q_le := unfold Qle, Qlt; vm_compute; first [reflexivity | intros Hc; discriminate Hc].

Lemma cameraBackoff_small (n : Z) :
  0 <= n <= 4 ->
  (cameraBackoff n == 5000 * (3 # 2) ^ n)%Q
  /\ (5000 <= cameraBackoff n)%Q /\ (cameraBackoff n < 30000)%Q.
Proof.
  intros Hn.
  assert (Hcases : n = 0 \/ n = 1 \/ n = 2 \/ n = 3 \/ n = 4) by lia.
  destruct Hcases as [-> | [-> | [-> | [-> | ->]]]];
    (split; [reflexivity | split; q_le]).
Qed.

Lemma cameraBackoff_cap (n : Z) : 5 <= n -> (cameraBackoff n == 30000)%Q.
Proof.
  intros Hn. unfold cameraBackoff. apply Q.min_r.
  apply Qle_trans with (5000 * (3 # 2) ^ 5)%Q; [q_le |].
  apply Qmult_le_l; [q_le |].
  apply Qpower_le_compat_l; [exact Hn | q_le].
Qed.

(** X21: the retry delay of the Direct socket.  After [failures] earlier
    consecutive failures the ['close'] handler of an active session counts
    one more and schedules the reconnect after 5000 ms times 1.5 to the
    power [failures], that is 5, 7.5, 11.25, 16.875 and 25.3125 s, and after
    30 s from the sixth failure on; the delay never leaves the range from 5 s
    to 30 s. *)
Theorem direct_reconnect_delay (failures : Z) :
  0 <= failures ->
  exists delay,
    onJpegClose true failures = (failures + 1, Some delay)
    /\ (delay == if (failures <=? 4)%Z then 5000 * (3 # 2) ^ failures else 30000)%Q
    /\ (5000 <= delay)%Q /\ (delay <= 30000)%Q.
Proof.
  intros Hf. unfold onJpegClose. eexists. split; [reflexivity |].
  replace (failures + 1 - 1) with failures by lia.
  destruct (Z.leb_spec failures 4) as [Hsmall | Hlarge].
  - rewrite Z.min_l by lia.
    destruct (cameraBackoff_small failures) as (Heq & Hlo & Hhi); [lia |].
    split; [exact Heq |]. split; [exact Hlo | apply Qlt_le_weak; exact Hhi].
  - assert (Hcap : (cameraBackoff (Z.min failures 6) == 30000)%Q)
      by (apply cameraBackoff_cap; lia).
    split; [exact Hcap |]. rewrite Hcap. split; q_le.
Qed.

Lemma relayRun_app (active : bool) (events1 events2 : list RelayEvent) :
  forall attempts,
    relayRun active (events1 ++ events2) attempts
    = (let '(attempts1, actions1) := relayRun active events1 attempts in
       let '(attempts2, actions2) := relayRun active events2 attempts1 in
       (attempts2, (actions1 ++ actions2)%list)).
Proof.
  induction events1 as [| event rest IH]; intros attempts; cbn [app relayRun].
  - destruct (relayRun active events2 attempts); reflexivity.
  - destruct (onRelayEvent active event attempts) as [attempts1 action].
    rewrite IH. destruct (relayRun active rest attempts1) as [attempts2 actions1].
    destruct (relayRun active events2 attempts2); reflexivity.
Qed.

(** Five responses in a row with a status other than 200, from a counter
    of 0. *)
Lemma relayRun_refused (statusCode : Z) :
  statusCode <> 200 ->
  relayRun true (replicate 5 (Response statusCode)) 0
  = (0, [RetryAfter (cameraBackoff 1); RetryAfter (cameraBackoff 2);
         RetryAfter (cameraBackoff 3); RetryAfter (cameraBackoff 4); RestartGo2rtc 1000]).
Proof.
  intros Hs. apply Z.eqb_neq in Hs.
  unfold replicate, relayRun, onRelayEvent. rewrite Hs. reflexivity.
Qed.

(** X22: the retry policy of the Relay connection, over the events of a
    session that stays active.  Five responses in a row with a status other
    than 200, counted from 0, schedule a reconnect after 7.5, 11.25, 16.875
    and 25.3125 s (the delay is computed from the incremented counter, so
    neither 5 s nor the cap of 30 s occurs) and then, instead of a fifth
    reconnect, a restart of go2rtc after 1 s with the counter back at 0, so
    that any number of such rounds repeats the same five actions.  Every
    response with status 200 sets the counter to 0: a stream that connects
    and ends, however often in a row and whatever the counter was before,
    is reconnected after 7.5 s each time and never restarts go2rtc.  Request
    errors never restart go2rtc: each counts one more and retries after
    5000 ms times 1.5 to the power of the counter before it, capped at
    30 s. *)
Theorem relay_retry_policy :
  (forall statusCode (rounds : nat), statusCode <> 200 ->
     relayRun true (List.concat (replicate rounds (replicate 5 (Response statusCode)))) 0
     = (0, List.concat
             (replicate rounds
                [RetryAfter (cameraBackoff 1); RetryAfter (cameraBackoff 2);
                 RetryAfter (cameraBackoff 3); RetryAfter (cameraBackoff 4);
                 RestartGo2rtc 1000])))
  /\ ((cameraBackoff 1 == 7500)%Q /\ (cameraBackoff 2 == 11250)%Q
      /\ (cameraBackoff 3 == 16875)%Q /\ (cameraBackoff 4 == 50625 # 2)%Q)
  /\ (forall attempts (n : nat),
        relayRun true (List.concat (replicate n [Response 200; StreamEnd])) attempts
        = (match n with O => attempts | S _ => 1 end,
           List.concat (replicate n [NoAction; RetryAfter (cameraBackoff 1)])))
  /\ (forall attempts (n : nat),
        relayRun true (replicate n RequestError) attempts
        = (attempts + Z.of_nat n,
           map (fun i => RetryAfter (cameraBackoff (attempts + Z.of_nat i))) (seq 0 n)))
  /\ (forall k, 0 <= k ->
        (cameraBackoff k == if (k <=? 4)%Z then 5000 * (3 # 2) ^ k else 30000)%Q).
Proof.
  split; [| split; [| split; [| split]]].
  - intros statusCode rounds Hs.
    induction rounds as [| rounds IH]; [reflexivity |].
    change (List.concat (replicate (S rounds) (replicate 5 (Response statusCode))))
      with (replicate 5 (Response statusCode)
              ++ List.concat (replicate rounds (replicate 5 (Response statusCode))))%list.
    rewrite relayRun_app, (relayRun_refused statusCode Hs), IH. reflexivity.
  - repeat split; reflexivity.
  - intros attempts n. revert attempts.
    induction n as [| n IH]; intros attempts; [reflexivity |].
    cbn [replicate List.concat app relayRun onRelayEvent] in *.
    change (200 =? 200)%Z with true. cbv iota.
    unfold onRelayLost at 1. change (5 <=? 0 + 1)%Z with false. cbv iota.
    rewrite IH. destruct n; reflexivity.
  - intros attempts n. revert attempts.
    induction n as [| n IH]; intros attempts.
    + cbn. rewrite Z.add_0_r. reflexivity.
    + cbn [replicate relayRun onRelayEvent]. unfold onRelayError at 1.
      rewrite IH. f_equal; [lia |].
      cbn [seq map]. f_equal; [do 2 f_equal; cbn; lia |].
      rewrite <- seq_shift, map_map. apply map_ext. intros i. do 2 f_equal. lia.
  - intros k Hk. destruct (Z.leb_spec k 4) as [Hsmall | Hlarge].
    + apply cameraBackoff_small. lia.
    + apply cameraBackoff_cap. lia.
Qed.

(** ** Worked inputs *)

(** The frame of 104 bytes in chunks of 50 and 54 bytes. *)
Lemma frame_in_two_chunks_witness :
  markerFree (repeat x41 100) = true
  /\ onJpegData "S" (take 50 frameA) (stream0 []) env0
     = Some (stream0 (take 50 frameA), env0)
  /\ (exists sd' e',
        onJpegData "S" (drop 50 frameA) (stream0 (take 50 frameA)) env0 = Some (sd', e')
        /\ lastFrame sd' = Some frameA /\ delivered e' = [(7%nat, frameA)]).
Proof.
  split; [reflexivity |].
  destruct (frame_in_two_chunks "S" (stream0 []) env0 (repeat x41 100) 50
              eq_refl eq_refl) as (A & B & C).
  - cbn. lia.
  - split; [exact A |].
    eexists _, _. split; [| split].
    + exact (eq_trans B C).
    + reflexivity.
    + reflexivity.
Defined.

(** The same frame after two bytes of garbage, cut inside its start
    marker. *)
Lemma split_start_marker_drops_frame_witness :
  indexOf2 xff xd8 [x00; x11] = None
  /\ markerFree (repeat x41 100) = true
  /\ onJpegData "S" [x00; x11; xff] (stream0 []) env0 = Some (stream0 [], env0)
  /\ onJpegData "S" (xd8 :: repeat x41 100 ++ JPEG_END) (stream0 []) env0
     = Some (stream0 [], env0).
Proof.
  split; [reflexivity |]. split; [reflexivity |].
  exact (split_start_marker_drops_frame "S" (stream0 []) env0 [x00; x11] (repeat x41 100)
           eq_refl eq_refl eq_refl).
Defined.

(** The third failure in a row. *)
Lemma direct_reconnect_delay_witness :
  exists delay, onJpegClose true 2 = (3, Some delay) /\ (delay == 11250)%Q.
Proof.
  destruct (direct_reconnect_delay 2) as (delay & Hrun & Heq & _); [lia |].
  exists delay. split; [exact Hrun |]. rewrite Heq. reflexivity.
Defined.

(** go2rtc answers five times in a row with status 503: the fifth answer
    restarts go2rtc. *)
Lemma relay_retry_policy_witness :
  503 <> 200
  /\ relayRun true (replicate 5 (Response 503)) 0
     = (0, [RetryAfter (cameraBackoff 1); RetryAfter (cameraBackoff 2);
            RetryAfter (cameraBackoff 3); RetryAfter (cameraBackoff 4); RestartGo2rtc 1000])
  /\ (cameraBackoff 4 == 50625 # 2)%Q.
Proof.
  assert (Hs : 503 <> 200) by (intros Hc; discriminate Hc).
  destruct relay_retry_policy as (Hrounds & (_ & _ & _ & Hfourth) & _).
  split; [exact Hs |]. split; [| exact Hfourth].
  exact (Hrounds 503 1%nat Hs).
Defined.

End CameraProps.
(* ===================================================================== *)
(** * Direct sessions: what stop and the watchdog leave behind            *)
(* ===================================================================== *)

Module DirectProps.
Import Camera DirectSession.

(** X25: [stopJpegStream] is final.  After it the serial has no session and
    the socket of the stopped session is destroyed; and in every state in
    which the serial has no session (no new one was started), the events
    that are still to come for that serial open no socket and schedule
    nothing: the ['close'] event of a socket only clears the socket
    reference, a pending reconnect timer expires without connecting, and a
    watchdog only clears its interval. *)
Theorem stopJpegStream_is_final (serial : string) (s : State) :
  let stopped := stopJpegStream serial s in
  jpegStreams stopped !! serial = None
  /\ (forall session o k sock,
        jpegStreams s !! serial = Some session -> objects s !! session = Some o ->
        socket o = Some k -> sockets stopped !! k = Some sock -> destroyed sock = true)
  /\ forall s', jpegStreams s' !! serial = None ->
       (forall k sock, sockets s' !! k = Some sock -> ofSerial sock = serial ->
          sockets (onSocketClose k s') = delete k (sockets s')
          /\ timeouts (onSocketClose k s') = timeouts s'
          /\ jpegStreams (onSocketClose k s') = jpegStreams s')
       /\ (forall t session delay now,
             timeouts s' !! t = Some (ReconnectCallback serial session delay) ->
             sockets (fireTimeout t now s') = sockets s'
             /\ timeouts (fireTimeout t now s') = delete t (timeouts s')
             /\ jpegStreams (fireTimeout t now s') = jpegStreams s')
       /\ (forall w session now later,
             intervals s' !! w = Some (WatchdogCallback serial session) ->
             sockets (watchdogTick w now later s') = sockets s'
             /\ timeouts (watchdogTick w now later s') = timeouts s'
             /\ jpegStreams (watchdogTick w now later s') = jpegStreams s').
Proof.
  intros stopped. split; [| split].
  - subst stopped. unfold stopJpegStream.
    destruct (jpegStreams s !! serial) as [session |] eqn:Es; [| exact Es].
    destruct (objects s !! session) as [o |]; cbn; apply lookup_delete_eq.
  - intros session o k sock Hs Ho Hk. subst stopped. unfold stopJpegStream.
    rewrite Hs, Ho, Hk. unfold destroy.
    destruct (watchdogTimer o); cbn [sockets withStreams withObjects withIntervals];
      (destruct (sockets s !! k) as [sock0 |] eqn:Ek;
       [ cbn [sockets withStreams withSockets]; rewrite lookup_insert_eq;
         intros E; inversion E; reflexivity
       | cbn [sockets withStreams withObjects withIntervals]; rewrite Ek; discriminate ]).
  - intros s' Hnone. split; [| split].
    + intros k sock Hk Hserial. unfold onSocketClose. rewrite Hk, Hserial.
      cbn [objects jpegStreams withSockets]. rewrite Hnone.
      destruct (objects s' !! ofSession sock); cbn; auto.
    + intros t session delay now Ht. unfold fireTimeout. rewrite Ht.
      cbn [jpegStreams withTimeouts]. rewrite Hnone. cbn. auto.
    + intros w session now later Hw. unfold watchdogTick. rewrite Hw.
      destruct (objects s' !! session) as [o |]; [| auto].
      rewrite Hnone. destruct (watchdogTimer o); cbn; auto.
Qed.

(** X26: the watchdog reconnect and the socket it replaces.  When the
    watchdog finds an active session silent for more than 60 s, it destroys
    the socket and opens a new one at once.  The ['close'] event of the
    destroyed socket then clears the socket reference of the session,
    although it refers to the new socket, and schedules a reconnect after
    5 s; when that timer expires a second socket is opened for the same
    session object, while the socket opened by the watchdog is still open:
    two sockets feed the buffer of one session. *)
Theorem watchdog_reconnect_leaves_two_sockets (serial : string) (session w k : nat)
  (o : Session) (now later expiry : Z) (s : State) :
  intervals s !! w = Some (WatchdogCallback serial session) ->
  jpegStreams s !! serial = Some session ->
  objects s !! session = Some o ->
  socket o = Some k ->
  sockets s !! k = Some {| ofSerial := serial; ofSession := session; destroyed := false |} ->
  (k < nextId s)%nat ->
  0 < lastFrameTime (frames o) ->
  60000 < now - lastFrameTime (frames o) ->
  let n := nextId s in
  let replaced := watchdogTick w now later s in
  let closed := onSocketClose k replaced in
  let again := fireTimeout (S n) expiry closed in
  openSocket replaced n serial session
  /\ socket <$> (objects replaced !! session) = Some (Some n)
  /\ socket <$> (objects closed !! session) = Some None
  /\ (exists delay, timeouts closed !! S n = Some (ReconnectCallback serial session delay)
                    /\ (delay == 5000)%Q)
  /\ openSocket closed n serial session
  /\ openSocket again n serial session
  /\ openSocket again (S (S n)) serial session
  /\ socket <$> (objects again !! session) = Some (Some (S (S n))).
Proof.
  intros Hw Hs Ho Hsock Hk Hfresh Hlast Hsilent n replaced closed again.
  set (open := {| ofSerial := serial; ofSession := session; destroyed := false |}) in *.
  set (o1 := {| frames := withBuffer (frames o) []; socket := Some n; reconnectAttempts := 0;
                connectTime := Some later; receivedData := Some false;
                watchdogTimer := watchdogTimer o |}).
  assert (R : sockets replaced
              = <[n := open]> (<[k := {| ofSerial := serial; ofSession := session;
                                         destroyed := true |}]> (sockets s))
              /\ objects replaced !! session = Some o1
              /\ jpegStreams replaced = jpegStreams s
              /\ timeouts replaced = timeouts s
              /\ nextId replaced = S n).
  { subst replaced. unfold watchdogTick. rewrite Hw, Ho, Hs.
    destruct (Z.ltb_spec 0 (lastFrameTime (frames o))) as [_ | ?]; [| lia].
    destruct (Z.ltb_spec 60000 (now - lastFrameTime (frames o))) as [_ | ?]; [| lia].
    rewrite Hsock. cbn [andb bool_decide decide_rel].
    rewrite bool_decide_eq_true_2 by (eexists; reflexivity).
    unfold watchdogReconnect. rewrite Hsock. unfold destroy. rewrite Hk.
    unfold connectJpegStream. cbn [objects withObjects withSockets].
    rewrite lookup_insert_eq. cbn. rewrite lookup_insert_eq.
    repeat split; reflexivity. }
  destruct R as (Rsock & Robj & Rstreams & Rtime & Rnext).
  assert (Hopen1 : openSocket replaced n serial session).
  { unfold openSocket. rewrite Rsock. apply lookup_insert_eq. }
  set (o2 := {| frames := frames o1; socket := None; reconnectAttempts := 1;
                connectTime := connectTime o1; receivedData := receivedData o1;
                watchdogTimer := watchdogTimer o1 |}).
  assert (C : sockets closed = delete k (sockets replaced)
              /\ objects closed !! session = Some o2
              /\ jpegStreams closed = jpegStreams s
              /\ timeouts closed
                 = <[S n := ReconnectCallback serial session (cameraBackoff (Z.min (0 + 1 - 1) 6))]>
                     (timeouts s)
              /\ nextId closed = S (S n)).
  { subst closed. unfold onSocketClose.
    assert (Hk1 : sockets replaced !! k = Some {| ofSerial := serial; ofSession := session;
                                                 destroyed := true |}).
    { rewrite Rsock. rewrite lookup_insert_ne by (subst n; lia). apply lookup_insert_eq. }
    rewrite Hk1. cbn [ofSerial ofSession objects jpegStreams withSockets].
    rewrite Robj, Rstreams, Hs.
    rewrite bool_decide_eq_true_2 by (eexists; reflexivity).
    unfold onJpegClose. cbn [reconnectAttempts o1].
    cbn. rewrite lookup_insert_eq, Rtime, Rnext, Rstreams. repeat split; reflexivity. }
  destruct C as (Csock & Cobj & Cstreams & Ctime & Cnext).
  assert (Hopen2 : openSocket closed n serial session).
  { unfold openSocket. rewrite Csock. rewrite lookup_delete_ne by (subst n; lia). exact Hopen1. }
  split; [exact Hopen1 |].
  split; [rewrite Robj; reflexivity |].
  split; [rewrite Cobj; reflexivity |].
  split; [eexists; split; [rewrite Ctime; apply lookup_insert_eq | reflexivity] |].
  split; [exact Hopen2 |].
  assert (A : sockets again = <[S (S n) := open]> (sockets closed)
              /\ socket <$> (objects again !! session) = Some (Some (S (S n)))).
  { subst again. unfold fireTimeout. rewrite Ctime, lookup_insert_eq.
    cbn [jpegStreams withTimeouts]. rewrite Cstreams, Hs.
    unfold connectJpegStream. cbn [objects withTimeouts]. rewrite Cobj.
    cbn. rewrite Cnext, lookup_insert_eq. split; reflexivity. }
  destruct A as (Asock & Aobj).
  split; [| split; [| exact Aobj]].
  - unfold openSocket. rewrite Asock. rewrite lookup_insert_ne by lia. exact Hopen2.
  - unfold openSocket. rewrite Asock. apply lookup_insert_eq.
Qed.

(** X27: a reconnect timer that outlives its session.  The timer checks
    that [jpegStreams] has the serial, not that it has its own session.  So
    when a session is stopped while its reconnect timer is pending and a new
    session is started for the same serial before the timer expires, the
    timer connects the stopped session object: a socket is opened whose
    data is processed for that serial, besides the socket of the new
    session, while [jpegStreams] holds the new session only. *)
Theorem stale_timer_connects_stopped_session (serial : string) (t old : nat)
  (delay : Q) (o : Session) (now expiry : Z) (s : State) :
  timeouts s !! t = Some (ReconnectCallback serial old delay) ->
  objects s !! old = Some o ->
  jpegStreams s !! serial = None ->
  (old < nextId s)%nat ->
  let n := nextId s in
  let restarted := startJpegStream serial now s in
  let fired := fireTimeout t expiry restarted in
  jpegStreams fired !! serial = Some n
  /\ openSocket fired (S (S n)) serial n
  /\ openSocket fired (S (S (S n))) serial old
  /\ socket <$> (objects fired !! old) = Some (Some (S (S (S n)))).
Proof.
  intros Ht Ho Hnone Hold n restarted fired.
  assert (R : jpegStreams restarted = <[serial := n]> (jpegStreams s)
              /\ sockets restarted
                 = <[S (S n) := {| ofSerial := serial; ofSession := n; destroyed := false |}]>
                     (sockets s)
              /\ objects restarted !! old = Some o
              /\ timeouts restarted = timeouts s
              /\ nextId restarted = S (S (S n))).
  { subst restarted. unfold startJpegStream. rewrite Hnone.
    unfold connectJpegStream.
    cbn [objects withObjects withStreams withIntervals withNextId].
    rewrite lookup_insert_eq. cbn.
    rewrite !lookup_insert_ne by (subst n; lia). repeat split; try reflexivity. exact Ho. }
  destruct R as (Rstreams & Rsock & Robj & Rtime & Rnext).
  assert (F : jpegStreams fired = jpegStreams restarted
              /\ sockets fired
                 = <[S (S (S n)) := {| ofSerial := serial; ofSession := old;
                                       destroyed := false |}]> (sockets restarted)
              /\ socket <$> (objects fired !! old) = Some (Some (S (S (S n))))).
  { subst fired. unfold fireTimeout. rewrite Rtime, Ht.
    cbn [jpegStreams withTimeouts]. rewrite Rstreams, lookup_insert_eq.
    unfold connectJpegStream. cbn [objects withTimeouts]. rewrite Robj.
    cbn. rewrite Rnext, Rstreams, lookup_insert_eq. repeat split; reflexivity. }
  destruct F as (Fstreams & Fsock & Fobj).
  split; [rewrite Fstreams, Rstreams; apply lookup_insert_eq |].
  split; [| split; [| exact Fobj]].
  - unfold openSocket. rewrite Fsock, lookup_insert_ne by lia.
    rewrite Rsock. apply lookup_insert_eq.
  - unfold openSocket. rewrite Fsock. apply lookup_insert_eq.
Qed.

(** ** Worked inputs *)

Lemma watchdog_reconnect_leaves_two_sockets_witness :
  let replaced := watchdogTick 1 1700000060001 1700000060001 Examples.silentSession in
  let closed := onSocketClose 2 replaced in
  let again := fireTimeout 4 1700000065001 closed in
  openSocket again 3 "S" 0 /\ openSocket again 5 "S" 0.
Proof.
  intros replaced closed again.
  destruct (watchdog_reconnect_leaves_two_sockets "S" 0 1 2
              {| frames := {| buffer := []; lastFrame := Some Examples.frameA;
                              lastFrameTime := 1700000000000; frameCount := 1;
                              lastSendTime := 1700000000000; clients := [] |};
                 socket := Some 2%nat; reconnectAttempts := 0; connectTime := Some 1000;
                 receivedData := Some true; watchdogTimer := Some 1%nat |}
              1700000060001 1700000060001 1700000065001 Examples.silentSession)
    as (_ & _ & _ & _ & _ & A & B & _).
  - reflexivity.
  - reflexivity.
  - vm_compute. reflexivity.
  - reflexivity.
  - reflexivity.
  - vm_compute. lia.
  - cbn. lia.
  - cbn. lia.
  - split; [exact A | exact B].
Defined.

(** The socket of the session closes, the session is stopped while the
    reconnect timer 3 is pending, a new session is started and the timer
    expires. *)
Lemma stale_timer_connects_stopped_session_witness :
  let stopped := stopJpegStream "S" (onSocketClose 2 (startJpegStream "S" 1000 initial)) in
  let fired := fireTimeout 3 7000 (startJpegStream "S" 2000 stopped) in
  jpegStreams fired !! "S" = Some 4%nat
  /\ openSocket fired 6 "S" 4
  /\ openSocket fired 7 "S" 0.
Proof.
  intros stopped fired.
  destruct (stale_timer_connects_stopped_session "S" 3 0 (cameraBackoff (Z.min (0 + 1 - 1) 6))
              {| frames := emptyStream; socket := None; reconnectAttempts := 1;
                 connectTime := Some 1000; receivedData := Some false;
                 watchdogTimer := None |}
              2000 7000 stopped) as (A & B & C & _).
  - reflexivity.
  - reflexivity.
  - reflexivity.
  - vm_compute. lia.
  - split; [exact A |]. split; [exact B | exact C].
Defined.

End DirectProps.
(* ===================================================================== *)
(** * Stream manager: the capture path of a model                         *)
(* ===================================================================== *)

Module StreamProps.
Import Js StreamManager.

Lemma prefix_app (needle suffix hay : string) :
  String.prefix (needle ++ suffix) hay = true -> String.prefix needle hay = true.
Proof.
  revert hay. induction needle as [| c needle IH]; intros hay Hp; [destruct hay; reflexivity |].
  destruct hay as [| h hay]; [discriminate Hp |].
  change (String c needle ++ suffix) with (String c (needle ++ suffix)) in Hp.
  cbn [String.prefix] in *.
  destruct (ascii_dec c h); [apply IH; exact Hp | discriminate Hp].
Qed.

(** A string that contains a name contains every prefix of the name. *)
Lemma includes_app (hay needle suffix : string) :
  includes hay (needle ++ suffix) = true -> includes hay needle = true.
Proof.
  induction hay as [| h hay IH]; cbn [includes]; intros Hi.
  - destruct (String.prefix (needle ++ suffix) "") eqn:Ep; [| discriminate Hi].
    rewrite (prefix_app _ _ _ Ep). reflexivity.
  - destruct (String.prefix (needle ++ suffix) (String h hay)) eqn:Ep.
    + rewrite (prefix_app _ _ _ Ep). reflexivity.
    + destruct (String.prefix needle (String h hay)); [reflexivity | apply IH; exact Hi].
Qed.

Lemma includes_longer (hay needle suffix : string) :
  includes hay needle = false -> includes hay (needle ++ suffix) = false.
Proof.
  intros Hn. destruct (includes hay (needle ++ suffix)) eqn:E; [| reflexivity].
  rewrite (includes_app _ _ _ E) in Hn. discriminate Hn.
Qed.

Lemma upperAscii_idempotent (c : ascii) : upperAscii (upperAscii c) = upperAscii c.
Proof. destruct c as [[] [] [] [] [] [] [] []]; reflexivity. Qed.

Lemma toUpperCase_idempotent (s : string) : toUpperCase (toUpperCase s) = toUpperCase s.
Proof.
  induction s as [| c s IH]; [reflexivity |].
  cbn [toUpperCase]. rewrite upperAscii_idempotent, IH. reflexivity.
Qed.

Lemma toUpperCase_empty (s : string) : String.eqb (toUpperCase s) "" = String.eqb s "".
Proof. destruct s; reflexivity. Qed.

(** The group of a model name in terms of three names. *)
Lemma getStreamGroup_names (name : string) :
  getStreamGroup (JStr name)
  = Ok (if includes (toUpperCase name) "H2" || includes (toUpperCase name) "X1"
           || includes (toUpperCase name) "P2S"
        then 2 else 1).
Proof.
  unfold getStreamGroup. cbn [truthy].
  destruct (String.eqb_spec name "") as [-> | _]; [reflexivity |].
  cbn [negb]. f_equal. unfold STREAM_GROUP_2. cbn [existsb].
  set (M := toUpperCase name).
  pose proof (includes_longer M "H2" "D"
              : includes M "H2" = false -> includes M "H2D" = false) as HD.
  pose proof (includes_longer M "H2" "C"
              : includes M "H2" = false -> includes M "H2C" = false) as HC.
  pose proof (includes_longer M "H2" "S"
              : includes M "H2" = false -> includes M "H2S" = false) as HS.
  pose proof (includes_longer M "X1" "C"
              : includes M "X1" = false -> includes M "X1C" = false) as XC.
  pose proof (includes_longer M "X1" "E"
              : includes M "X1" = false -> includes M "X1E" = false) as XE.
  destruct (includes M "H2").
  - rewrite orb_true_r. reflexivity.
  - rewrite HD, HC, HS by reflexivity. cbn [orb].
    destruct (includes M "X1"); [reflexivity |].
    rewrite XC, XE by reflexivity. cbn [orb]. rewrite orb_false_r. reflexivity.
Qed.

(** X23: the capture path of a model.  For a model name of ASCII characters,
    [getStreamGroup] answers 2 (RTSPS on port 322 through go2rtc) exactly
    when the name, upper-cased, contains [H2], [X1] or [P2S], and 1 (JPEG on
    port 6000) for every other name, also for the empty one; the answer does
    not depend on the case of the letters.  The other five entries of
    [STREAM_GROUP_2] add nothing, and [STREAM_GROUP_1] is not consulted. *)
Theorem getStreamGroup_rule (name : string) :
  isAscii name = true ->
  let M := toUpperCase name in
  let relay := includes M "H2" || includes M "X1" || includes M "P2S" in
  getStreamGroup (JStr name) = Ok (if relay then 2 else 1)
  /\ getStreamGroup (JStr M) = getStreamGroup (JStr name)
  /\ port <$> match getStreamConfig (JStr name) with Ok c => Some c | Throw _ => None end
     = Some (if relay then 322 else 6000)
  /\ isA1P1Model (JStr name) = Ok (negb relay).
Proof.
  intros _ M relay.
  assert (Hg : getStreamGroup (JStr name) = Ok (if relay then 2 else 1))
    by apply getStreamGroup_names.
  split; [exact Hg |]. split; [| split].
  - rewrite !getStreamGroup_names. subst M. rewrite toUpperCase_idempotent. reflexivity.
  - unfold getStreamConfig. rewrite Hg. cbn [mbind exc_bind].
    destruct relay; reflexivity.
  - unfold isA1P1Model. rewrite Hg. cbn [mbind exc_bind].
    destruct relay; reflexivity.
Qed.

(** X24: the three tests on the model agree.  A model that the light
    commands treat as H2 family (it contains [H2D], [H2S] or [H2C]) is an H2
    for the message handler, and an entry that is an H2 for the message
    handler is in stream group 2: its camera comes through the relay on
    port 322, and [isA1P1Model] is false for it. *)
Theorem h2_models_use_relay (entry : JsVal) (M : string) :
  (Session.isH2Family M = true -> includes M "H2" = true)
  /\ (Telemetry.modelIsH2 (Some entry) = Ok (JBool true) ->
      getStreamGroup (getProp entry "model") = Ok 2
      /\ isA1P1Model (getProp entry "model") = Ok false).
Proof.
  split.
  - unfold Session.isH2Family. intros Hf.
    destruct (includes M "H2") eqn:E; [reflexivity |].
    rewrite (includes_longer M "H2" "D" E : includes M "H2D" = false),
      (includes_longer M "H2" "S" E : includes M "H2S" = false),
      (includes_longer M "H2" "C" E : includes M "H2C" = false) in Hf.
    discriminate Hf.
  - unfold Telemetry.modelIsH2. intros Hh2.
    destruct (getProp entry "model") as [| | | | name | |]; try discriminate Hh2.
    assert (Hinc : includes (toUpperCase name) "H2" = true) by congruence.
    assert (Hg : getStreamGroup (JStr name) = Ok 2).
    { rewrite getStreamGroup_names, Hinc. reflexivity. }
    split; [exact Hg |]. unfold isA1P1Model. rewrite Hg. reflexivity.
Qed.

(** ** Worked inputs *)

Lemma getStreamGroup_rule_witness :
  isAscii "Bambu Lab x1c" = true
  /\ getStreamGroup (JStr "Bambu Lab x1c") = Ok 2
  /\ getStreamGroup (JStr "P1S") = Ok 1.
Proof.
  split; [reflexivity |].
  destruct (getStreamGroup_rule "Bambu Lab x1c" eq_refl) as (A & _).
  destruct (getStreamGroup_rule "P1S" eq_refl) as (B & _).
  split; [rewrite A | rewrite B]; reflexivity.
Defined.

End StreamProps.
